(** * Satellite telemetry reader: frame decoder, calibration, collector and
    deduplication, embedded from the C sources

    The development follows the layout of the repository:
    - [extended_tools.c]: [byte16_swap], [byte32_swap], [array_duplicate_removal];
    - [beacon_frame_schema.h/.c]: the frame schema and [read_data_frame];
    - [thermal_calibrated.c], [sun_sensors_calibrated.c]: calibration and the
      timestamp comparators;
    - [main.c]: the growable record arrays filled by the read loop.

    Conventions of the embedding.
    - [uint16_t], [uint32_t], [int16_t], [int32_t] are [Z] with the wrap-around
      of every conversion written out; [uint8_t] is a [byte].
    - The host is little-endian (the code swaps the big-endian file fields on
      that assumption, [IS_BIG_ENDIAN]): the object representation of an integer
      is its little-endian byte list.
    - A [FILE*] is the list of bytes not consumed yet; a pointer that may be
      null is an [option].
    - [float] is IEEE-754 binary32, computed with the Standard Library's
      [SpecFloat] operations at precision 24. *)

From Stdlib Require Import ZArith Lia List Bool Sorting.Sorted Permutation.
From Stdlib Require Import Floats.SpecFloat.
From Stdlib Require Strings.String.
From stdpp Require Import base list sorting.
From coqutil Require Import Byte Word.LittleEndianList Z.bitblast Z.prove_Zeq_bitwise.
Import ListNotations.
Local Open Scope Z_scope.

(** ** C scalar types *)

Definition uint8_t := byte.
Definition uint16_t := Z.
Definition uint32_t := Z.
Definition int16_t := Z.
Definition int32_t := Z.

(** Conversions to a fixed-width integer type (value modulo [2^w]; the signed
    ones are the two's complement reading every supported compiler gives). *)
Definition to_uint16 (z : Z) : uint16_t := z mod 2 ^ 16.
Definition to_uint32 (z : Z) : uint32_t := z mod 2 ^ 32.
Definition to_int16 (z : Z) : int16_t := (z + 2 ^ 15) mod 2 ^ 16 - 2 ^ 15.
Definition to_int32 (z : Z) : int32_t := (z + 2 ^ 31) mod 2 ^ 32 - 2 ^ 31.

(** ** extended_tools.h / extended_tools.c *)

(** [typedef struct { uint8_t b[3]; } uint24_t;] *)
Record uint24_t := Build_uint24_t { b_0 : uint8_t; b_1 : uint8_t; b_2 : uint8_t }.

(** [(uint16_t)((value_to_swap >> 8) | (value_to_swap << 8))]: the operand is
    promoted to [int], where the left shift cannot overflow; the cast wraps. *)
Definition byte16_swap (value_to_swap : uint16_t) : uint16_t :=
  to_uint16 (Z.lor (Z.shiftr value_to_swap 8) (Z.shiftl value_to_swap 8)).

(** The four masked and shifted bytes, in [uint32_t] arithmetic. *)
Definition byte32_swap (value_to_swap : uint32_t) : uint32_t :=
  Z.lor (Z.lor (Z.lor
    (to_uint32 (Z.shiftl (Z.land value_to_swap 0x000000FF) 24))
    (to_uint32 (Z.shiftl (Z.land value_to_swap 0x0000FF00) 8)))
    (Z.shiftr (Z.land value_to_swap 0x00FF0000) 8))
    (Z.shiftr (Z.land value_to_swap 0xFF000000) 24).

(** ** Object representation *)

(** What [fread] and [sizeof] need to know of a C type: its size, the bytes of a
    value in memory order, the value a byte sequence of that size denotes, and
    the values the type holds. *)
Record ctype (T : Type) : Type := CType {
  sizeof : nat;
  to_bytes : T -> list byte;
  of_bytes : list byte -> T;
  in_range : T -> Prop
}.
Arguments CType {T}.
Arguments sizeof {T}.
Arguments to_bytes {T}.
Arguments of_bytes {T}.
Arguments in_range {T}.

(** The laws [fread] relies on: a value has [sizeof] bytes, and bytes and
    values in range determine each other. *)
Record ctype_ok {T : Type} (c : ctype T) : Prop := {
  to_bytes_length : forall v, length (to_bytes c v) = sizeof c;
  to_of_bytes : forall bs, length bs = sizeof c -> to_bytes c (of_bytes c bs) = bs;
  of_to_bytes : forall v, in_range c v -> of_bytes c (to_bytes c v) = v;
  of_bytes_in_range : forall bs, length bs = sizeof c -> in_range c (of_bytes c bs)
}.

Definition uint8_t_c : ctype uint8_t :=
  CType 1%nat (fun v => [v]) (fun bs => nth 0 bs Byte.x00) (fun _ => True).
Definition uint16_t_c : ctype uint16_t :=
  CType 2%nat (le_split 2) le_combine (fun v => 0 <= v < 2 ^ 16).
Definition uint32_t_c : ctype uint32_t :=
  CType 4%nat (le_split 4) le_combine (fun v => 0 <= v < 2 ^ 32).
Definition int16_t_c : ctype int16_t :=
  CType 2%nat (le_split 2) (fun bs => to_int16 (le_combine bs))
        (fun v => - 2 ^ 15 <= v < 2 ^ 15).
Definition int32_t_c : ctype int32_t :=
  CType 4%nat (le_split 4) (fun bs => to_int32 (le_combine bs))
        (fun v => - 2 ^ 31 <= v < 2 ^ 31).
Definition uint24_t_c : ctype uint24_t :=
  CType 3%nat (fun v => [b_0 v; b_1 v; b_2 v])
        (fun bs => Build_uint24_t (nth 0 bs Byte.x00) (nth 1 bs Byte.x00) (nth 2 bs Byte.x00))
        (fun _ => True).

(** ** beacon_frame_schema.h *)

Definition IS_BIG_ENDIAN : bool := true.

(** [enum FrameID] *)
Definition PLATFORM_ID : Z := 0x0001.
Definition MEMORY_ID : Z := 0x0101.
Definition CDH_ID : Z := 0x0201.
Definition POWER_ID : Z := 0x0301.
Definition THERMAL_ID : Z := 0x0401.
Definition AOCS_ID : Z := 0x0501.
Definition PAYLOAD_ID : Z := 0x0601.

Inductive ReadFileReturnType := READ_OK | READ_FAIL | READ_EOF.

Record BeaconHeader := Build_BeaconHeader { beacon_id : uint24_t }.

Module Schema.

Record PlatformTelemetrySchema := Build_PlatformTelemetrySchema {
  platform_telemetry_id : uint16_t;
  uptime_s : uint32_t;
  rtc_s : uint32_t;
  resetCount : uint24_t;
  currentMode : uint8_t;
  lastBootReason : uint32_t
}.

Record MemoryTelemetrySchema := Build_MemoryTelemetrySchema {
  memory_telemetry_id : uint16_t;
  heap_free_bytes : uint32_t
}.

Record CDHTelemetrySchema := Build_CDHTelemetrySchema {
  cdh_id : uint16_t;
  lastSeenSequenceNumber : uint32_t;
  antennaDeployStatus : uint8_t
}.

Record PowerTelemetrySchema := Build_PowerTelemetrySchema {
  power_telemetry_id : uint16_t;
  low_voltage_counter : uint16_t;
  nice_battery_mV : uint16_t;
  raw_battery_mV : uint16_t;
  battery_A : uint16_t;
  pcm_3v3_V : uint16_t;
  pcm_3v3_A : uint16_t;
  pcm_5v_V : uint16_t;
  pcm_5v_A : uint16_t
}.

Record ThermalTelemetrySchema := Build_ThermalTelemetrySchema {
  thermal_telemetry_id : uint16_t;
  CPU_C : int16_t;
  mirror_cell_C : int16_t
}.

Record AOCSTelemetrySchema := Build_AOCSTelemetrySchema {
  aocs_telemetry_id : uint16_t;
  aocs_mode : uint32_t;
  sunvectorX : int16_t;
  sunvectorY : int16_t;
  sunvectorZ : int16_t;
  magnetometerX_mg : int16_t;
  magnetometerY_mg : int16_t;
  magnetometerZ_mg : int16_t;
  gyroX_dps : int16_t;
  gyroY_dps : int16_t;
  gyroZ_dps : int16_t;
  temperature_IMU_C : int16_t;
  fine_gyroX_dps : int32_t;
  fine_gyroY_dps : int32_t;
  fine_gyroZ_dps : int32_t;
  wheel_1_radsec : int16_t;
  wheel_2_radsec : int16_t;
  wheel_3_radsec : int16_t;
  wheel_4_radsec : int16_t
}.

Record PayloadTelemetrySchema := Build_PayloadTelemetrySchema {
  payload_telemetry_id : uint16_t;
  experimentsRun : uint16_t;
  experimentsFailed : uint16_t;
  lastExperimentRun : int16_t;
  currentState : uint8_t
}.

Record BeaconFrame := Build_BeaconFrame {
  platform : PlatformTelemetrySchema;
  memory : MemoryTelemetrySchema;
  cdh : CDHTelemetrySchema;
  power : PowerTelemetrySchema;
  thermal : ThermalTelemetrySchema;
  aocs : AOCSTelemetrySchema;
  payload : PayloadTelemetrySchema
}.

End Schema.
Import Schema.

(** Assignment through a pointer to one member ([out->platform.uptime_s = v]):
    the section with that member replaced, and the frame with that section
    replaced. *)
Definition set_platform_telemetry_id (v : uint16_t) (s : PlatformTelemetrySchema) :
    PlatformTelemetrySchema :=
  let '(Build_PlatformTelemetrySchema x0 x1 x2 x3 x4 x5) := s in
  Build_PlatformTelemetrySchema v x1 x2 x3 x4 x5.
Definition set_uptime_s (v : uint32_t) (s : PlatformTelemetrySchema) :
    PlatformTelemetrySchema :=
  let '(Build_PlatformTelemetrySchema x0 x1 x2 x3 x4 x5) := s in
  Build_PlatformTelemetrySchema x0 v x2 x3 x4 x5.
Definition set_rtc_s (v : uint32_t) (s : PlatformTelemetrySchema) :
    PlatformTelemetrySchema :=
  let '(Build_PlatformTelemetrySchema x0 x1 x2 x3 x4 x5) := s in
  Build_PlatformTelemetrySchema x0 x1 v x3 x4 x5.
Definition set_resetCount (v : uint24_t) (s : PlatformTelemetrySchema) :
    PlatformTelemetrySchema :=
  let '(Build_PlatformTelemetrySchema x0 x1 x2 x3 x4 x5) := s in
  Build_PlatformTelemetrySchema x0 x1 x2 v x4 x5.
Definition set_currentMode (v : uint8_t) (s : PlatformTelemetrySchema) :
    PlatformTelemetrySchema :=
  let '(Build_PlatformTelemetrySchema x0 x1 x2 x3 x4 x5) := s in
  Build_PlatformTelemetrySchema x0 x1 x2 x3 v x5.
Definition set_lastBootReason (v : uint32_t) (s : PlatformTelemetrySchema) :
    PlatformTelemetrySchema :=
  let '(Build_PlatformTelemetrySchema x0 x1 x2 x3 x4 x5) := s in
  Build_PlatformTelemetrySchema x0 x1 x2 x3 x4 v.

Definition set_memory_telemetry_id (v : uint16_t) (s : MemoryTelemetrySchema) :
    MemoryTelemetrySchema :=
  let '(Build_MemoryTelemetrySchema x0 x1) := s in
  Build_MemoryTelemetrySchema v x1.
Definition set_heap_free_bytes (v : uint32_t) (s : MemoryTelemetrySchema) :
    MemoryTelemetrySchema :=
  let '(Build_MemoryTelemetrySchema x0 x1) := s in
  Build_MemoryTelemetrySchema x0 v.

Definition set_cdh_id (v : uint16_t) (s : CDHTelemetrySchema) :
    CDHTelemetrySchema :=
  let '(Build_CDHTelemetrySchema x0 x1 x2) := s in
  Build_CDHTelemetrySchema v x1 x2.
Definition set_lastSeenSequenceNumber (v : uint32_t) (s : CDHTelemetrySchema) :
    CDHTelemetrySchema :=
  let '(Build_CDHTelemetrySchema x0 x1 x2) := s in
  Build_CDHTelemetrySchema x0 v x2.
Definition set_antennaDeployStatus (v : uint8_t) (s : CDHTelemetrySchema) :
    CDHTelemetrySchema :=
  let '(Build_CDHTelemetrySchema x0 x1 x2) := s in
  Build_CDHTelemetrySchema x0 x1 v.

Definition set_power_telemetry_id (v : uint16_t) (s : PowerTelemetrySchema) :
    PowerTelemetrySchema :=
  let '(Build_PowerTelemetrySchema x0 x1 x2 x3 x4 x5 x6 x7 x8) := s in
  Build_PowerTelemetrySchema v x1 x2 x3 x4 x5 x6 x7 x8.
Definition set_low_voltage_counter (v : uint16_t) (s : PowerTelemetrySchema) :
    PowerTelemetrySchema :=
  let '(Build_PowerTelemetrySchema x0 x1 x2 x3 x4 x5 x6 x7 x8) := s in
  Build_PowerTelemetrySchema x0 v x2 x3 x4 x5 x6 x7 x8.
Definition set_nice_battery_mV (v : uint16_t) (s : PowerTelemetrySchema) :
    PowerTelemetrySchema :=
  let '(Build_PowerTelemetrySchema x0 x1 x2 x3 x4 x5 x6 x7 x8) := s in
  Build_PowerTelemetrySchema x0 x1 v x3 x4 x5 x6 x7 x8.
Definition set_raw_battery_mV (v : uint16_t) (s : PowerTelemetrySchema) :
    PowerTelemetrySchema :=
  let '(Build_PowerTelemetrySchema x0 x1 x2 x3 x4 x5 x6 x7 x8) := s in
  Build_PowerTelemetrySchema x0 x1 x2 v x4 x5 x6 x7 x8.
Definition set_battery_A (v : uint16_t) (s : PowerTelemetrySchema) :
    PowerTelemetrySchema :=
  let '(Build_PowerTelemetrySchema x0 x1 x2 x3 x4 x5 x6 x7 x8) := s in
  Build_PowerTelemetrySchema x0 x1 x2 x3 v x5 x6 x7 x8.
Definition set_pcm_3v3_V (v : uint16_t) (s : PowerTelemetrySchema) :
    PowerTelemetrySchema :=
  let '(Build_PowerTelemetrySchema x0 x1 x2 x3 x4 x5 x6 x7 x8) := s in
  Build_PowerTelemetrySchema x0 x1 x2 x3 x4 v x6 x7 x8.
Definition set_pcm_3v3_A (v : uint16_t) (s : PowerTelemetrySchema) :
    PowerTelemetrySchema :=
  let '(Build_PowerTelemetrySchema x0 x1 x2 x3 x4 x5 x6 x7 x8) := s in
  Build_PowerTelemetrySchema x0 x1 x2 x3 x4 x5 v x7 x8.
Definition set_pcm_5v_V (v : uint16_t) (s : PowerTelemetrySchema) :
    PowerTelemetrySchema :=
  let '(Build_PowerTelemetrySchema x0 x1 x2 x3 x4 x5 x6 x7 x8) := s in
  Build_PowerTelemetrySchema x0 x1 x2 x3 x4 x5 x6 v x8.
Definition set_pcm_5v_A (v : uint16_t) (s : PowerTelemetrySchema) :
    PowerTelemetrySchema :=
  let '(Build_PowerTelemetrySchema x0 x1 x2 x3 x4 x5 x6 x7 x8) := s in
  Build_PowerTelemetrySchema x0 x1 x2 x3 x4 x5 x6 x7 v.

Definition set_thermal_telemetry_id (v : uint16_t) (s : ThermalTelemetrySchema) :
    ThermalTelemetrySchema :=
  let '(Build_ThermalTelemetrySchema x0 x1 x2) := s in
  Build_ThermalTelemetrySchema v x1 x2.
Definition set_CPU_C (v : int16_t) (s : ThermalTelemetrySchema) :
    ThermalTelemetrySchema :=
  let '(Build_ThermalTelemetrySchema x0 x1 x2) := s in
  Build_ThermalTelemetrySchema x0 v x2.
Definition set_mirror_cell_C (v : int16_t) (s : ThermalTelemetrySchema) :
    ThermalTelemetrySchema :=
  let '(Build_ThermalTelemetrySchema x0 x1 x2) := s in
  Build_ThermalTelemetrySchema x0 x1 v.

Definition set_aocs_telemetry_id (v : uint16_t) (s : AOCSTelemetrySchema) :
    AOCSTelemetrySchema :=
  let '(Build_AOCSTelemetrySchema x0 x1 x2 x3 x4 x5 x6 x7 x8 x9 x10 x11 x12 x13 x14 x15 x16
      x17 x18) := s in
  Build_AOCSTelemetrySchema v x1 x2 x3 x4 x5 x6 x7 x8 x9 x10 x11 x12 x13 x14 x15 x16 x17 x18.
Definition set_aocs_mode (v : uint32_t) (s : AOCSTelemetrySchema) :
    AOCSTelemetrySchema :=
  let '(Build_AOCSTelemetrySchema x0 x1 x2 x3 x4 x5 x6 x7 x8 x9 x10 x11 x12 x13 x14 x15 x16
      x17 x18) := s in
  Build_AOCSTelemetrySchema x0 v x2 x3 x4 x5 x6 x7 x8 x9 x10 x11 x12 x13 x14 x15 x16 x17 x18.
Definition set_sunvectorX (v : int16_t) (s : AOCSTelemetrySchema) :
    AOCSTelemetrySchema :=
  let '(Build_AOCSTelemetrySchema x0 x1 x2 x3 x4 x5 x6 x7 x8 x9 x10 x11 x12 x13 x14 x15 x16
      x17 x18) := s in
  Build_AOCSTelemetrySchema x0 x1 v x3 x4 x5 x6 x7 x8 x9 x10 x11 x12 x13 x14 x15 x16 x17 x18.
Definition set_sunvectorY (v : int16_t) (s : AOCSTelemetrySchema) :
    AOCSTelemetrySchema :=
  let '(Build_AOCSTelemetrySchema x0 x1 x2 x3 x4 x5 x6 x7 x8 x9 x10 x11 x12 x13 x14 x15 x16
      x17 x18) := s in
  Build_AOCSTelemetrySchema x0 x1 x2 v x4 x5 x6 x7 x8 x9 x10 x11 x12 x13 x14 x15 x16 x17 x18.
Definition set_sunvectorZ (v : int16_t) (s : AOCSTelemetrySchema) :
    AOCSTelemetrySchema :=
  let '(Build_AOCSTelemetrySchema x0 x1 x2 x3 x4 x5 x6 x7 x8 x9 x10 x11 x12 x13 x14 x15 x16
      x17 x18) := s in
  Build_AOCSTelemetrySchema x0 x1 x2 x3 v x5 x6 x7 x8 x9 x10 x11 x12 x13 x14 x15 x16 x17 x18.
Definition set_magnetometerX_mg (v : int16_t) (s : AOCSTelemetrySchema) :
    AOCSTelemetrySchema :=
  let '(Build_AOCSTelemetrySchema x0 x1 x2 x3 x4 x5 x6 x7 x8 x9 x10 x11 x12 x13 x14 x15 x16
      x17 x18) := s in
  Build_AOCSTelemetrySchema x0 x1 x2 x3 x4 v x6 x7 x8 x9 x10 x11 x12 x13 x14 x15 x16 x17 x18.
Definition set_magnetometerY_mg (v : int16_t) (s : AOCSTelemetrySchema) :
    AOCSTelemetrySchema :=
  let '(Build_AOCSTelemetrySchema x0 x1 x2 x3 x4 x5 x6 x7 x8 x9 x10 x11 x12 x13 x14 x15 x16
      x17 x18) := s in
  Build_AOCSTelemetrySchema x0 x1 x2 x3 x4 x5 v x7 x8 x9 x10 x11 x12 x13 x14 x15 x16 x17 x18.
Definition set_magnetometerZ_mg (v : int16_t) (s : AOCSTelemetrySchema) :
    AOCSTelemetrySchema :=
  let '(Build_AOCSTelemetrySchema x0 x1 x2 x3 x4 x5 x6 x7 x8 x9 x10 x11 x12 x13 x14 x15 x16
      x17 x18) := s in
  Build_AOCSTelemetrySchema x0 x1 x2 x3 x4 x5 x6 v x8 x9 x10 x11 x12 x13 x14 x15 x16 x17 x18.
Definition set_gyroX_dps (v : int16_t) (s : AOCSTelemetrySchema) :
    AOCSTelemetrySchema :=
  let '(Build_AOCSTelemetrySchema x0 x1 x2 x3 x4 x5 x6 x7 x8 x9 x10 x11 x12 x13 x14 x15 x16
      x17 x18) := s in
  Build_AOCSTelemetrySchema x0 x1 x2 x3 x4 x5 x6 x7 v x9 x10 x11 x12 x13 x14 x15 x16 x17 x18.
Definition set_gyroY_dps (v : int16_t) (s : AOCSTelemetrySchema) :
    AOCSTelemetrySchema :=
  let '(Build_AOCSTelemetrySchema x0 x1 x2 x3 x4 x5 x6 x7 x8 x9 x10 x11 x12 x13 x14 x15 x16
      x17 x18) := s in
  Build_AOCSTelemetrySchema x0 x1 x2 x3 x4 x5 x6 x7 x8 v x10 x11 x12 x13 x14 x15 x16 x17 x18.
Definition set_gyroZ_dps (v : int16_t) (s : AOCSTelemetrySchema) :
    AOCSTelemetrySchema :=
  let '(Build_AOCSTelemetrySchema x0 x1 x2 x3 x4 x5 x6 x7 x8 x9 x10 x11 x12 x13 x14 x15 x16
      x17 x18) := s in
  Build_AOCSTelemetrySchema x0 x1 x2 x3 x4 x5 x6 x7 x8 x9 v x11 x12 x13 x14 x15 x16 x17 x18.
Definition set_temperature_IMU_C (v : int16_t) (s : AOCSTelemetrySchema) :
    AOCSTelemetrySchema :=
  let '(Build_AOCSTelemetrySchema x0 x1 x2 x3 x4 x5 x6 x7 x8 x9 x10 x11 x12 x13 x14 x15 x16
      x17 x18) := s in
  Build_AOCSTelemetrySchema x0 x1 x2 x3 x4 x5 x6 x7 x8 x9 x10 v x12 x13 x14 x15 x16 x17 x18.
Definition set_fine_gyroX_dps (v : int32_t) (s : AOCSTelemetrySchema) :
    AOCSTelemetrySchema :=
  let '(Build_AOCSTelemetrySchema x0 x1 x2 x3 x4 x5 x6 x7 x8 x9 x10 x11 x12 x13 x14 x15 x16
      x17 x18) := s in
  Build_AOCSTelemetrySchema x0 x1 x2 x3 x4 x5 x6 x7 x8 x9 x10 x11 v x13 x14 x15 x16 x17 x18.
Definition set_fine_gyroY_dps (v : int32_t) (s : AOCSTelemetrySchema) :
    AOCSTelemetrySchema :=
  let '(Build_AOCSTelemetrySchema x0 x1 x2 x3 x4 x5 x6 x7 x8 x9 x10 x11 x12 x13 x14 x15 x16
      x17 x18) := s in
  Build_AOCSTelemetrySchema x0 x1 x2 x3 x4 x5 x6 x7 x8 x9 x10 x11 x12 v x14 x15 x16 x17 x18.
Definition set_fine_gyroZ_dps (v : int32_t) (s : AOCSTelemetrySchema) :
    AOCSTelemetrySchema :=
  let '(Build_AOCSTelemetrySchema x0 x1 x2 x3 x4 x5 x6 x7 x8 x9 x10 x11 x12 x13 x14 x15 x16
      x17 x18) := s in
  Build_AOCSTelemetrySchema x0 x1 x2 x3 x4 x5 x6 x7 x8 x9 x10 x11 x12 x13 v x15 x16 x17 x18.
Definition set_wheel_1_radsec (v : int16_t) (s : AOCSTelemetrySchema) :
    AOCSTelemetrySchema :=
  let '(Build_AOCSTelemetrySchema x0 x1 x2 x3 x4 x5 x6 x7 x8 x9 x10 x11 x12 x13 x14 x15 x16
      x17 x18) := s in
  Build_AOCSTelemetrySchema x0 x1 x2 x3 x4 x5 x6 x7 x8 x9 x10 x11 x12 x13 x14 v x16 x17 x18.
Definition set_wheel_2_radsec (v : int16_t) (s : AOCSTelemetrySchema) :
    AOCSTelemetrySchema :=
  let '(Build_AOCSTelemetrySchema x0 x1 x2 x3 x4 x5 x6 x7 x8 x9 x10 x11 x12 x13 x14 x15 x16
      x17 x18) := s in
  Build_AOCSTelemetrySchema x0 x1 x2 x3 x4 x5 x6 x7 x8 x9 x10 x11 x12 x13 x14 x15 v x17 x18.
Definition set_wheel_3_radsec (v : int16_t) (s : AOCSTelemetrySchema) :
    AOCSTelemetrySchema :=
  let '(Build_AOCSTelemetrySchema x0 x1 x2 x3 x4 x5 x6 x7 x8 x9 x10 x11 x12 x13 x14 x15 x16
      x17 x18) := s in
  Build_AOCSTelemetrySchema x0 x1 x2 x3 x4 x5 x6 x7 x8 x9 x10 x11 x12 x13 x14 x15 x16 v x18.
Definition set_wheel_4_radsec (v : int16_t) (s : AOCSTelemetrySchema) :
    AOCSTelemetrySchema :=
  let '(Build_AOCSTelemetrySchema x0 x1 x2 x3 x4 x5 x6 x7 x8 x9 x10 x11 x12 x13 x14 x15 x16
      x17 x18) := s in
  Build_AOCSTelemetrySchema x0 x1 x2 x3 x4 x5 x6 x7 x8 x9 x10 x11 x12 x13 x14 x15 x16 x17 v.

Definition set_payload_telemetry_id (v : uint16_t) (s : PayloadTelemetrySchema) :
    PayloadTelemetrySchema :=
  let '(Build_PayloadTelemetrySchema x0 x1 x2 x3 x4) := s in
  Build_PayloadTelemetrySchema v x1 x2 x3 x4.
Definition set_experimentsRun (v : uint16_t) (s : PayloadTelemetrySchema) :
    PayloadTelemetrySchema :=
  let '(Build_PayloadTelemetrySchema x0 x1 x2 x3 x4) := s in
  Build_PayloadTelemetrySchema x0 v x2 x3 x4.
Definition set_experimentsFailed (v : uint16_t) (s : PayloadTelemetrySchema) :
    PayloadTelemetrySchema :=
  let '(Build_PayloadTelemetrySchema x0 x1 x2 x3 x4) := s in
  Build_PayloadTelemetrySchema x0 x1 v x3 x4.
Definition set_lastExperimentRun (v : int16_t) (s : PayloadTelemetrySchema) :
    PayloadTelemetrySchema :=
  let '(Build_PayloadTelemetrySchema x0 x1 x2 x3 x4) := s in
  Build_PayloadTelemetrySchema x0 x1 x2 v x4.
Definition set_currentState (v : uint8_t) (s : PayloadTelemetrySchema) :
    PayloadTelemetrySchema :=
  let '(Build_PayloadTelemetrySchema x0 x1 x2 x3 x4) := s in
  Build_PayloadTelemetrySchema x0 x1 x2 x3 v.

Definition on_platform (g : PlatformTelemetrySchema -> PlatformTelemetrySchema) (o : BeaconFrame) :
    BeaconFrame :=
  Build_BeaconFrame (g (platform o)) (memory o) (cdh o) (power o) (thermal o) (aocs o)
    (payload o).
Definition on_memory (g : MemoryTelemetrySchema -> MemoryTelemetrySchema) (o : BeaconFrame) :
    BeaconFrame :=
  Build_BeaconFrame (platform o) (g (memory o)) (cdh o) (power o) (thermal o) (aocs o)
    (payload o).
Definition on_cdh (g : CDHTelemetrySchema -> CDHTelemetrySchema) (o : BeaconFrame) :
    BeaconFrame :=
  Build_BeaconFrame (platform o) (memory o) (g (cdh o)) (power o) (thermal o) (aocs o)
    (payload o).
Definition on_power (g : PowerTelemetrySchema -> PowerTelemetrySchema) (o : BeaconFrame) :
    BeaconFrame :=
  Build_BeaconFrame (platform o) (memory o) (cdh o) (g (power o)) (thermal o) (aocs o)
    (payload o).
Definition on_thermal (g : ThermalTelemetrySchema -> ThermalTelemetrySchema) (o : BeaconFrame) :
    BeaconFrame :=
  Build_BeaconFrame (platform o) (memory o) (cdh o) (power o) (g (thermal o)) (aocs o)
    (payload o).
Definition on_aocs (g : AOCSTelemetrySchema -> AOCSTelemetrySchema) (o : BeaconFrame) :
    BeaconFrame :=
  Build_BeaconFrame (platform o) (memory o) (cdh o) (power o) (thermal o) (g (aocs o))
    (payload o).
Definition on_payload (g : PayloadTelemetrySchema -> PayloadTelemetrySchema) (o : BeaconFrame) :
    BeaconFrame :=
  Build_BeaconFrame (platform o) (memory o) (cdh o) (power o) (thermal o) (aocs o) (g (payload o)).

(** ** beacon_frame_schema.c *)

Definition FILE := list byte.

(** A pointer to a member of the output frame: the member's type, how to read
    it and how to assign it. *)
Record field := Field {
  ftype : Type;
  frep : ctype ftype;
  fget : BeaconFrame -> ftype;
  fset : ftype -> BeaconFrame -> BeaconFrame
}.
Arguments Field {ftype}.

Definition out_platform_platform_telemetry_id : field :=
  Field uint16_t_c (fun o => platform_telemetry_id (platform o))
        (fun v => on_platform (set_platform_telemetry_id v)).
Definition out_platform_uptime_s : field :=
  Field uint32_t_c (fun o => uptime_s (platform o))
        (fun v => on_platform (set_uptime_s v)).
Definition out_platform_rtc_s : field :=
  Field uint32_t_c (fun o => rtc_s (platform o))
        (fun v => on_platform (set_rtc_s v)).
Definition out_platform_resetCount : field :=
  Field uint24_t_c (fun o => resetCount (platform o))
        (fun v => on_platform (set_resetCount v)).
Definition out_platform_currentMode : field :=
  Field uint8_t_c (fun o => currentMode (platform o))
        (fun v => on_platform (set_currentMode v)).
Definition out_platform_lastBootReason : field :=
  Field uint32_t_c (fun o => lastBootReason (platform o))
        (fun v => on_platform (set_lastBootReason v)).

Definition out_memory_memory_telemetry_id : field :=
  Field uint16_t_c (fun o => memory_telemetry_id (memory o))
        (fun v => on_memory (set_memory_telemetry_id v)).
Definition out_memory_heap_free_bytes : field :=
  Field uint32_t_c (fun o => heap_free_bytes (memory o))
        (fun v => on_memory (set_heap_free_bytes v)).

Definition out_cdh_cdh_id : field :=
  Field uint16_t_c (fun o => cdh_id (cdh o))
        (fun v => on_cdh (set_cdh_id v)).
Definition out_cdh_lastSeenSequenceNumber : field :=
  Field uint32_t_c (fun o => lastSeenSequenceNumber (cdh o))
        (fun v => on_cdh (set_lastSeenSequenceNumber v)).
Definition out_cdh_antennaDeployStatus : field :=
  Field uint8_t_c (fun o => antennaDeployStatus (cdh o))
        (fun v => on_cdh (set_antennaDeployStatus v)).

Definition out_power_power_telemetry_id : field :=
  Field uint16_t_c (fun o => power_telemetry_id (power o))
        (fun v => on_power (set_power_telemetry_id v)).
Definition out_power_low_voltage_counter : field :=
  Field uint16_t_c (fun o => low_voltage_counter (power o))
        (fun v => on_power (set_low_voltage_counter v)).
Definition out_power_nice_battery_mV : field :=
  Field uint16_t_c (fun o => nice_battery_mV (power o))
        (fun v => on_power (set_nice_battery_mV v)).
Definition out_power_raw_battery_mV : field :=
  Field uint16_t_c (fun o => raw_battery_mV (power o))
        (fun v => on_power (set_raw_battery_mV v)).
Definition out_power_battery_A : field :=
  Field uint16_t_c (fun o => battery_A (power o))
        (fun v => on_power (set_battery_A v)).
Definition out_power_pcm_3v3_V : field :=
  Field uint16_t_c (fun o => pcm_3v3_V (power o))
        (fun v => on_power (set_pcm_3v3_V v)).
Definition out_power_pcm_3v3_A : field :=
  Field uint16_t_c (fun o => pcm_3v3_A (power o))
        (fun v => on_power (set_pcm_3v3_A v)).
Definition out_power_pcm_5v_V : field :=
  Field uint16_t_c (fun o => pcm_5v_V (power o))
        (fun v => on_power (set_pcm_5v_V v)).
Definition out_power_pcm_5v_A : field :=
  Field uint16_t_c (fun o => pcm_5v_A (power o))
        (fun v => on_power (set_pcm_5v_A v)).

Definition out_thermal_thermal_telemetry_id : field :=
  Field uint16_t_c (fun o => thermal_telemetry_id (thermal o))
        (fun v => on_thermal (set_thermal_telemetry_id v)).
Definition out_thermal_CPU_C : field :=
  Field int16_t_c (fun o => CPU_C (thermal o))
        (fun v => on_thermal (set_CPU_C v)).
Definition out_thermal_mirror_cell_C : field :=
  Field int16_t_c (fun o => mirror_cell_C (thermal o))
        (fun v => on_thermal (set_mirror_cell_C v)).

Definition out_aocs_aocs_telemetry_id : field :=
  Field uint16_t_c (fun o => aocs_telemetry_id (aocs o))
        (fun v => on_aocs (set_aocs_telemetry_id v)).
Definition out_aocs_aocs_mode : field :=
  Field uint32_t_c (fun o => aocs_mode (aocs o))
        (fun v => on_aocs (set_aocs_mode v)).
Definition out_aocs_sunvectorX : field :=
  Field int16_t_c (fun o => sunvectorX (aocs o))
        (fun v => on_aocs (set_sunvectorX v)).
Definition out_aocs_sunvectorY : field :=
  Field int16_t_c (fun o => sunvectorY (aocs o))
        (fun v => on_aocs (set_sunvectorY v)).
Definition out_aocs_sunvectorZ : field :=
  Field int16_t_c (fun o => sunvectorZ (aocs o))
        (fun v => on_aocs (set_sunvectorZ v)).
Definition out_aocs_magnetometerX_mg : field :=
  Field int16_t_c (fun o => magnetometerX_mg (aocs o))
        (fun v => on_aocs (set_magnetometerX_mg v)).
Definition out_aocs_magnetometerY_mg : field :=
  Field int16_t_c (fun o => magnetometerY_mg (aocs o))
        (fun v => on_aocs (set_magnetometerY_mg v)).
Definition out_aocs_magnetometerZ_mg : field :=
  Field int16_t_c (fun o => magnetometerZ_mg (aocs o))
        (fun v => on_aocs (set_magnetometerZ_mg v)).
Definition out_aocs_gyroX_dps : field :=
  Field int16_t_c (fun o => gyroX_dps (aocs o))
        (fun v => on_aocs (set_gyroX_dps v)).
Definition out_aocs_gyroY_dps : field :=
  Field int16_t_c (fun o => gyroY_dps (aocs o))
        (fun v => on_aocs (set_gyroY_dps v)).
Definition out_aocs_gyroZ_dps : field :=
  Field int16_t_c (fun o => gyroZ_dps (aocs o))
        (fun v => on_aocs (set_gyroZ_dps v)).
Definition out_aocs_temperature_IMU_C : field :=
  Field int16_t_c (fun o => temperature_IMU_C (aocs o))
        (fun v => on_aocs (set_temperature_IMU_C v)).
Definition out_aocs_fine_gyroX_dps : field :=
  Field int32_t_c (fun o => fine_gyroX_dps (aocs o))
        (fun v => on_aocs (set_fine_gyroX_dps v)).
Definition out_aocs_fine_gyroY_dps : field :=
  Field int32_t_c (fun o => fine_gyroY_dps (aocs o))
        (fun v => on_aocs (set_fine_gyroY_dps v)).
Definition out_aocs_fine_gyroZ_dps : field :=
  Field int32_t_c (fun o => fine_gyroZ_dps (aocs o))
        (fun v => on_aocs (set_fine_gyroZ_dps v)).
Definition out_aocs_wheel_1_radsec : field :=
  Field int16_t_c (fun o => wheel_1_radsec (aocs o))
        (fun v => on_aocs (set_wheel_1_radsec v)).
Definition out_aocs_wheel_2_radsec : field :=
  Field int16_t_c (fun o => wheel_2_radsec (aocs o))
        (fun v => on_aocs (set_wheel_2_radsec v)).
Definition out_aocs_wheel_3_radsec : field :=
  Field int16_t_c (fun o => wheel_3_radsec (aocs o))
        (fun v => on_aocs (set_wheel_3_radsec v)).
Definition out_aocs_wheel_4_radsec : field :=
  Field int16_t_c (fun o => wheel_4_radsec (aocs o))
        (fun v => on_aocs (set_wheel_4_radsec v)).

Definition out_payload_payload_telemetry_id : field :=
  Field uint16_t_c (fun o => payload_telemetry_id (payload o))
        (fun v => on_payload (set_payload_telemetry_id v)).
Definition out_payload_experimentsRun : field :=
  Field uint16_t_c (fun o => experimentsRun (payload o))
        (fun v => on_payload (set_experimentsRun v)).
Definition out_payload_experimentsFailed : field :=
  Field uint16_t_c (fun o => experimentsFailed (payload o))
        (fun v => on_payload (set_experimentsFailed v)).
Definition out_payload_lastExperimentRun : field :=
  Field int16_t_c (fun o => lastExperimentRun (payload o))
        (fun v => on_payload (set_lastExperimentRun v)).
Definition out_payload_currentState : field :=
  Field uint8_t_c (fun o => currentState (payload o))
        (fun v => on_payload (set_currentState v)).


(** The state the body of [read_data_frame] works on: the stream and [*out]. *)
Record state := State { file : FILE; out : BeaconFrame }.

(** [fread(ptr, 1, n, file)]: takes the next [n] bytes, or all that are left,
    writes them over the first bytes of the object and returns their count. *)
Definition fread (fl : field) (n : nat) (s : state) : nat * state :=
  let got := take n (file s) in
  let object := got ++ drop (length got) (to_bytes (frep fl) (fget fl (out s))) in
  (length got, State (drop n (file s)) (fset fl (of_bytes (frep fl) object) (out s))).

(** The macro [READ_FIELD(file, ptr)]: an [fread] of [sizeof] the pointed object
    bytes, compared with that size. *)
Definition READ_FIELD (fl : field) (s : state) : bool * state :=
  let (n, s') := fread fl (sizeof (frep fl)) s in
  (Nat.eqb n (sizeof (frep fl)), s').

(** Statements that may return from the function: [Some r] is [return r;],
    [None] falls through to the next statement. *)
Definition stmt := state -> option ReadFileReturnType * state.

Definition Return (r : ReadFileReturnType) : stmt := fun s => (Some r, s).
Definition seq (a b : stmt) : stmt :=
  fun s => match a s with
           | (None, s') => b s'
           | (Some r, s') => (Some r, s')
           end.
(** [if (!c) a] for a condition with an effect, [if (c) a] for a pure one. *)
Definition ifnot (c : state -> bool * state) (a : stmt) : stmt :=
  fun s => let (ok, s') := c s in if ok then (None, s') else a s'.
Definition when (c : state -> bool) (a : stmt) : stmt :=
  fun s => if c s then a s else (None, s).

(** The identifier test [ID != (IS_BIG_ENDIAN ? byte16_swap(id) : id)] on a
    member [id] of the output frame. *)
Definition id_differs (ID : Z) (id : BeaconFrame -> uint16_t) (s : state) : bool :=
  negb (ID =? (if IS_BIG_ENDIAN then byte16_swap (id (out s)) else id (out s))).

Declare Scope stmt_scope.
Delimit Scope stmt_scope with stmt.
Notation "a ;; b" := (seq a b)
  (at level 100, b at level 200, right associativity) : stmt_scope.

#[local] Instance byte_inhabited : Inhabited byte := populate Byte.x00.
#[local] Instance byte_eq_dec : EqDecision byte := Byte.byte_eq_dec.

(** The search loop [for (;;)] over the sliding window [header_match]; [None]
    is [fgetc] returning [EOF], [Some] the stream left after the [break]. *)
Fixpoint find_beacon (header : BeaconHeader) (header_match : list uint8_t)
    (header_index : nat) (file : FILE) : option FILE :=
  match file with
  | [] => None
  | byte_read :: file =>
      let '(header_match, header_index) :=
        if Nat.ltb header_index 3
        then (<[header_index := byte_read]> header_match, S header_index)
        else
          let header_match := <[0%nat := header_match !!! 1%nat]> header_match in
          let header_match := <[1%nat := header_match !!! 2%nat]> header_match in
          (<[2%nat := byte_read]> header_match, header_index) in
      if Nat.eqb header_index 3
         && Byte.eqb (header_match !!! 0%nat) (b_0 (beacon_id header))
         && Byte.eqb (header_match !!! 1%nat) (b_1 (beacon_id header))
         && Byte.eqb (header_match !!! 2%nat) (b_2 (beacon_id header))
      then Some file
      else find_beacon header header_match header_index file
  end.

(** The field reads and identifier checks after the beacon was found (the
    diagnostics printed on a wrong identifier are not modelled). *)
Definition read_frame_fields : stmt :=
  (
  (* PLATFORM *)
  ifnot (READ_FIELD out_platform_platform_telemetry_id) (Return READ_FAIL) ;;
  when (id_differs PLATFORM_ID (fun o => platform_telemetry_id (platform o))) (Return READ_FAIL) ;;
  ifnot (READ_FIELD out_platform_uptime_s) (Return READ_FAIL) ;;
  ifnot (READ_FIELD out_platform_rtc_s) (Return READ_FAIL) ;;
  ifnot (READ_FIELD out_platform_resetCount) (Return READ_FAIL) ;;
  ifnot (READ_FIELD out_platform_currentMode) (Return READ_FAIL) ;;
  ifnot (READ_FIELD out_platform_lastBootReason) (Return READ_FAIL) ;;
  (* MEMORY *)
  ifnot (READ_FIELD out_memory_memory_telemetry_id) (Return READ_FAIL) ;;
  when (id_differs MEMORY_ID (fun o => memory_telemetry_id (memory o))) (Return READ_FAIL) ;;
  ifnot (READ_FIELD out_memory_heap_free_bytes) (Return READ_FAIL) ;;
  (* CDH *)
  ifnot (READ_FIELD out_cdh_cdh_id) (Return READ_FAIL) ;;
  when (id_differs CDH_ID (fun o => cdh_id (cdh o))) (Return READ_FAIL) ;;
  ifnot (READ_FIELD out_cdh_lastSeenSequenceNumber) (Return READ_FAIL) ;;
  ifnot (READ_FIELD out_cdh_antennaDeployStatus) (Return READ_FAIL) ;;
  (* POWER *)
  ifnot (READ_FIELD out_power_power_telemetry_id) (Return READ_FAIL) ;;
  when (id_differs POWER_ID (fun o => power_telemetry_id (power o))) (Return READ_FAIL) ;;
  ifnot (READ_FIELD out_power_low_voltage_counter) (Return READ_FAIL) ;;
  ifnot (READ_FIELD out_power_nice_battery_mV) (Return READ_FAIL) ;;
  ifnot (READ_FIELD out_power_raw_battery_mV) (Return READ_FAIL) ;;
  ifnot (READ_FIELD out_power_battery_A) (Return READ_FAIL) ;;
  ifnot (READ_FIELD out_power_pcm_3v3_V) (Return READ_FAIL) ;;
  ifnot (READ_FIELD out_power_pcm_3v3_A) (Return READ_FAIL) ;;
  ifnot (READ_FIELD out_power_pcm_5v_V) (Return READ_FAIL) ;;
  ifnot (READ_FIELD out_power_pcm_5v_A) (Return READ_FAIL) ;;
  (* THERMAL *)
  ifnot (READ_FIELD out_thermal_thermal_telemetry_id) (Return READ_FAIL) ;;
  when (id_differs THERMAL_ID (fun o => thermal_telemetry_id (thermal o))) (Return READ_FAIL) ;;
  ifnot (READ_FIELD out_thermal_CPU_C) (Return READ_FAIL) ;;
  ifnot (READ_FIELD out_thermal_mirror_cell_C) (Return READ_FAIL) ;;
  (* AOCS *)
  ifnot (READ_FIELD out_aocs_aocs_telemetry_id) (Return READ_FAIL) ;;
  when (id_differs AOCS_ID (fun o => aocs_telemetry_id (aocs o))) (Return READ_FAIL) ;;
  ifnot (READ_FIELD out_aocs_aocs_mode) (Return READ_FAIL) ;;
  ifnot (READ_FIELD out_aocs_sunvectorX) (Return READ_FAIL) ;;
  ifnot (READ_FIELD out_aocs_sunvectorY) (Return READ_FAIL) ;;
  ifnot (READ_FIELD out_aocs_sunvectorZ) (Return READ_FAIL) ;;
  ifnot (READ_FIELD out_aocs_magnetometerX_mg) (Return READ_FAIL) ;;
  ifnot (READ_FIELD out_aocs_magnetometerY_mg) (Return READ_FAIL) ;;
  ifnot (READ_FIELD out_aocs_magnetometerZ_mg) (Return READ_FAIL) ;;
  ifnot (READ_FIELD out_aocs_gyroX_dps) (Return READ_FAIL) ;;
  ifnot (READ_FIELD out_aocs_gyroY_dps) (Return READ_FAIL) ;;
  ifnot (READ_FIELD out_aocs_gyroZ_dps) (Return READ_FAIL) ;;
  ifnot (READ_FIELD out_aocs_temperature_IMU_C) (Return READ_FAIL) ;;
  ifnot (READ_FIELD out_aocs_fine_gyroX_dps) (Return READ_FAIL) ;;
  ifnot (READ_FIELD out_aocs_fine_gyroY_dps) (Return READ_FAIL) ;;
  ifnot (READ_FIELD out_aocs_fine_gyroZ_dps) (Return READ_FAIL) ;;
  ifnot (READ_FIELD out_aocs_wheel_1_radsec) (Return READ_FAIL) ;;
  ifnot (READ_FIELD out_aocs_wheel_2_radsec) (Return READ_FAIL) ;;
  ifnot (READ_FIELD out_aocs_wheel_3_radsec) (Return READ_FAIL) ;;
  ifnot (READ_FIELD out_aocs_wheel_4_radsec) (Return READ_FAIL) ;;
  (* PAYLOAD *)
  ifnot (READ_FIELD out_payload_payload_telemetry_id) (Return READ_FAIL) ;;
  when (id_differs PAYLOAD_ID (fun o => payload_telemetry_id (payload o))) (Return READ_FAIL) ;;
  ifnot (READ_FIELD out_payload_experimentsRun) (Return READ_FAIL) ;;
  ifnot (READ_FIELD out_payload_experimentsFailed) (Return READ_FAIL) ;;
  ifnot (READ_FIELD out_payload_lastExperimentRun) (Return READ_FAIL) ;;
  ifnot (READ_FIELD out_payload_currentState) (Return READ_FAIL) ;;
  (* all fields read correctly *)
  Return READ_OK
  )%stmt.

(** What the call returns once the beacon was found: the status, the stream and
    the frame the field reads leave. *)
Definition read_sections (file : FILE) (out : BeaconFrame)
    : ReadFileReturnType * option FILE * option BeaconFrame :=
  match read_frame_fields (State file out) with
  | (Some r, State file out) => (r, Some file, Some out)
  | (None, State file out) => (READ_OK, Some file, Some out)
  end.

Definition read_data_frame (file : option FILE) (header : BeaconHeader)
    (out : option BeaconFrame) : ReadFileReturnType * option FILE * option BeaconFrame :=
  match file, out with
  | Some f, Some o =>
      match find_beacon header [Byte.x00; Byte.x00; Byte.x00] 0 f with
      | None => (READ_EOF, Some [], Some o)
      | Some f' => read_sections f' o
      end
  | _, _ => (READ_FAIL, file, out)   (* [if (!file || !out) return READ_FAIL;] *)
  end.

(** *** The wire image of a frame

    The program has no encoder; these definitions state what "serializing all
    fields in schema order" means: the object bytes of every member, section by
    section, without padding. *)

Definition encode_platform (s : PlatformTelemetrySchema) : list byte :=
  to_bytes uint16_t_c (platform_telemetry_id s)
  ++ to_bytes uint32_t_c (uptime_s s)
  ++ to_bytes uint32_t_c (rtc_s s)
  ++ to_bytes uint24_t_c (resetCount s)
  ++ to_bytes uint8_t_c (currentMode s)
  ++ to_bytes uint32_t_c (lastBootReason s).
Definition encode_memory (s : MemoryTelemetrySchema) : list byte :=
  to_bytes uint16_t_c (memory_telemetry_id s)
  ++ to_bytes uint32_t_c (heap_free_bytes s).
Definition encode_cdh (s : CDHTelemetrySchema) : list byte :=
  to_bytes uint16_t_c (cdh_id s)
  ++ to_bytes uint32_t_c (lastSeenSequenceNumber s)
  ++ to_bytes uint8_t_c (antennaDeployStatus s).
Definition encode_power (s : PowerTelemetrySchema) : list byte :=
  to_bytes uint16_t_c (power_telemetry_id s)
  ++ to_bytes uint16_t_c (low_voltage_counter s)
  ++ to_bytes uint16_t_c (nice_battery_mV s)
  ++ to_bytes uint16_t_c (raw_battery_mV s)
  ++ to_bytes uint16_t_c (battery_A s)
  ++ to_bytes uint16_t_c (pcm_3v3_V s)
  ++ to_bytes uint16_t_c (pcm_3v3_A s)
  ++ to_bytes uint16_t_c (pcm_5v_V s)
  ++ to_bytes uint16_t_c (pcm_5v_A s).
Definition encode_thermal (s : ThermalTelemetrySchema) : list byte :=
  to_bytes uint16_t_c (thermal_telemetry_id s)
  ++ to_bytes int16_t_c (CPU_C s)
  ++ to_bytes int16_t_c (mirror_cell_C s).
Definition encode_aocs (s : AOCSTelemetrySchema) : list byte :=
  to_bytes uint16_t_c (aocs_telemetry_id s)
  ++ to_bytes uint32_t_c (aocs_mode s)
  ++ to_bytes int16_t_c (sunvectorX s)
  ++ to_bytes int16_t_c (sunvectorY s)
  ++ to_bytes int16_t_c (sunvectorZ s)
  ++ to_bytes int16_t_c (magnetometerX_mg s)
  ++ to_bytes int16_t_c (magnetometerY_mg s)
  ++ to_bytes int16_t_c (magnetometerZ_mg s)
  ++ to_bytes int16_t_c (gyroX_dps s)
  ++ to_bytes int16_t_c (gyroY_dps s)
  ++ to_bytes int16_t_c (gyroZ_dps s)
  ++ to_bytes int16_t_c (temperature_IMU_C s)
  ++ to_bytes int32_t_c (fine_gyroX_dps s)
  ++ to_bytes int32_t_c (fine_gyroY_dps s)
  ++ to_bytes int32_t_c (fine_gyroZ_dps s)
  ++ to_bytes int16_t_c (wheel_1_radsec s)
  ++ to_bytes int16_t_c (wheel_2_radsec s)
  ++ to_bytes int16_t_c (wheel_3_radsec s)
  ++ to_bytes int16_t_c (wheel_4_radsec s).
Definition encode_payload (s : PayloadTelemetrySchema) : list byte :=
  to_bytes uint16_t_c (payload_telemetry_id s)
  ++ to_bytes uint16_t_c (experimentsRun s)
  ++ to_bytes uint16_t_c (experimentsFailed s)
  ++ to_bytes int16_t_c (lastExperimentRun s)
  ++ to_bytes uint8_t_c (currentState s).

Definition encode_frame (o : BeaconFrame) : list byte :=
  encode_platform (platform o) ++ encode_memory (memory o) ++ encode_cdh (cdh o)
  ++ encode_power (power o) ++ encode_thermal (thermal o) ++ encode_aocs (aocs o)
  ++ encode_payload (payload o).

Definition beacon_bytes (header : BeaconHeader) : list byte :=
  to_bytes uint24_t_c (beacon_id header).

(** The bytes read so far end with the marker, and they do so for the first
    time. *)
Definition ends_with_beacon (header : BeaconHeader) (l : list byte) : Prop :=
  exists pre, l = pre ++ beacon_bytes header.
Definition first_beacon (header : BeaconHeader) (consumed : list byte) : Prop :=
  ends_with_beacon header consumed
  /\ forall p, p `prefix_of` consumed -> p <> consumed -> ~ ends_with_beacon header p.
Definition no_beacon (header : BeaconHeader) (s : list byte) : Prop :=
  forall p, p `prefix_of` s -> ~ ends_with_beacon header p.

(** The header [main] searches for. *)
Definition main_header : BeaconHeader :=
  Build_BeaconHeader (Build_uint24_t Byte.xff Byte.xff Byte.xf0).

(** How the sliding window relates to the bytes read so far. *)
Inductive window : list byte -> list uint8_t -> nat -> Prop :=
| window_0 u v w : window [] [u; v; w] 0
| window_1 a v w : window [a] [a; v; w] 1
| window_2 a b w : window [a; b] [a; b; w] 2
| window_3 pre a b c : window (pre ++ [a; b; c]) [a; b; c] 3.

(** Every integer member holds a value of its C type. *)
Definition wf_platform (s : PlatformTelemetrySchema) : Prop :=
  in_range uint16_t_c (platform_telemetry_id s)
  /\ in_range uint32_t_c (uptime_s s)
  /\ in_range uint32_t_c (rtc_s s)
  /\ in_range uint32_t_c (lastBootReason s).
Definition wf_memory (s : MemoryTelemetrySchema) : Prop :=
  in_range uint16_t_c (memory_telemetry_id s)
  /\ in_range uint32_t_c (heap_free_bytes s).
Definition wf_cdh (s : CDHTelemetrySchema) : Prop :=
  in_range uint16_t_c (cdh_id s)
  /\ in_range uint32_t_c (lastSeenSequenceNumber s).
Definition wf_power (s : PowerTelemetrySchema) : Prop :=
  in_range uint16_t_c (power_telemetry_id s)
  /\ in_range uint16_t_c (low_voltage_counter s)
  /\ in_range uint16_t_c (nice_battery_mV s)
  /\ in_range uint16_t_c (raw_battery_mV s)
  /\ in_range uint16_t_c (battery_A s)
  /\ in_range uint16_t_c (pcm_3v3_V s)
  /\ in_range uint16_t_c (pcm_3v3_A s)
  /\ in_range uint16_t_c (pcm_5v_V s)
  /\ in_range uint16_t_c (pcm_5v_A s).
Definition wf_thermal (s : ThermalTelemetrySchema) : Prop :=
  in_range uint16_t_c (thermal_telemetry_id s)
  /\ in_range int16_t_c (CPU_C s)
  /\ in_range int16_t_c (mirror_cell_C s).
Definition wf_aocs (s : AOCSTelemetrySchema) : Prop :=
  in_range uint16_t_c (aocs_telemetry_id s)
  /\ in_range uint32_t_c (aocs_mode s)
  /\ in_range int16_t_c (sunvectorX s)
  /\ in_range int16_t_c (sunvectorY s)
  /\ in_range int16_t_c (sunvectorZ s)
  /\ in_range int16_t_c (magnetometerX_mg s)
  /\ in_range int16_t_c (magnetometerY_mg s)
  /\ in_range int16_t_c (magnetometerZ_mg s)
  /\ in_range int16_t_c (gyroX_dps s)
  /\ in_range int16_t_c (gyroY_dps s)
  /\ in_range int16_t_c (gyroZ_dps s)
  /\ in_range int16_t_c (temperature_IMU_C s)
  /\ in_range int32_t_c (fine_gyroX_dps s)
  /\ in_range int32_t_c (fine_gyroY_dps s)
  /\ in_range int32_t_c (fine_gyroZ_dps s)
  /\ in_range int16_t_c (wheel_1_radsec s)
  /\ in_range int16_t_c (wheel_2_radsec s)
  /\ in_range int16_t_c (wheel_3_radsec s)
  /\ in_range int16_t_c (wheel_4_radsec s).
Definition wf_payload (s : PayloadTelemetrySchema) : Prop :=
  in_range uint16_t_c (payload_telemetry_id s)
  /\ in_range uint16_t_c (experimentsRun s)
  /\ in_range uint16_t_c (experimentsFailed s)
  /\ in_range int16_t_c (lastExperimentRun s).

Definition wf_frame (o : BeaconFrame) : Prop :=
  wf_platform (platform o) /\ wf_memory (memory o) /\ wf_cdh (cdh o) /\ wf_power (power o)
  /\ wf_thermal (thermal o) /\ wf_aocs (aocs o) /\ wf_payload (payload o).

(** All seven identifiers pass the check of [read_data_frame]. *)
Definition ids_match (o : BeaconFrame) : Prop :=
  byte16_swap (platform_telemetry_id (platform o)) = PLATFORM_ID
  /\ byte16_swap (memory_telemetry_id (memory o)) = MEMORY_ID
  /\ byte16_swap (cdh_id (cdh o)) = CDH_ID
  /\ byte16_swap (power_telemetry_id (power o)) = POWER_ID
  /\ byte16_swap (thermal_telemetry_id (thermal o)) = THERMAL_ID
  /\ byte16_swap (aocs_telemetry_id (aocs o)) = AOCS_ID
  /\ byte16_swap (payload_telemetry_id (payload o)) = PAYLOAD_ID.

(** *** The body as a list of statements

    The body of [read_data_frame] after the search loop is a straight line of
    two kinds of guarded statements. Listing them lets properties of the whole
    body be proved by induction; [read_frame_fields_run] shows the list is the
    body. *)
Inductive instr :=
| IRead (fl : field)
| ICheck (ID : Z) (id : BeaconFrame -> uint16_t).

Definition exec (i : instr) : stmt :=
  match i with
  | IRead fl => ifnot (READ_FIELD fl) (Return READ_FAIL)
  | ICheck ID id => when (id_differs ID id) (Return READ_FAIL)
  end.

Fixpoint run (l : list instr) : stmt :=
  match l with
  | [] => Return READ_OK
  | i :: l => seq (exec i) (run l)
  end.

Definition platform_program : list instr :=
  [IRead out_platform_platform_telemetry_id;
   ICheck PLATFORM_ID (fun o => platform_telemetry_id (platform o));
   IRead out_platform_uptime_s;
   IRead out_platform_rtc_s;
   IRead out_platform_resetCount;
   IRead out_platform_currentMode;
   IRead out_platform_lastBootReason].
Definition memory_program : list instr :=
  [IRead out_memory_memory_telemetry_id;
   ICheck MEMORY_ID (fun o => memory_telemetry_id (memory o));
   IRead out_memory_heap_free_bytes].
Definition cdh_program : list instr :=
  [IRead out_cdh_cdh_id;
   ICheck CDH_ID (fun o => cdh_id (cdh o));
   IRead out_cdh_lastSeenSequenceNumber;
   IRead out_cdh_antennaDeployStatus].
Definition power_program : list instr :=
  [IRead out_power_power_telemetry_id;
   ICheck POWER_ID (fun o => power_telemetry_id (power o));
   IRead out_power_low_voltage_counter;
   IRead out_power_nice_battery_mV;
   IRead out_power_raw_battery_mV;
   IRead out_power_battery_A;
   IRead out_power_pcm_3v3_V;
   IRead out_power_pcm_3v3_A;
   IRead out_power_pcm_5v_V;
   IRead out_power_pcm_5v_A].
Definition thermal_program : list instr :=
  [IRead out_thermal_thermal_telemetry_id;
   ICheck THERMAL_ID (fun o => thermal_telemetry_id (thermal o));
   IRead out_thermal_CPU_C;
   IRead out_thermal_mirror_cell_C].
Definition aocs_program : list instr :=
  [IRead out_aocs_aocs_telemetry_id;
   ICheck AOCS_ID (fun o => aocs_telemetry_id (aocs o));
   IRead out_aocs_aocs_mode;
   IRead out_aocs_sunvectorX;
   IRead out_aocs_sunvectorY;
   IRead out_aocs_sunvectorZ;
   IRead out_aocs_magnetometerX_mg;
   IRead out_aocs_magnetometerY_mg;
   IRead out_aocs_magnetometerZ_mg;
   IRead out_aocs_gyroX_dps;
   IRead out_aocs_gyroY_dps;
   IRead out_aocs_gyroZ_dps;
   IRead out_aocs_temperature_IMU_C;
   IRead out_aocs_fine_gyroX_dps;
   IRead out_aocs_fine_gyroY_dps;
   IRead out_aocs_fine_gyroZ_dps;
   IRead out_aocs_wheel_1_radsec;
   IRead out_aocs_wheel_2_radsec;
   IRead out_aocs_wheel_3_radsec;
   IRead out_aocs_wheel_4_radsec].
Definition payload_program : list instr :=
  [IRead out_payload_payload_telemetry_id;
   ICheck PAYLOAD_ID (fun o => payload_telemetry_id (payload o));
   IRead out_payload_experimentsRun;
   IRead out_payload_experimentsFailed;
   IRead out_payload_lastExperimentRun;
   IRead out_payload_currentState].

Definition frame_program : list instr :=
  platform_program ++ memory_program ++ cdh_program ++ power_program
  ++ thermal_program ++ aocs_program ++ payload_program.

(** Bytes the reads of a statement list take from the stream. *)
Definition instr_size (i : instr) : nat :=
  match i with
  | IRead fl => sizeof (frep fl)
  | ICheck _ _ => 0
  end.
Fixpoint program_size (l : list instr) : nat :=
  match l with
  | [] => 0%nat
  | i :: l => (instr_size i + program_size l)%nat
  end.

(** The seven sections, in schema order, with what the decoder expects and
    stores for each. *)
Inductive FrameSection := Platform | Memory | CDH | Power | Thermal | AOCS | Payload.

Definition expected_id (sec : FrameSection) : Z :=
  match sec with
  | Platform => PLATFORM_ID | Memory => MEMORY_ID | CDH => CDH_ID | Power => POWER_ID
  | Thermal => THERMAL_ID | AOCS => AOCS_ID | Payload => PAYLOAD_ID
  end.

Definition section_id (sec : FrameSection) (o : BeaconFrame) : uint16_t :=
  match sec with
  | Platform => platform_telemetry_id (platform o)
  | Memory => memory_telemetry_id (memory o)
  | CDH => cdh_id (cdh o)
  | Power => power_telemetry_id (power o)
  | Thermal => thermal_telemetry_id (thermal o)
  | AOCS => aocs_telemetry_id (aocs o)
  | Payload => payload_telemetry_id (payload o)
  end.

Definition encode_section (sec : FrameSection) (o : BeaconFrame) : list byte :=
  match sec with
  | Platform => encode_platform (platform o)
  | Memory => encode_memory (memory o)
  | CDH => encode_cdh (cdh o)
  | Power => encode_power (power o)
  | Thermal => encode_thermal (thermal o)
  | AOCS => encode_aocs (aocs o)
  | Payload => encode_payload (payload o)
  end.

Definition section_program (sec : FrameSection) : list instr :=
  match sec with
  | Platform => platform_program | Memory => memory_program | CDH => cdh_program
  | Power => power_program | Thermal => thermal_program | AOCS => aocs_program
  | Payload => payload_program
  end.

Definition sections_before (sec : FrameSection) : list FrameSection :=
  match sec with
  | Platform => []
  | Memory => [Platform]
  | CDH => [Platform; Memory]
  | Power => [Platform; Memory; CDH]
  | Thermal => [Platform; Memory; CDH; Power]
  | AOCS => [Platform; Memory; CDH; Power; Thermal]
  | Payload => [Platform; Memory; CDH; Power; Thermal; AOCS]
  end.

Definition sections_after (sec : FrameSection) : list FrameSection :=
  match sec with
  | Platform => [Memory; CDH; Power; Thermal; AOCS; Payload]
  | Memory => [CDH; Power; Thermal; AOCS; Payload]
  | CDH => [Power; Thermal; AOCS; Payload]
  | Power => [Thermal; AOCS; Payload]
  | Thermal => [AOCS; Payload]
  | AOCS => [Payload]
  | Payload => []
  end.

Definition section_id_field (sec : FrameSection) : field :=
  match sec with
  | Platform => out_platform_platform_telemetry_id
  | Memory => out_memory_memory_telemetry_id
  | CDH => out_cdh_cdh_id
  | Power => out_power_power_telemetry_id
  | Thermal => out_thermal_thermal_telemetry_id
  | AOCS => out_aocs_aocs_telemetry_id
  | Payload => out_payload_payload_telemetry_id
  end.

(** The wire bytes of the sections before [sec], and of the members of [sec]
    that follow its identifier. *)
Definition encode_before (sec : FrameSection) (o : BeaconFrame) : list byte :=
  flat_map (fun s => encode_section s o) (sections_before sec).
Definition section_members (sec : FrameSection) (o : BeaconFrame) : list byte :=
  drop 2 (encode_section sec o).

Definition instr_ok (i : instr) : Prop :=
  match i with
  | IRead fl => ctype_ok (frep fl)
  | ICheck _ _ => True
  end.

(** The bytes the reads of [l] expect when they are to yield the members of
    [f], the frame they leave, and what makes every check on the way pass. *)
Definition encode_with (l : list instr) (f : BeaconFrame) : list byte :=
  flat_map (fun i => match i with
                     | IRead fl => to_bytes (frep fl) (fget fl f)
                     | ICheck _ _ => []
                     end) l.

Fixpoint copy (l : list instr) (f o : BeaconFrame) : BeaconFrame :=
  match l with
  | [] => o
  | IRead fl :: l => copy l f (fset fl (fget fl f) o)
  | ICheck _ _ :: l => copy l f o
  end.

Fixpoint passes (l : list instr) (f o : BeaconFrame) : Prop :=
  match l with
  | [] => True
  | IRead fl :: l => in_range (frep fl) (fget fl f) /\ passes l f (fset fl (fget fl f) o)
  | ICheck ID id :: l => byte16_swap (id o) = ID /\ passes l f o
  end.

(** *** Layout of the output frame

    The member a read assigns lies at a fixed offset of the frame's image:
    what a run does to the frame can be told from the image alone. *)

Definition field_at (fl : field) (k : nat) : Prop :=
  forall o : BeaconFrame,
    to_bytes (frep fl) (fget fl o) = take (sizeof (frep fl)) (drop k (encode_frame o))
    /\ forall v, encode_frame (fset fl v o)
                 = take k (encode_frame o) ++ to_bytes (frep fl) v
                   ++ drop (k + sizeof (frep fl)) (encode_frame o).

Fixpoint laid_out (k : nat) (l : list instr) : Prop :=
  match l with
  | [] => True
  | IRead fl :: l =>
      ctype_ok (frep fl) /\ field_at fl k /\ laid_out (k + sizeof (frep fl)) l
  | ICheck _ _ :: l => laid_out k l
  end.

(** What one run of a statement list does to the stream and to the image of
    the output frame: [j] bytes leave the stream and land at offset [k]. *)
Definition overwrites (k j : nat) (s s' : state) : Prop :=
  (j <= length (file s))%nat
  /\ file s' = drop j (file s)
  /\ encode_frame (out s')
     = take k (encode_frame (out s)) ++ take j (file s)
       ++ drop (k + j) (encode_frame (out s)).

(** Identifier checks that later reads cannot undo. *)
Definition stable (g : BeaconFrame -> uint16_t) (i : instr) : Prop :=
  match i with
  | IRead fl => forall v o, g (fset fl v o) = g o
  | ICheck _ _ => True
  end.

Fixpoint checks_stable (l : list instr) : Prop :=
  match l with
  | [] => True
  | IRead _ :: l => checks_stable l
  | ICheck _ g :: l => Forall (stable g) l /\ checks_stable l
  end.

Fixpoint checks_hold (l : list instr) (o : BeaconFrame) : Prop :=
  match l with
  | [] => True
  | IRead _ :: l => checks_hold l o
  | ICheck ID g :: l => byte16_swap (g o) = ID /\ checks_hold l o
  end.

(** ** IEEE-754 binary32 ([float]) *)

Definition float := spec_float.
Definition float_prec : Z := 24.
Definition float_emax : Z := 128.

(** [(float)(value)] for an integer [value]: round to nearest, ties to even. *)
Definition float_of_int (value : Z) : float :=
  binary_normalize float_prec float_emax value 0 false.
Definition float_mul : float -> float -> float := SFmul float_prec float_emax.
Definition float_div : float -> float -> float := SFdiv float_prec float_emax.

(** The literals [0.01f] and [16384.0f]: the binary32 numbers nearest to 1/100
    and to 16384. *)
Definition float_0_01 : float := float_div (float_of_int 1) (float_of_int 100).
Definition float_16384 : float := float_of_int 16384.

(** ** thermal_calibrated.h / thermal_calibrated.c *)

Module ThermalCalibrated.

(** [#define TEMP_C_PHYSICAL_VALUE(value) ((float)(value) * 0.01f)] *)
Definition TEMP_C_PHYSICAL_VALUE (value : Z) : float :=
  float_mul (float_of_int value) float_0_01.

Record ThermalTelemetryCalibrated := Build_ThermalTelemetryCalibrated {
  thermal_telemetry_timestamp : uint32_t;
  CPU_C : float;
  mirror_cell_C : float
}.

(** The [int16_t] locals pass through [byte16_swap], which takes and returns
    [uint16_t]: both conversions are written out. *)
Definition thermal_to_calibrated (thermal_schema_value : ThermalTelemetrySchema)
    (timestamp : uint32_t) : ThermalTelemetryCalibrated :=
  let cpu_T := Schema.CPU_C thermal_schema_value in
  let mirror_T := Schema.mirror_cell_C thermal_schema_value in
  let ts := timestamp in
  (* swap bytes if file is big endian *)
  let '(cpu_T, mirror_T, ts) :=
    if IS_BIG_ENDIAN
    then (to_int16 (byte16_swap (to_uint16 cpu_T)),
          to_int16 (byte16_swap (to_uint16 mirror_T)),
          byte32_swap ts)
    else (cpu_T, mirror_T, ts) in
  {| thermal_telemetry_timestamp := ts;
     CPU_C := TEMP_C_PHYSICAL_VALUE cpu_T;
     mirror_cell_C := TEMP_C_PHYSICAL_VALUE mirror_T |}.

(** [sizeof(ThermalTelemetryCalibrated)]: a [uint32_t] and two [float]s. *)
Definition sizeof_ThermalTelemetryCalibrated : nat := 12.

Definition thermal_timestamp_comparator (x y : ThermalTelemetryCalibrated) : Z :=
  if thermal_telemetry_timestamp x <? thermal_telemetry_timestamp y then -1
  else if thermal_telemetry_timestamp x >? thermal_telemetry_timestamp y then 1
  else 0.

End ThermalCalibrated.

(** ** sun_sensors_calibrated.h / sun_sensors_calibrated.c *)

Module SunSensorsCalibrated.

(** [#define SUN_SENSORS_PHYSICAL_VALUE(value) ((float)(value) / 16384.0f)] *)
Definition SUN_SENSORS_PHYSICAL_VALUE (value : Z) : float :=
  float_div (float_of_int value) float_16384.

Record SunSensorsTelemetryCalibrated := Build_SunSensorsTelemetryCalibrated {
  sun_sensors_telemetry_timestamp : uint32_t;
  sun_vector_x : float;
  sun_vector_y : float;
  sun_vector_z : float
}.

Definition sun_sensors_to_calibrated (aocs_schema_value : AOCSTelemetrySchema)
    (timestamp : uint32_t) : SunSensorsTelemetryCalibrated :=
  let sun_vector_x := sunvectorX aocs_schema_value in
  let sun_vector_y := sunvectorY aocs_schema_value in
  let sun_vector_z := sunvectorZ aocs_schema_value in
  let ts := timestamp in
  (* swap bytes if file is big endian *)
  let '(sun_vector_x, sun_vector_y, sun_vector_z, ts) :=
    if IS_BIG_ENDIAN
    then (to_int16 (byte16_swap (to_uint16 sun_vector_x)),
          to_int16 (byte16_swap (to_uint16 sun_vector_y)),
          to_int16 (byte16_swap (to_uint16 sun_vector_z)),
          byte32_swap ts)
    else (sun_vector_x, sun_vector_y, sun_vector_z, ts) in
  Build_SunSensorsTelemetryCalibrated ts
    (SUN_SENSORS_PHYSICAL_VALUE sun_vector_x)
    (SUN_SENSORS_PHYSICAL_VALUE sun_vector_y)
    (SUN_SENSORS_PHYSICAL_VALUE sun_vector_z).

Definition sun_sensors_timestamp_comparator (x y : SunSensorsTelemetryCalibrated) : Z :=
  if sun_sensors_telemetry_timestamp x <? sun_sensors_telemetry_timestamp y then -1
  else if sun_sensors_telemetry_timestamp x >? sun_sensors_telemetry_timestamp y then 1
  else 0.

End SunSensorsCalibrated.

(** ** extended_tools.c: deduplication *)

Section array_duplicate_removal.
Context {A : Type}.

(** The [for] loop, by the number [n - i] of iterations left. An access
    outside the array is undefined behaviour: the result is [None]. *)
Fixpoint array_duplicate_removal_loop (comparator : A -> A -> Z) (iterations : nat)
    (i keep_index : nat) (p : list A) : option (nat * list A) :=
  match iterations with
  | O => Some (keep_index, p)
  | S iterations =>
      match p !! i, p !! (keep_index - 1)%nat with
      | Some current, Some previous =>
          if negb (comparator current previous =? 0)
          then
            (* different elements, keep them, and only shift them if they are
               not the same element *)
            let p := if negb (Nat.eqb keep_index i)
                     then <[keep_index := current]> p else p in
            array_duplicate_removal_loop comparator iterations (S i) (S keep_index) p
          else array_duplicate_removal_loop comparator iterations (S i) keep_index p
      | _, _ => None
      end
  end.

(** Returns the new length and the array after the call. *)
Definition array_duplicate_removal (array : option (list A)) (n size : nat)
    (comparator : option (A -> A -> Z)) : option (nat * option (list A)) :=
  match array, comparator with
  | Some p, Some cmp =>
      if Nat.eqb size 0 || Nat.eqb n 0 then Some (0%nat, array)
      else
        match array_duplicate_removal_loop cmp (n - 1) 1 1 p with
        | Some (keep_index, p) => Some (keep_index, Some p)
        | None => None
        end
  | _, _ => Some (0%nat, array)
  end.
End array_duplicate_removal.

(** What the call is to leave at the front of the array. *)
Section dedup_spec.
Context {A : Type}.
Variable comparator : A -> A -> Z.

(** The elements of [l] that differ from the element kept last, [previous]
    at first. *)
Fixpoint keep_changes (previous : A) (l : list A) : list A :=
  match l with
  | [] => []
  | x :: l =>
      if comparator x previous =? 0 then keep_changes previous l
      else x :: keep_changes x l
  end.

(** The first element of every run of equal elements. *)
Definition run_heads (l : list A) : list A :=
  match l with
  | [] => []
  | x :: l => x :: keep_changes x l
  end.
End dedup_spec.

(** ** main.c: the record arrays filled by the read loop *)

Definition size_t := Z.
Definition to_size_t (z : Z) : size_t := z mod 2 ^ 64.

Section collector.
Context {A : Type}.
(** [sizeof *thermal_telemetry_array], and whether [realloc] grants a block
    of the requested number of bytes. *)
Variable elem_size : Z.
Variable realloc_succeeds : Z -> bool.

(** One array of [main] with its two counters ([thermal_telemetry_array],
    [thermal_length], [thermal_capacity], and the same for the sun sensors).
    [telemetry_array] lists the records stored at positions [0 .. length-1];
    [allocated_bytes] is the size of the block the pointer designates (0 for
    [NULL]) and [realloc_calls] counts the growth events. *)
Record collector := Build_collector {
  telemetry_array : list A;
  telemetry_length : size_t;
  telemetry_capacity : size_t;
  allocated_bytes : Z;
  realloc_calls : nat
}.

Definition collector_init : collector := Build_collector [] 0 0 0 0.

Inductive append_result :=
| Appended (c : collector)
| ReallocFailed          (* [perror("realloc"); ... return 1;] *)
| OutOfBounds.           (* a store past the end of the block *)

(** The block of [main]'s loop that stores one record:
    [if (length == capacity) { ... realloc ... } array[length++] = record;] *)
Definition append (record : A) (c : collector) : append_result :=
  let grown :=
    if telemetry_length c =? telemetry_capacity c
    then
      (* initialize with 128 capacity; if not enough space, increase capacity
         by adding 128 *)
      let new_capacity :=
        if negb (telemetry_capacity c =? 0)
        then to_size_t (telemetry_capacity c + 128) else 128 in
      let bytes := to_size_t (new_capacity * elem_size) in
      if realloc_succeeds bytes
      then Some (Build_collector (telemetry_array c) (telemetry_length c) new_capacity
                                 bytes (S (realloc_calls c)))
      else None
    else Some c in
  match grown with
  | None => ReallocFailed
  | Some c =>
      if (telemetry_length c + 1) * elem_size <=? allocated_bytes c
      then Appended (Build_collector (telemetry_array c ++ [record])
                                     (to_size_t (telemetry_length c + 1))
                                     (telemetry_capacity c) (allocated_bytes c)
                                     (realloc_calls c))
      else OutOfBounds
  end.

(** The appends of successive loop iterations. *)
Fixpoint append_all (records : list A) (c : collector) : append_result :=
  match records with
  | [] => Appended c
  | record :: records =>
      match append record c with
      | Appended c => append_all records c
      | failure => failure
      end
  end.
End collector.

Section collector_inv.
Context {A : Type}.
Variable elem_size : Z.
Variable realloc_succeeds : Z -> bool.

(** After [n] appends: the counters, the block and the growth events. *)
Definition collector_inv (n : nat) (c : @collector A) : Prop :=
  length (telemetry_array c) = n
  /\ telemetry_length c = Z.of_nat n
  /\ telemetry_capacity c = 128 * ((Z.of_nat n + 127) / 128)
  /\ allocated_bytes c = telemetry_capacity c * elem_size
  /\ allocated_bytes c < 2 ^ 64
  /\ realloc_calls c = Z.to_nat ((Z.of_nat n + 127) / 128).
End collector_inv.

(** Order of two records by a key, as the comparators decide it. *)
Definition key_le {A : Type} (key : A -> Z) (x y : A) : Prop := key x <= key y.
Definition key_lt {A : Type} (key : A -> Z) (x y : A) : Prop := key x < key y.

(** ** Tactics *)

(** A frame as its 47 members. *)
Ltac destruct_frame f := destruct f as [[] [] [] [] [] [] []].

(** [lia] with the quotients and remainders by constants spelled out. *)
Ltac div_lia := zify; Z.to_euclidean_division_equations; lia.

(** ** Sample data *)

(** A frame with every member zero, and one with the seven identifiers as the
    stream carries them and a few telling values: [rtc_s] is the wire image of
    0x12345678, [CPU_C] that of 2500 and [sunvectorX] that of 16384. *)
Definition zero_uint24 : uint24_t := Build_uint24_t Byte.x00 Byte.x00 Byte.x00.

Definition zero_frame : BeaconFrame :=
  Build_BeaconFrame
    (Build_PlatformTelemetrySchema 0 0 0 zero_uint24 Byte.x00 0)
    (Build_MemoryTelemetrySchema 0 0)
    (Build_CDHTelemetrySchema 0 0 Byte.x00)
    (Build_PowerTelemetrySchema 0 0 0 0 0 0 0 0 0)
    (Build_ThermalTelemetrySchema 0 0 0)
    (Build_AOCSTelemetrySchema 0 0 0 0 0 0 0 0 0 0 0 0 0 0 0 0 0 0 0)
    (Build_PayloadTelemetrySchema 0 0 0 0 Byte.x00).

Definition sample_frame : BeaconFrame :=
  Build_BeaconFrame
    (Build_PlatformTelemetrySchema 0x0100 7 0x78563412 zero_uint24 Byte.x81 0)
    (Build_MemoryTelemetrySchema 0x0101 4096)
    (Build_CDHTelemetrySchema 0x0102 1 Byte.x01)
    (Build_PowerTelemetrySchema 0x0103 0 0 0 0 0 0 0 0)
    (Build_ThermalTelemetrySchema 0x0104 (-15351) (-15351))
    (Build_AOCSTelemetrySchema 0x0105 0 0x0040 0 0 0 0 0 0 0 0 0 (-1) 0 0 0 0 0 0)
    (Build_PayloadTelemetrySchema 0x0106 0 0 0 Byte.x00).

(** A sorted series with timestamps 1, 3, 3, 5, 5 and telling values. *)
Definition sample_record (timestamp value : Z) : ThermalCalibrated.ThermalTelemetryCalibrated :=
  ThermalCalibrated.Build_ThermalTelemetryCalibrated timestamp (float_of_int value)
    (float_of_int 0).
Definition sample_series : list ThermalCalibrated.ThermalTelemetryCalibrated :=
  [sample_record 1 0; sample_record 3 1; sample_record 3 2; sample_record 5 3;
   sample_record 5 4].

Import ThermalCalibrated SunSensorsCalibrated.

(** ** csv_tool.h / csv_tool.c *)

(** A C string is the list of its characters before the terminating NUL. A
    stream opened for writing is the text written to it so far. The contents
    of a [char] array are [None] while they are indeterminate. *)
Definition c_string := list byte.
Definition OFILE := list byte.
Definition char_buffer := option c_string.

Definition MAX_LINE_BUFFER : Z := 256.
Definition SEPARATOR : c_string := [Byte.x3b].            (* ";" *)

(** The names the program passes as string literals. *)
Module Literals.
Import String.
Definition THERMAL_DATA_CSV_FILENAME : c_string := list_byte_of_string "thermal_data.csv".
Definition SUN_SENSOR_DATA_CSV_FILENAME : c_string :=
  list_byte_of_string "sun_sensor_data.csv".
Definition rtc_s_column : c_string := list_byte_of_string "rtc_s".
Definition CPU_C_column : c_string := list_byte_of_string "CPU_C".
Definition mirror_cell_C_column : c_string := list_byte_of_string "mirror_cell_C".
Definition sun_vector_x_column : c_string := list_byte_of_string "sun_vector_x".
Definition sun_vector_y_column : c_string := list_byte_of_string "sun_vector_y".
Definition sun_vector_z_column : c_string := list_byte_of_string "sun_vector_z".
End Literals.
Import Literals.

(** The function pointer type [CsvLineFormatter], called with an element, a
    buffer, the buffer's size and a precision: the element and the buffer are
    pointers that may be null; the result is the value returned and the
    contents of the buffer after the call ([None] without a buffer). *)
Definition CsvLineFormatter (A : Type) : Type :=
  option A -> option char_buffer -> size_t -> Z -> Z * char_buffer.

(** [a + b] in [int]; an overflow is undefined behaviour: [None]. *)
Definition int_add (a b : Z) : option Z :=
  if (- 2 ^ 31 <=? a + b) && (a + b <? 2 ^ 31) then Some (a + b) else None.

(** [snprintf(buffer, buffer_size, format, ...)] for [buffer_size > 0], given
    the text [s] the conversions of the format produce: the first
    [buffer_size - 1] characters are stored, the length of [s] is returned. *)
Definition snprintf (buffer_size : size_t) (s : c_string) : Z * char_buffer :=
  (Z.of_nat (length s), Some (take (Z.to_nat (buffer_size - 1)) s)).

Section csv_tool.
(** [fprintf(file, format, ...)] on a stream opened for writing, given the
    text the conversions produce: the value returned and the stream
    afterwards. [fopen(filename, "w")] tells whether the file could be
    created; the stream then starts empty. *)
Variable fprintf : OFILE -> c_string -> Z * OFILE.
Variable fopen : c_string -> bool.

(** The [while] loop of [write_header] over the variable arguments: [None] is
    the [NULL] that ends the column names; reading past the last argument is
    undefined. *)
Fixpoint write_header_columns (file : OFILE) (total_chars : Z)
    (args : list (option c_string)) : option (Z * OFILE) :=
  match args with
  | [] => None
  | None :: _ => Some (total_chars, file)
  | Some current_column :: args =>
      let '(chars, file) := fprintf file (SEPARATOR ++ current_column) in
      match int_add total_chars chars with
      | Some total_chars => write_header_columns file total_chars args
      | None => None
      end
  end.

Definition write_header (file : OFILE) (first_column_name : option c_string)
    (args : list (option c_string)) : option (Z * OFILE) :=
  let total_chars := 0 in
  match first_column_name with
  | Some current_column =>
      let '(chars, file) := fprintf file current_column in
      match int_add total_chars chars with
      | Some total_chars =>
          match write_header_columns file total_chars args with
          | Some (total_chars, file) =>
              let '(chars, file) := fprintf file [Byte.x0a] in
              match int_add total_chars chars with
              | Some total_chars => Some (total_chars, file)
              | None => None
              end
          | None => None
          end
      | None => None
      end
  | None => Some (-1, file)
  end.

(** The [for] loop of [write_array_to_csv], by the number of iterations left.
    The result is the value returned with the stream as it is closed. *)
Fixpoint write_array_lines {A : Type} (array_ptr : list A) (formatter : CsvLineFormatter A)
    (precision : Z) (iterations : nat) (i : nat) (csv_file : OFILE)
    (csv_line_buffer : char_buffer) : option (Z * OFILE) :=
  match iterations with
  | O => Some (1, csv_file)
  | S iterations =>
      match array_ptr !! i with
      | None => None                  (* an element past the end of the array *)
      | Some element =>
          (* Usage of the custom function to print the CSV line *)
          let '(len, csv_line_buffer) :=
            formatter (Some element) (Some csv_line_buffer) MAX_LINE_BUFFER precision in
          if len <? 0
          then write_array_lines array_ptr formatter precision iterations (S i)
                 csv_file csv_line_buffer
          else
            match csv_line_buffer with
            | None => None            (* [%s] of an array never written *)
            | Some line =>
                let '(write_result, csv_file) := fprintf csv_file (line ++ [Byte.x0a]) in
                if write_result <? len then Some (-1, csv_file)
                else write_array_lines array_ptr formatter precision iterations (S i)
                       csv_file csv_line_buffer
            end
      end
  end.

(** The value returned, and the contents of the file [filename] if the call
    created it. *)
Definition write_array_to_csv {A : Type} (filename : option c_string)
    (array_ptr : option (list A)) (array_length element_size : size_t)
    (formatter : option (CsvLineFormatter A)) (precision : Z)
    (first_column_name : option c_string) (args : list (option c_string))
    : option (Z * option OFILE) :=
  match array_ptr, filename, formatter, first_column_name with
  | Some array, Some name, Some format, Some _ =>
      if (array_length =? 0) || (element_size =? 0) then Some (-1, None)
      else if negb (fopen name) then Some (-1, None)
      else
        match write_header [] first_column_name args with
        | None => None
        | Some (header_result, csv_file) =>
            if header_result <? 0 then Some (-1, Some csv_file)
            else
              match write_array_lines array format precision (Z.to_nat array_length) 0
                      csv_file None with
              | Some (result, csv_file) => Some (result, Some csv_file)
              | None => None
              end
        end
  | _, _, _, _ => Some (-1, None)
  end.
End csv_tool.

(** ** thermal_calibrated.c, sun_sensors_calibrated.c: CSV lines *)

Section csv_lines.
(** The conversions [%u] and [%.*f] of the C library: the text of an
    [unsigned int], and of a [float] (promoted to [double]) with the given
    number of decimals. *)
Variable print_u : uint32_t -> c_string.
Variable print_f : Z -> float -> c_string.

Definition thermal_calibrated_to_csv_line
    (data_element_ptr : option ThermalTelemetryCalibrated) (buffer : option char_buffer)
    (buffer_size : size_t) (precision : Z) : Z * char_buffer :=
  match data_element_ptr, buffer with
  | Some thermal_data_calibrated_values, Some contents =>
      if buffer_size =? 0 then (0, contents)
      else
        let precision := if precision <? 0 then 0 else precision in
        let precision := if precision >? 9 then 9 else precision in
        let '(written, contents) :=
          snprintf buffer_size
            (print_u (thermal_telemetry_timestamp thermal_data_calibrated_values)
             ++ [Byte.x3b] ++ print_f precision (CPU_C thermal_data_calibrated_values)
             ++ [Byte.x3b]
             ++ print_f precision (mirror_cell_C thermal_data_calibrated_values)) in
        if (written <? 0) || (written >=? buffer_size)
        then (-1, contents)       (* the defined buffer might be too small *)
        else (written, contents)
  | _, Some contents => (0, contents)
  | _, None => (0, None)
  end.

Definition sun_sensors_calibrated_to_csv_line
    (data_element_ptr : option SunSensorsTelemetryCalibrated) (buffer : option char_buffer)
    (buffer_size : size_t) (precision : Z) : Z * char_buffer :=
  match data_element_ptr, buffer with
  | Some sun_sensors_calibrated_values, Some contents =>
      if buffer_size =? 0 then (0, contents)
      else
        let precision := if precision <? 0 then 0 else precision in
        let precision := if precision >? 9 then 9 else precision in
        let '(written, contents) :=
          snprintf buffer_size
            (print_u (sun_sensors_telemetry_timestamp sun_sensors_calibrated_values)
             ++ [Byte.x3b] ++ print_f precision (sun_vector_x sun_sensors_calibrated_values)
             ++ [Byte.x3b] ++ print_f precision (sun_vector_y sun_sensors_calibrated_values)
             ++ [Byte.x3b]
             ++ print_f precision (sun_vector_z sun_sensors_calibrated_values)) in
        if (written <? 0) || (written >=? buffer_size)
        then (-1, contents)       (* the defined buffer might be too small *)
        else (written, contents)
  | _, Some contents => (0, contents)
  | _, None => (0, None)
  end.
End csv_lines.

(** ** main.c *)

Definition CSV_DECIMAL_PRECISION : Z := 2.

(** [sizeof(SunSensorsTelemetryCalibrated)]: a [uint32_t] and three [float]s. *)
Definition sizeof_SunSensorsTelemetryCalibrated : nat := 16.

Section main.
(** The C library as [main] meets it: whether [realloc] grants a block of the
    requested size, the array [qsort(base, nmemb, size, compar)] leaves, and
    the output functions above. *)
Variable realloc_succeeds : Z -> bool.
Variable qsort : forall A : Type, list A -> nat -> nat -> (A -> A -> Z) -> list A.
Variable fprintf : OFILE -> c_string -> Z * OFILE.
Variable fopen : c_string -> bool.
Variable print_u : uint32_t -> c_string.
Variable print_f : Z -> float -> c_string.

(** How the [while] loop of [main] ends. *)
Inductive read_loop_exit :=
| LoopEnd (read_state : ReadFileReturnType)
          (thermal : @collector ThermalTelemetryCalibrated)
          (sun_sensor : @collector SunSensorsTelemetryCalibrated)
| LoopNoMemory       (* [perror("realloc"); ... return 1;] *)
| LoopUndefined.     (* a store past the end of a block *)

(** The loop, entered with the result of the call of [read_data_frame] before
    it; [fuel] bounds the number of iterations. *)
Fixpoint read_frames (fuel : nat)
    (read : ReadFileReturnType * option FILE * option BeaconFrame)
    (thermal : @collector ThermalTelemetryCalibrated)
    (sun_sensor : @collector SunSensorsTelemetryCalibrated) : option read_loop_exit :=
  match read with
  | (READ_OK, Some file, Some frame) =>
      match fuel with
      | O => None
      | S fuel =>
          (* THERMAL SECTION *)
          let thermal_telemetry :=
            thermal_to_calibrated (Schema.thermal frame) (rtc_s (platform frame)) in
          match append (Z.of_nat sizeof_ThermalTelemetryCalibrated) realloc_succeeds
                  thermal_telemetry thermal with
          | Appended thermal =>
              (* SUN VECTOR SECTION *)
              let sun_sensor_telemetry :=
                sun_sensors_to_calibrated (aocs frame) (rtc_s (platform frame)) in
              match append (Z.of_nat sizeof_SunSensorsTelemetryCalibrated) realloc_succeeds
                      sun_sensor_telemetry sun_sensor with
              | Appended sun_sensor =>
                  read_frames fuel (read_data_frame (Some file) main_header (Some frame))
                    thermal sun_sensor
              | ReallocFailed => Some LoopNoMemory
              | OutOfBounds => Some LoopUndefined
              end
          | ReallocFailed => Some LoopNoMemory
          | OutOfBounds => Some LoopUndefined
          end
      end
  | (read_state, _, _) => Some (LoopEnd read_state thermal sun_sensor)
  end.

(** [process_thermal_data]: the value returned, the array and [*thermal_length]
    after the call, and the CSV file if one was created. *)
Definition process_thermal_data (thermal_telemetry_array : list ThermalTelemetryCalibrated)
    (thermal_length : size_t)
    : option (Z * list ThermalTelemetryCalibrated * size_t * option OFILE) :=
  (* sort by timestamp using qsort *)
  let thermal_telemetry_array :=
    qsort _ thermal_telemetry_array (Z.to_nat thermal_length)
      sizeof_ThermalTelemetryCalibrated thermal_timestamp_comparator in
  (* Update the new array size with duplicates removed *)
  match array_duplicate_removal (Some thermal_telemetry_array) (Z.to_nat thermal_length)
          sizeof_ThermalTelemetryCalibrated (Some thermal_timestamp_comparator) with
  | Some (thermal_length, Some thermal_telemetry_array) =>
      let thermal_length := Z.of_nat thermal_length in
      match write_array_to_csv fprintf fopen (Some THERMAL_DATA_CSV_FILENAME)
              (Some thermal_telemetry_array) thermal_length
              (Z.of_nat sizeof_ThermalTelemetryCalibrated)
              (Some (thermal_calibrated_to_csv_line print_u print_f))
              CSV_DECIMAL_PRECISION
              (Some rtc_s_column) [Some CPU_C_column; Some mirror_cell_C_column; None] with
      | Some (csv_file_status, csv_file) =>
          Some (1, thermal_telemetry_array, thermal_length, csv_file)
      | None => None
      end
  | _ => None
  end.

Definition process_sun_sensors_data
    (sun_sensors_telemetry_array : list SunSensorsTelemetryCalibrated)
    (sun_sensors_length : size_t)
    : option (Z * list SunSensorsTelemetryCalibrated * size_t * option OFILE) :=
  (* sort by timestamp using qsort *)
  let sun_sensors_telemetry_array :=
    qsort _ sun_sensors_telemetry_array (Z.to_nat sun_sensors_length)
      sizeof_SunSensorsTelemetryCalibrated sun_sensors_timestamp_comparator in
  (* Update the new array size with duplicates removed *)
  match array_duplicate_removal (Some sun_sensors_telemetry_array)
          (Z.to_nat sun_sensors_length) sizeof_SunSensorsTelemetryCalibrated
          (Some sun_sensors_timestamp_comparator) with
  | Some (sun_sensors_length, Some sun_sensors_telemetry_array) =>
      let sun_sensors_length := Z.of_nat sun_sensors_length in
      match write_array_to_csv fprintf fopen (Some SUN_SENSOR_DATA_CSV_FILENAME)
              (Some sun_sensors_telemetry_array) sun_sensors_length
              (Z.of_nat sizeof_SunSensorsTelemetryCalibrated)
              (Some (sun_sensors_calibrated_to_csv_line print_u print_f))
              CSV_DECIMAL_PRECISION
              (Some rtc_s_column)
              [Some sun_vector_x_column; Some sun_vector_y_column;
               Some sun_vector_z_column; None] with
      | Some (csv_file_status, csv_file) =>
          Some (1, sun_sensors_telemetry_array, sun_sensors_length, csv_file)
      | None => None
      end
  | _ => None
  end.

(** What a run of the program leaves: the exit status and the two CSV files,
    each [None] if the run did not create it. *)
Record main_result := Build_main_result {
  exit_status : Z;
  thermal_data_csv : option OFILE;
  sun_sensor_data_csv : option OFILE
}.

(** [main], given the contents of the telemetry file ([None] if it cannot be
    opened) and whatever the uninitialised [frame] holds at first. The text
    sent to the terminal is not modelled. *)
Definition main (telemetry_file : option FILE) (frame : BeaconFrame) : option main_result :=
  match telemetry_file with
  | None => Some (Build_main_result 1 None None)
  | Some file =>
      (* the header for each frame *)
      let header := main_header in
      match read_frames (S (length file)) (read_data_frame (Some file) header (Some frame))
              collector_init collector_init with
      | None | Some LoopUndefined => None
      | Some LoopNoMemory => Some (Build_main_result 1 None None)
      | Some (LoopEnd read_state thermal sun_sensor) =>
          match read_state with
          | READ_FAIL => Some (Build_main_result 1 None None)
          | _ =>
              if (telemetry_length thermal =? 0) || (telemetry_length sun_sensor =? 0)
              then Some (Build_main_result 1 None None)
              else
                match process_thermal_data (telemetry_array thermal)
                        (telemetry_length thermal) with
                | Some (_, _, _, thermal_csv) =>
                    match process_sun_sensors_data (telemetry_array sun_sensor)
                            (telemetry_length sun_sensor) with
                    | Some (_, _, _, sun_sensor_csv) =>
                        Some (Build_main_result 0 thermal_csv sun_sensor_csv)
                    | None => None
                    end
                | None => None
                end
          end
      end
  end.
End main.

(** *** What the loop, the export and the program are to achieve

    Vocabulary for the properties of [main.c] and [csv_tool.c]; none of it is
    code of the program. *)

(** The records [main] makes of a frame. *)
Definition thermal_of_frame (frame : BeaconFrame) : ThermalTelemetryCalibrated :=
  thermal_to_calibrated (thermal frame) (rtc_s (platform frame)).
Definition sun_sensors_of_frame (frame : BeaconFrame) : SunSensorsTelemetryCalibrated :=
  sun_sensors_to_calibrated (aocs frame) (rtc_s (platform frame)).

(** A stream of frames: each frame comes with the bytes before it, which end
    with the first marker in them. *)
Definition frames_stream (chunks : list (list byte * BeaconFrame)) : list byte :=
  flat_map (fun chunk => chunk.1 ++ encode_frame chunk.2) chunks.
Definition frame_chunk (header : BeaconHeader) (chunk : list byte * BeaconFrame) : Prop :=
  first_beacon header chunk.1 /\ wf_frame chunk.2 /\ ids_match chunk.2.

(** A stream that holds the marker but no valid frame after its first
    occurrence. *)
Definition broken_frame (header : BeaconHeader) (s : list byte) : Prop :=
  exists consumed rest,
    s = consumed ++ rest /\ first_beacon header consumed
    /\ forall frame file', rest = encode_frame frame ++ file' ->
                           ~ (wf_frame frame /\ ids_match frame).

(** The series a CSV file lists, for the frames of a stream: strictly
    ascending timestamps, records of frames only, the timestamp of every
    frame present. *)
Definition series_of {A : Type} (timestamp : A -> uint32_t) (of_frame : BeaconFrame -> A)
    (chunks : list (list byte * BeaconFrame)) (series : list A) : Prop :=
  StronglySorted (key_lt timestamp) series
  /\ (forall x, x ∈ series -> exists chunk, chunk ∈ chunks /\ x = of_frame chunk.2)
  /\ (forall chunk, chunk ∈ chunks ->
      exists x, x ∈ series /\ timestamp x = byte32_swap (rtc_s (platform chunk.2))).

(** What [qsort] asks of its comparison function, for a function that orders
    records by [key]. *)
Definition orders_by {A : Type} (key : A -> Z) (cmp : A -> A -> Z) : Prop :=
  (forall x y, cmp x y = -1 \/ cmp x y = 0 \/ cmp x y = 1)
  /\ (forall x y, cmp x y < 0 <-> key x < key y)
  /\ (forall x y, cmp x y = 0 <-> key x = key y)
  /\ (forall x y, cmp x y = - cmp y x)
  /\ (forall x y z, cmp x y <= 0 -> cmp y z <= 0 -> cmp x z <= 0).

(** What the program relies on [qsort] for: the first [nmemb] elements are
    rearranged into ascending order of the comparison function. *)
Definition sorts (qsort : forall A : Type, list A -> nat -> nat -> (A -> A -> Z) -> list A)
    : Prop :=
  forall (A : Type) (key : A -> Z) (compar : A -> A -> Z) (base : list A)
         (nmemb size : nat),
    orders_by key compar -> (nmemb <= length base)%nat ->
    exists sorted,
      qsort A base nmemb size compar = sorted ++ drop nmemb base
      /\ Permutation (take nmemb base) sorted
      /\ Sorted (key_le key) sorted.

(** Every [fprintf] writes its whole text. *)
Definition writes_all (fprintf : OFILE -> c_string -> Z * OFILE) : Prop :=
  forall file s, fprintf file s = (Z.of_nat (length s), file ++ s).

(** The header row: the column names joined by the separator, and a newline. *)
Definition header_line (first_column_name : c_string) (columns : list c_string) : c_string :=
  first_column_name ++ flat_map (fun column => SEPARATOR ++ column) columns ++ [Byte.x0a].

(** The rows of a CSV file, given the line of each element that has one. *)
Definition csv_rows {A : Type} (line : A -> option c_string) (elements : list A) : c_string :=
  flat_map (fun element => match line element with
                           | Some s => s ++ [Byte.x0a]
                           | None => []
                           end) elements.

(** [format] yields the line of an element that has one, and fails on the
    others. *)
Definition formats {A : Type} (format : CsvLineFormatter A) (precision : Z)
    (line : A -> option c_string) (element : A) : Prop :=
  forall buffer : char_buffer,
    match line element with
    | Some s =>
        exists len,
          format (Some element) (Some buffer) MAX_LINE_BUFFER precision = (len, Some s)
          /\ 0 <= len <= Z.of_nat (length s) + 1
    | None =>
        exists len buffer',
          format (Some element) (Some buffer) MAX_LINE_BUFFER precision = (len, buffer')
          /\ len < 0
    end.

(** [precision] as the line formatters use it, and the lines they make. *)
Definition clamp_precision (precision : Z) : Z := Z.max 0 (Z.min 9 precision).

Definition thermal_line (print_u : uint32_t -> c_string) (print_f : Z -> float -> c_string)
    (precision : Z) (record : ThermalTelemetryCalibrated) : c_string :=
  print_u (thermal_telemetry_timestamp record)
  ++ [Byte.x3b] ++ print_f precision (CPU_C record)
  ++ [Byte.x3b] ++ print_f precision (mirror_cell_C record).

Definition sun_sensors_line (print_u : uint32_t -> c_string)
    (print_f : Z -> float -> c_string) (precision : Z)
    (record : SunSensorsTelemetryCalibrated) : c_string :=
  print_u (sun_sensors_telemetry_timestamp record)
  ++ [Byte.x3b] ++ print_f precision (sun_vector_x record)
  ++ [Byte.x3b] ++ print_f precision (sun_vector_y record)
  ++ [Byte.x3b] ++ print_f precision (sun_vector_z record).

(** The line of a record in a CSV file: none if it does not fit the line
    buffer. *)
Definition fitting {A : Type} (line : A -> c_string) (record : A) : option c_string :=
  if Z.of_nat (length (line record)) <? MAX_LINE_BUFFER then Some (line record) else None.

(** *** Deduplication: lists without equal neighbours *)

(** No element compares equal to the one before it. *)
Inductive changing {A : Type} (comparator : A -> A -> Z) : list A -> Prop :=
| changing_nil : changing comparator []
| changing_one x : changing comparator [x]
| changing_cons x y l :
    comparator y x <> 0 -> changing comparator (y :: l) -> changing comparator (x :: y :: l).

(** *** The decoder: members in the range of their types *)

(** A property of the output frame that a statement cannot undo. *)
Definition keeps (P : BeaconFrame -> Prop) (i : instr) : Prop :=
  match i with
  | IRead fl => forall v o, P o -> P (fset fl v o)
  | ICheck _ _ => True
  end.

(** The member a read assigns holds the value assigned, and the later
    statements leave it in the range of its type. *)
Fixpoint reads_kept (l : list instr) : Prop :=
  match l with
  | [] => True
  | IRead fl :: l =>
      (forall v o, fget fl (fset fl v o) = v)
      /\ Forall (keeps (fun o => in_range (frep fl) (fget fl o))) l
      /\ reads_kept l
  | ICheck _ _ :: l => reads_kept l
  end.

Fixpoint members_in_range (l : list instr) (o : BeaconFrame) : Prop :=
  match l with
  | [] => True
  | IRead fl :: l => in_range (frep fl) (fget fl o) /\ members_in_range l o
  | ICheck _ _ :: l => members_in_range l o
  end.

(** *** The decoder: every 110 bytes are a frame *)

(** The reads of a statement list, without the checks. *)
Definition is_read (i : instr) : bool :=
  match i with
  | IRead _ => true
  | ICheck _ _ => false
  end.
Definition reads_only (l : list instr) : list instr := List.filter is_read l.

(** The frame whose wire image is [bs]: what the reads of the decoder make of
    110 bytes. *)
Definition frame_of_image (bs : list byte) : BeaconFrame :=
  out (run (reads_only frame_program) (State bs zero_frame)).2.

(** Where the identifier of a section lies in the wire image, and the two
    bytes the decoder accepts there. *)
Definition id_offset (sec : FrameSection) : nat :=
  match sec with
  | Platform => 0 | Memory => 18 | CDH => 24 | Power => 31
  | Thermal => 49 | AOCS => 55 | Payload => 101
  end.
Definition id_bytes (sec : FrameSection) : list byte :=
  [byte.of_Z (expected_id sec / 2 ^ 8); byte.of_Z (expected_id sec)].

(** The unsigned big-endian value of a byte sequence. *)
Definition big_endian (bs : list byte) : Z := le_combine (rev bs).

(** *** Calibration: the numbers the floats denote *)

(** The number a finite [float] denotes, as a fraction with a positive
    denominator; infinities and NaN denote none. *)
Definition float_fraction (f : float) : option (Z * Z) :=
  match f with
  | S754_zero _ => Some (0, 1)
  | S754_finite s m e =>
      let m := if s then Z.neg m else Z.pos m in
      if 0 <=? e then Some (m * 2 ^ e, 1) else Some (m, 2 ^ (- e))
  | S754_infinity _ | S754_nan => None
  end.

(** [test] holds of the [n] integers from [lo] on. *)
Fixpoint holds_from (test : Z -> bool) (lo : Z) (n : nat) : bool :=
  match n with
  | O => true
  | S n => test lo && holds_from test (lo + 1) n
  end.

(** The calibrated temperature is within 1/256 of [value] hundredths; the
    calibrated sun vector component is [value / 16384]. *)
Definition temp_close (value : Z) : bool :=
  match float_fraction (TEMP_C_PHYSICAL_VALUE value) with
  | Some (num, den) => (0 <? den) && (Z.abs (100 * num - value * den) * 256 <=? den)
  | None => false
  end.

Definition sun_exact (value : Z) : bool :=
  match float_fraction (SUN_SENSORS_PHYSICAL_VALUE value) with
  | Some (num, den) => (0 <? den) && (num * 16384 =? value * den)
  | None => false
  end.

(** ** Tactics for the properties of the program *)

(** [rewrite] up to the unfolding of type abbreviations in implicit
    arguments. *)
Ltac head_of t := lazymatch t with ?f _ => head_of f | _ => t end.
Ltac rewrite_call H :=
  lazymatch type of H with
  | ?l = _ =>
      let h := head_of l in
      match goal with
      | |- context [?t] =>
          let h' := head_of t in
          constr_eq h h'; change t with l; rewrite H
      end
  end.
Ltac rewrite_call_in H H' :=
  lazymatch type of H with
  | ?l = _ =>
      let h := head_of l in
      match type of H' with
      | context [?t] =>
          let h' := head_of t in
          constr_eq h h'; change t with l in H'; rewrite H in H'
      end
  end.

(** The case analysis of a comparator on two timestamps. *)
Ltac compare_timestamps :=
  repeat split; intros;
  repeat match goal with
         | |- context [?a <? ?b] => destruct (Z.ltb_spec a b)
         | |- context [?a >? ?b] => destruct (Z.gtb_spec a b)
         | H : context [?a <? ?b] |- _ => destruct (Z.ltb_spec a b)
         | H : context [?a >? ?b] |- _ => destruct (Z.gtb_spec a b)
         end; lia.

Ltac sizes :=
  unfold sizeof_ThermalTelemetryCalibrated, sizeof_SunSensorsTelemetryCalibrated in *; lia.

(** ** A C library for the examples *)

(** Writes that succeed, memory and files without limit, a merge sort for
    [qsort], and conversions that print a single character. *)
Definition sample_fprintf (file : OFILE) (s : c_string) : Z * OFILE :=
  (Z.of_nat (length s), file ++ s).
Definition sample_qsort (A : Type) (base : list A) (nmemb size : nat)
    (compar : A -> A -> Z) : list A :=
  merge_sort (fun x y => compar x y <= 0) (H := fun x y => decide (compar x y <= 0))
    (take nmemb base)
  ++ drop nmemb base.
Definition sample_print_u (value : uint32_t) : c_string := [Byte.x30].
Definition sample_print_f (precision : Z) (value : float) : c_string := [Byte.x30].

(** A stream of two frames with the same timestamp, a byte of noise before
    the second marker. *)
Definition sample_chunks : list (list byte * BeaconFrame) :=
  [(beacon_bytes main_header, sample_frame);
   (Byte.x00 :: beacon_bytes main_header, sample_frame)].

(** * Properties *)

Import ThermalCalibrated SunSensorsCalibrated.

Lemma read_frame_fields_run : read_frame_fields = run frame_program.
Proof. reflexivity. Qed.

(** ** Byte-order utility *)

Lemma byte16_swap_involutive (x : uint16_t) :
  0 <= x < 2 ^ 16 -> byte16_swap (byte16_swap x) = x.
Proof.
  intros Hx. unfold byte16_swap, to_uint16.
  rewrite <- (Z.mod_small x (2 ^ 16)) at 3 by lia.
  rewrite <- !Z.land_ones by lia.
  prove_Zeq_bitwise.
Qed.

Lemma byte32_swap_involutive (x : uint32_t) :
  0 <= x < 2 ^ 32 -> byte32_swap (byte32_swap x) = x.
Proof.
  intros Hx. unfold byte32_swap, to_uint32.
  rewrite <- (Z.mod_small x (2 ^ 32)) at 5 by lia.
  rewrite <- !Z.land_ones by lia.
  change 0x000000FF with (Z.ones 8).
  change 0x0000FF00 with (Z.shiftl (Z.ones 8) 8).
  change 0x00FF0000 with (Z.shiftl (Z.ones 8) 16).
  change 0xFF000000 with (Z.shiftl (Z.ones 8) 24).
  prove_Zeq_bitwise.
Qed.

Lemma byte16_swap_range (x : Z) : 0 <= byte16_swap x < 2 ^ 16.
Proof. unfold byte16_swap, to_uint16. apply Z.mod_pos_bound. lia. Qed.

(** C9. Both swaps are involutions on the values of their type: swapping
    twice gives back every 16-bit, respectively 32-bit, value. *)
Theorem byte_swap_involutive :
  (forall x : uint16_t, 0 <= x < 2 ^ 16 -> byte16_swap (byte16_swap x) = x)
  /\ (forall x : uint32_t, 0 <= x < 2 ^ 32 -> byte32_swap (byte32_swap x) = x).
Proof. split; [exact byte16_swap_involutive | exact byte32_swap_involutive]. Qed.

(** The patterns the specification singles out: all zeros, all ones, and one
    byte set. *)
Lemma byte_swap_involutive_witness :
  Forall (fun x => byte16_swap (byte16_swap x) = x) [0x0000; 0xFFFF; 0x00FF; 0xFF00]
  /\ Forall (fun x => byte32_swap (byte32_swap x) = x)
            [0x00000000; 0xFFFFFFFF; 0x000000FF; 0x0000FF00; 0x00FF0000; 0xFF000000].
Proof.
  split.
  - repeat (apply Forall_cons_2; [apply (proj1 byte_swap_involutive); lia|]).
    apply Forall_nil_2.
  - repeat (apply Forall_cons_2; [apply (proj2 byte_swap_involutive); lia|]).
    apply Forall_nil_2.
Defined.

(** ** Object representations *)

Lemma to_int16_mod z : to_int16 z mod 2 ^ 16 = z mod 2 ^ 16.
Proof. unfold to_int16. rewrite Zminus_mod_idemp_l. f_equal. lia. Qed.

Lemma to_int32_mod z : to_int32 z mod 2 ^ 32 = z mod 2 ^ 32.
Proof. unfold to_int32. rewrite Zminus_mod_idemp_l. f_equal. lia. Qed.

Lemma to_int16_of_mod z : to_int16 (z mod 2 ^ 16) = to_int16 z.
Proof. unfold to_int16. now rewrite Zplus_mod_idemp_l. Qed.

Lemma to_int32_of_mod z : to_int32 (z mod 2 ^ 32) = to_int32 z.
Proof. unfold to_int32. now rewrite Zplus_mod_idemp_l. Qed.

Lemma to_int16_id z : - 2 ^ 15 <= z < 2 ^ 15 -> to_int16 z = z.
Proof. intros H. unfold to_int16. rewrite Z.mod_small; lia. Qed.

Lemma to_int32_id z : - 2 ^ 31 <= z < 2 ^ 31 -> to_int32 z = z.
Proof. intros H. unfold to_int32. rewrite Z.mod_small; lia. Qed.

Lemma to_int16_range z : - 2 ^ 15 <= to_int16 z < 2 ^ 15.
Proof. unfold to_int16. pose proof (Z.mod_pos_bound (z + 2 ^ 15) (2 ^ 16)). lia. Qed.

Lemma to_int32_range z : - 2 ^ 31 <= to_int32 z < 2 ^ 31.
Proof. unfold to_int32. pose proof (Z.mod_pos_bound (z + 2 ^ 31) (2 ^ 32)). lia. Qed.

Lemma uint8_t_c_ok : ctype_ok uint8_t_c.
Proof.
  split; cbn; auto.
  intros [|b [|]]; cbn; intros; try discriminate; reflexivity.
Qed.

Lemma uint24_t_c_ok : ctype_ok uint24_t_c.
Proof.
  split; cbn; auto.
  - intros [|x [|y [|z [|]]]]; cbn; intros; try discriminate; reflexivity.
  - intros []; reflexivity.
Qed.

Lemma uint16_t_c_ok : ctype_ok uint16_t_c.
Proof.
  split; cbn [to_bytes of_bytes sizeof in_range uint16_t_c]; intros.
  - apply length_le_split.
  - now apply split_le_combine'.
  - rewrite le_combine_split. apply Z.mod_small. lia.
  - pose proof (le_combine_bound bs) as Hb. rewrite H in Hb. exact Hb.
Qed.

Lemma uint32_t_c_ok : ctype_ok uint32_t_c.
Proof.
  split; cbn [to_bytes of_bytes sizeof in_range uint32_t_c]; intros.
  - apply length_le_split.
  - now apply split_le_combine'.
  - rewrite le_combine_split. apply Z.mod_small. lia.
  - pose proof (le_combine_bound bs) as Hb. rewrite H in Hb. exact Hb.
Qed.

Lemma int16_t_c_ok : ctype_ok int16_t_c.
Proof.
  split; cbn [to_bytes of_bytes sizeof in_range int16_t_c]; intros.
  - apply length_le_split.
  - rewrite le_split_mod. change (Z.of_nat 2 * 8) with 16.
    rewrite to_int16_mod. change 16 with (Z.of_nat 2 * 8).
    rewrite <- le_split_mod. now apply split_le_combine'.
  - rewrite le_combine_split. change (Z.of_nat 2 * 8) with 16.
    rewrite to_int16_of_mod. now apply to_int16_id.
  - apply to_int16_range.
Qed.

Lemma int32_t_c_ok : ctype_ok int32_t_c.
Proof.
  split; cbn [to_bytes of_bytes sizeof in_range int32_t_c]; intros.
  - apply length_le_split.
  - rewrite le_split_mod. change (Z.of_nat 4 * 8) with 32.
    rewrite to_int32_mod. change 32 with (Z.of_nat 4 * 8).
    rewrite <- le_split_mod. now apply split_le_combine'.
  - rewrite le_combine_split. change (Z.of_nat 4 * 8) with 32.
    rewrite to_int32_of_mod. now apply to_int32_id.
  - apply to_int32_range.
Qed.

Create HintDb ctypes.
#[local] Hint Resolve uint8_t_c_ok uint16_t_c_ok uint32_t_c_ok int16_t_c_ok int32_t_c_ok
  uint24_t_c_ok : ctypes.

(** ** Single statements *)

Lemma READ_FIELD_app (fl : field) (bs rest : list byte) (o : BeaconFrame) :
  ctype_ok (frep fl) ->
  length bs = sizeof (frep fl) ->
  READ_FIELD fl (State (bs ++ rest) o)
  = (true, State rest (fset fl (of_bytes (frep fl) bs) o)).
Proof.
  intros Hc Hlen. unfold READ_FIELD, fread. cbn [file out].
  rewrite take_app_length', drop_app_length' by congruence.
  rewrite Hlen, Nat.eqb_refl.
  rewrite drop_ge, app_nil_r; [reflexivity|].
  rewrite (to_bytes_length _ Hc). lia.
Qed.

(** ** Decoding an encoded prefix of the schema *)

Lemma run_app_encoded (l1 l2 : list instr) (f : BeaconFrame) :
  Forall instr_ok l1 ->
  forall (o : BeaconFrame) (rest : list byte),
  passes l1 f o ->
  run (l1 ++ l2) (State (encode_with l1 f ++ rest) o)
  = run l2 (State rest (copy l1 f o)).
Proof.
  induction 1 as [|i l1 Hi Hl IH]; intros o rest Hp; [reflexivity|].
  destruct i as [fl|ID id]; cbn [app run exec encode_with flat_map copy] in *.
  - destruct Hp as [Hr Hp].
    unfold seq, ifnot. rewrite <- app_assoc.
    rewrite READ_FIELD_app by (auto using to_bytes_length).
    rewrite (of_to_bytes _ Hi) by exact Hr.
    now apply IH.
  - destruct Hp as [Hid Hp].
    unfold seq, when, id_differs. cbn [out IS_BIG_ENDIAN].
    rewrite Hid, Z.eqb_refl. cbn [negb app].
    now apply IH.
Qed.

Lemma frame_program_ok : Forall instr_ok frame_program.
Proof.
  unfold frame_program, platform_program, memory_program, cdh_program, power_program,
    thermal_program, aocs_program, payload_program.
  cbn [app].
  repeat first [apply Forall_nil_2 | apply Forall_cons_2; [cbn; auto with ctypes|]].
Qed.

Lemma byte_eqb_refl (x : byte) : Byte.eqb x x = true.
Proof. now apply Byte.byte_dec_lb. Qed.

Lemma byte_eqb_eq (x y : byte) : Byte.eqb x y = true <-> x = y.
Proof. split; [apply Byte.byte_dec_bl | apply Byte.byte_dec_lb]. Qed.

Lemma find_beacon_at_start (header : BeaconHeader) (s : list byte) :
  find_beacon header [Byte.x00; Byte.x00; Byte.x00] 0 (beacon_bytes header ++ s) = Some s.
Proof.
  destruct header as [[m0 m1 m2]]. cbn -[Byte.eqb].
  now rewrite !byte_eqb_refl.
Qed.

Lemma encode_with_frame_program (f : BeaconFrame) :
  encode_with frame_program f = encode_frame f.
Proof.
  destruct f as [[] [] [] [] [] [] []]. reflexivity.
Qed.

Lemma copy_frame_program (f o : BeaconFrame) : copy frame_program f o = f.
Proof.
  destruct f as [[] [] [] [] [] [] []], o as [[] [] [] [] [] [] []]. reflexivity.
Qed.

Lemma passes_frame_program (f o : BeaconFrame) :
  wf_frame f -> ids_match f -> passes frame_program f o.
Proof.
  destruct f as [[] [] [] [] [] [] []], o as [[] [] [] [] [] [] []].
  unfold wf_frame, ids_match, wf_platform, wf_memory, wf_cdh, wf_power, wf_thermal,
    wf_aocs, wf_payload.
  cbn. intuition.
Qed.

Lemma ids_match_wire (frame : BeaconFrame) :
  wf_frame frame -> ids_match frame ->
  Forall (fun sec => section_id sec frame = byte16_swap (expected_id sec))
         [Platform; Memory; CDH; Power; Thermal; AOCS; Payload].
Proof.
  intros (Hp & Hm & Hc & Hw & Ht & Ha & Hy) (I1 & I2 & I3 & I4 & I5 & I6 & I7).
  repeat (apply Forall_cons_2; [|]); [..|apply Forall_nil_2];
    cbn [section_id expected_id];
    match goal with
    | H : byte16_swap ?x = ?ID |- ?x = byte16_swap ?ID =>
        rewrite <- H; symmetry; apply byte16_swap_involutive
    end.
  - apply Hp.
  - apply Hm.
  - apply Hc.
  - apply Hw.
  - apply Ht.
  - apply Ha.
  - apply Hy.
Qed.

(** C1. A well-formed frame whose identifiers are the expected constants in
    wire order, written member by member right after the marker, is read back
    with [READ_OK], the stream positioned after it, and the output frame equal
    to it member for member. No member is byte-swapped in the output, the
    identifiers included: they are stored as the stream carries them, the
    byte-swapped constants. *)
Theorem read_data_frame_roundtrip (header : BeaconHeader) (frame out0 : BeaconFrame)
    (rest : list byte) :
  wf_frame frame -> ids_match frame ->
  read_data_frame (Some (beacon_bytes header ++ encode_frame frame ++ rest)) header
                  (Some out0)
  = (READ_OK, Some rest, Some frame)
  /\ Forall (fun sec => section_id sec frame = byte16_swap (expected_id sec))
            [Platform; Memory; CDH; Power; Thermal; AOCS; Payload].
Proof.
  intros Hwf Hids. split; [|now apply ids_match_wire].
  unfold read_data_frame.
  rewrite find_beacon_at_start. unfold read_sections. rewrite read_frame_fields_run.
  rewrite <- encode_with_frame_program, <- (app_nil_r frame_program).
  rewrite run_app_encoded by auto using frame_program_ok, passes_frame_program.
  now rewrite copy_frame_program.
Qed.

(** ** Frame synchronizer *)

Lemma ends_with_beacon_3 (header : BeaconHeader) (pre : list byte) (a b c : byte) :
  ends_with_beacon header (pre ++ [a; b; c])
  <-> a = b_0 (beacon_id header) /\ b = b_1 (beacon_id header)
      /\ c = b_2 (beacon_id header).
Proof.
  unfold ends_with_beacon, beacon_bytes. cbn [to_bytes uint24_t_c]. split.
  - intros [pre' H]. apply app_inj_2 in H as [_ H]; [|reflexivity].
    now inversion H.
  - intros (-> & -> & ->). now exists pre.
Qed.

Lemma ends_with_beacon_length (header : BeaconHeader) (l : list byte) :
  ends_with_beacon header l -> (3 <= length l)%nat.
Proof. intros [pre ->]. rewrite length_app. cbn. lia. Qed.

Lemma beacon_test (header : BeaconHeader) (pre : list byte) (a b c : byte) :
  Byte.eqb a (b_0 (beacon_id header)) && Byte.eqb b (b_1 (beacon_id header))
    && Byte.eqb c (b_2 (beacon_id header)) = true
  <-> ends_with_beacon header (pre ++ [a; b; c]).
Proof.
  rewrite ends_with_beacon_3, !andb_true_iff, !byte_eqb_eq. tauto.
Qed.

(** One iteration of the search loop. *)
Lemma find_beacon_step (header : BeaconHeader) (h hm : list byte) (idx : nat)
    (x : byte) (s : list byte) :
  window h hm idx ->
  (ends_with_beacon header (h ++ [x]) /\ find_beacon header hm idx (x :: s) = Some s)
  \/ (~ ends_with_beacon header (h ++ [x])
      /\ exists hm' idx', window (h ++ [x]) hm' idx'
         /\ find_beacon header hm idx (x :: s) = find_beacon header hm' idx' s).
Proof.
  intros Hw. destruct Hw as [u v w|a v w|a b w|pre a b c].
  - right. split.
    + intros H%ends_with_beacon_length. cbn in H. lia.
    + exists [x; v; w], 1%nat. split; [constructor|reflexivity].
  - right. split.
    + intros H%ends_with_beacon_length. cbn in H. lia.
    + exists [a; x; w], 2%nat. split; [constructor|reflexivity].
  - cbn -[Byte.eqb]. change [a; b; x] with ([] ++ [a; b; x]).
    destruct (Byte.eqb a _ && Byte.eqb b _ && Byte.eqb x _) eqn:E.
    + left. split; [|reflexivity]. now apply beacon_test.
    + right. split.
      * rewrite <- beacon_test, E. discriminate.
      * exists [a; b; x], 3%nat. split; [apply (window_3 [])|reflexivity].
  - cbn -[Byte.eqb].
    replace ((pre ++ [a; b; c]) ++ [x]) with ((pre ++ [a]) ++ [b; c; x])
      by now rewrite <- !app_assoc.
    destruct (Byte.eqb b _ && Byte.eqb c _ && Byte.eqb x _) eqn:E.
    + left. split; [|reflexivity]. now apply beacon_test.
    + right. split.
      * rewrite <- beacon_test, E. discriminate.
      * exists [b; c; x], 3%nat. split; [constructor|reflexivity].
Qed.

Lemma find_beacon_spec (header : BeaconHeader) (s : list byte) :
  forall (h hm : list byte) (idx : nat),
  window h hm idx ->
  match find_beacon header hm idx s with
  | Some rest =>
      exists c, s = c ++ rest /\ ends_with_beacon header (h ++ c)
                /\ forall p, p `prefix_of` c -> p <> c -> p <> [] ->
                             ~ ends_with_beacon header (h ++ p)
  | None => forall p, p `prefix_of` s -> p <> [] -> ~ ends_with_beacon header (h ++ p)
  end.
Proof.
  induction s as [|x s IH]; intros h hm idx Hw.
  - cbn. intros p Hp%prefix_nil_inv. congruence.
  - destruct (find_beacon_step header h hm idx x s Hw)
      as [[Hend ->]|[Hnot (hm' & idx' & Hw' & ->)]].
    + exists [x]. repeat split; [exact Hend|].
      intros p [k Hk] Hne Hnil. destruct p as [|y [|z p]]; try congruence.
      * cbn in Hk. injection Hk as Hy Hk. subst y. congruence.
      * discriminate.
    + specialize (IH _ _ _ Hw'). destruct (find_beacon header hm' idx' s) as [rest|].
      * destruct IH as (c & -> & Hend & Hfirst). exists (x :: c).
        rewrite <- app_assoc in Hend. repeat split; [exact Hend|].
        intros p [k Hk] Hne Hnil. destruct p as [|y p]; [congruence|].
        cbn in Hk. injection Hk as Hy Hk. subst y.
        destruct p as [|z p]; [exact Hnot|].
        replace (h ++ x :: z :: p) with ((h ++ [x]) ++ z :: p) by now rewrite <- app_assoc.
        apply Hfirst; [now exists k|congruence|discriminate].
      * intros p [k Hk] Hnil. destruct p as [|y p]; [congruence|].
        cbn in Hk. injection Hk as Hy Hk. subst y.
        destruct p as [|z p]; [exact Hnot|].
        replace (h ++ x :: z :: p) with ((h ++ [x]) ++ z :: p) by now rewrite <- app_assoc.
        apply IH; [now exists k|discriminate].
Qed.

Lemma find_beacon_first (header : BeaconHeader) (s : list byte) :
  match find_beacon header [Byte.x00; Byte.x00; Byte.x00] 0 s with
  | Some rest => exists consumed, s = consumed ++ rest /\ first_beacon header consumed
  | None => no_beacon header s
  end.
Proof.
  pose proof (find_beacon_spec header s [] _ _ (window_0 Byte.x00 Byte.x00 Byte.x00)) as H.
  assert (Hnil : ~ ends_with_beacon header []).
  { intros H0%ends_with_beacon_length. cbn in H0. lia. }
  destruct (find_beacon header _ 0 s) as [rest|].
  - destruct H as (c & -> & Hend & Hfirst). exists c. repeat split; [exact Hend|].
    intros p Hp Hne. destruct p; [exact Hnil|]. now apply Hfirst.
  - intros p Hp. destruct p; [exact Hnil|]. now apply H.
Qed.

(** C2. The call discards bytes up to and including the first occurrence of the
    marker and decodes the sections from the byte after it; without any
    occurrence it consumes the whole stream and returns [READ_EOF]. With the
    marker [FF FF F0] and a stream starting [00 FF FF FF F0], decoding starts
    at the sixth byte. *)
Theorem read_data_frame_synchronizes (header : BeaconHeader) (s : FILE)
    (out : BeaconFrame) :
  ((exists consumed rest,
      s = consumed ++ rest /\ first_beacon header consumed
      /\ read_data_frame (Some s) header (Some out) = read_sections rest out)
   \/ (no_beacon header s
       /\ read_data_frame (Some s) header (Some out) = (READ_EOF, Some [], Some out)))
  /\ (forall payload : list byte,
        read_data_frame
          (Some ([Byte.x00; Byte.xff; Byte.xff; Byte.xff; Byte.xf0] ++ payload))
          main_header (Some out)
        = read_sections payload out).
Proof.
  split; [|reflexivity].
  unfold read_data_frame. pose proof (find_beacon_first header s) as H.
  destruct (find_beacon header _ 0 s) as [rest|].
  - left. destruct H as (consumed & -> & Hfirst). now exists consumed, rest.
  - right. now split.
Qed.

(** ** Identifier checks *)

Lemma run_prefix_id_mismatch (l1 l2 : list instr) (fl : field) (v : ftype fl)
    (ID : Z) (g : BeaconFrame -> uint16_t) (f o : BeaconFrame) (post : list byte) :
  Forall instr_ok l1 -> passes l1 f o ->
  ctype_ok (frep fl) -> in_range (frep fl) v ->
  byte16_swap (g (fset fl v (copy l1 f o))) <> ID ->
  run (l1 ++ IRead fl :: ICheck ID g :: l2)
      (State (encode_with l1 f ++ to_bytes (frep fl) v ++ post) o)
  = (Some READ_FAIL, State post (fset fl v (copy l1 f o))).
Proof.
  intros Hl1 Hp Hc Hv Hg.
  rewrite run_app_encoded by assumption.
  cbn [run exec]. unfold seq at 1, ifnot.
  rewrite READ_FIELD_app by (auto using to_bytes_length).
  rewrite (of_to_bytes _ Hc) by exact Hv.
  unfold seq, when, id_differs. cbn [out IS_BIG_ENDIAN].
  apply Z.eqb_neq in Hg. rewrite Z.eqb_sym in Hg. rewrite Hg. reflexivity.
Qed.

Lemma section_programs_ok (l : list FrameSection) :
  Forall instr_ok (flat_map section_program l).
Proof.
  induction l as [|sec l IH]; [constructor|].
  cbn [flat_map]. apply Forall_app. split; [|exact IH].
  destruct sec; cbn [section_program];
    unfold platform_program, memory_program, cdh_program, power_program,
      thermal_program, aocs_program, payload_program;
    repeat first [apply Forall_nil_2 | apply Forall_cons_2; [cbn; auto with ctypes|]].
Qed.

(** C5. Whatever section comes first with a wrong identifier (all sections
    before it being well-formed with the right identifiers), the call returns
    [READ_FAIL] having consumed the stream up to and including that identifier
    and no byte more, and the other members of that section in the output are
    untouched. *)
Theorem wrong_identifier_fails (header : BeaconHeader) (sec : FrameSection)
    (f out0 : BeaconFrame) (id : uint16_t) (post : list byte) :
  wf_frame f ->
  Forall (fun s => byte16_swap (section_id s f) = expected_id s) (sections_before sec) ->
  0 <= id < 2 ^ 16 ->
  byte16_swap id <> expected_id sec ->
  exists out' : BeaconFrame,
    read_data_frame
      (Some (beacon_bytes header ++ encode_before sec f ++ to_bytes uint16_t_c id ++ post))
      header (Some out0)
    = (READ_FAIL, Some post, Some out')
    /\ section_id sec out' = id
    /\ section_members sec out' = section_members sec out0
    /\ Forall (fun s => encode_section s out' = encode_section s out0) (sections_after sec)
    /\ Forall (fun s => encode_section s out' = encode_section s f) (sections_before sec).
Proof.
  intros Hwf Hids Hid Hne.
  unfold read_data_frame. rewrite find_beacon_at_start.
  unfold read_sections. rewrite read_frame_fields_run.
  destruct_frame f. destruct_frame out0.
  unfold wf_frame, wf_platform, wf_memory, wf_cdh, wf_power, wf_thermal, wf_aocs,
    wf_payload in Hwf.
  cbn in Hwf.
  destruct sec.
  all: match goal with
       | |- context [run frame_program (State (encode_before ?C ?F ++ _) ?O)] =>
           pose proof (run_prefix_id_mismatch
                         (flat_map section_program (sections_before C))
                         (drop 2 (section_program C)
                          ++ flat_map section_program (sections_after C))
                         (section_id_field C) id (expected_id C) (section_id C)
                         F O post (section_programs_ok _)) as Hrun
       end.
  all: match type of Hrun with
       | ?P -> _ =>
           assert (Hpass : P);
           [ clear Hrun; cbn in Hids |- *;
             repeat match goal with
                    | H : Forall _ (_ :: _) |- _ => apply Forall_cons_1 in H as [? H]
                    end; cbn in *; intuition
           | specialize (Hrun Hpass); clear Hpass Hids Hwf ]
       end.
  all: specialize (Hrun uint16_t_c_ok Hid Hne).
  all: match type of Hrun with
       | ?L = (_, State _ ?o') =>
           exists o'; split;
           [ match goal with
             | |- context [run frame_program ?st] => change (run frame_program st) with L
             end; rewrite Hrun; reflexivity
           | clear Hrun ]
       end.
  all: repeat split;
    repeat first [apply Forall_nil_2 | apply Forall_cons_2; [reflexivity|]].
Qed.

(** ** The decoder on arbitrary streams *)

Lemma encode_frame_length (o : BeaconFrame) : length (encode_frame o) = 110%nat.
Proof. destruct_frame o. reflexivity. Qed.

Lemma frame_program_laid_out : laid_out 0 frame_program.
Proof.
  unfold frame_program, platform_program, memory_program, cdh_program, power_program,
    thermal_program, aocs_program, payload_program.
  cbn [app laid_out].
  repeat match goal with
         | |- _ /\ _ => split
         | |- True => exact I
         | |- ctype_ok _ => cbn; auto with ctypes
         | |- field_at _ _ =>
             let o := fresh "o" in
             intros o; destruct_frame o; split; [reflexivity | intros v; reflexivity]
         | |- laid_out _ _ => cbn [Nat.add sizeof frep laid_out]
         end.
Qed.

Lemma overwrites_refl (k : nat) (s : state) : overwrites k 0 s s.
Proof.
  unfold overwrites. rewrite Nat.add_0_r, take_0, drop_0. cbn [app].
  rewrite take_drop. repeat split. lia.
Qed.

Lemma overwrites_trans (k j1 j2 : nat) (s1 s2 s3 : state) :
  (k + j1 <= 110)%nat ->
  overwrites k j1 s1 s2 -> overwrites (k + j1) j2 s2 s3 -> overwrites k (j1 + j2) s1 s3.
Proof.
  intros Hk (Hl1 & Hf1 & He1) (Hl2 & Hf2 & He2).
  pose proof (encode_frame_length (out s1)) as Hlen.
  rewrite Hf1, length_drop in Hl2.
  unfold overwrites. split; [lia|]. split.
  - rewrite Hf2, Hf1, drop_drop. reflexivity.
  - rewrite He2, He1, Hf1. clear He1 He2 Hf1 Hf2.
    set (e := encode_frame (out s1)) in *. set (f := file s1) in *.
    assert (Hpre : length (take k e ++ take j1 f) = (k + j1)%nat)
      by (rewrite length_app, !length_take; lia).
    rewrite (app_assoc (take k e)).
    rewrite take_app_length' by now rewrite Hpre.
    rewrite <- (drop_drop _ j2 (k + j1)).
    rewrite drop_app_length' by now rewrite Hpre.
    rewrite drop_drop, <- !app_assoc. f_equal.
    rewrite app_assoc, take_take_drop. f_equal. f_equal. lia.
Qed.

Lemma READ_FIELD_overwrites (fl : field) (k : nat) (s : state) :
  ctype_ok (frep fl) -> field_at fl k -> (k + sizeof (frep fl) <= 110)%nat ->
  let '(ok, s') := READ_FIELD fl s in
  if ok then overwrites k (sizeof (frep fl)) s s'
  else (length (file s) < sizeof (frep fl))%nat /\ overwrites k (length (file s)) s s'.
Proof.
  intros Hc Hat Hk. destruct s as [f o]. destruct (Hat o) as [Hget Hset].
  pose proof (encode_frame_length o) as Hlen.
  unfold READ_FIELD, fread. cbn [file out].
  set (w := sizeof (frep fl)) in *.
  destruct (Nat.eqb_spec (length (take w f)) w) as [E|E].
  - rewrite length_take in E. unfold overwrites. cbn [file out].
    split; [lia|]. split; [reflexivity|].
    rewrite Hset. fold w. rewrite length_take.
    replace (w `min` length f)%nat with w by lia.
    rewrite (drop_ge (to_bytes _ _)) by (rewrite (to_bytes_length _ Hc); fold w; lia).
    rewrite app_nil_r, (to_of_bytes _ Hc) by (rewrite length_take; fold w; lia).
    reflexivity.
  - rewrite length_take in E.
    assert (Hshort : (length f < w)%nat) by lia.
    split; [exact Hshort|]. unfold overwrites. cbn [file out].
    split; [lia|]. split; [rewrite !drop_ge by lia; reflexivity|].
    rewrite Hset. fold w. rewrite !(take_ge f) by lia.
    rewrite (to_of_bytes _ Hc).
    + rewrite Hget. fold w. rewrite <- app_assoc. f_equal. f_equal.
      rewrite <- (drop_drop _ w k), <- (drop_drop _ (length f) k).
      apply drop_take_drop. lia.
    + rewrite length_app, length_drop, (to_bytes_length _ Hc). fold w. lia.
Qed.

(** A run moves some [j] bytes, all of the program's on [READ_OK], and
    returns [READ_OK] or [READ_FAIL]. *)
Lemma run_overwrites (l : list instr) :
  forall (k : nat) (s : state),
  laid_out k l -> (k + program_size l <= 110)%nat ->
  exists j : nat,
    (j <= program_size l)%nat
    /\ overwrites k j s (run l s).2
    /\ ((run l s).1 = Some READ_OK /\ j = program_size l
        \/ (run l s).1 = Some READ_FAIL).
Proof.
  induction l as [|i l IH]; intros k s Hl Hk.
  - exists 0%nat. cbn. split; [lia|]. split; [apply overwrites_refl|]. now left.
  - destruct i as [fl|ID id]; cbn [laid_out program_size instr_size] in Hl, Hk |- *.
    + destruct Hl as (Hc & Hat & Hl).
      pose proof (READ_FIELD_overwrites fl k s Hc Hat ltac:(lia)) as Hr.
      cbn [run exec]. unfold seq, ifnot.
      destruct (READ_FIELD fl s) as [[|] s1].
      * destruct (IH (k + sizeof (frep fl))%nat s1 Hl ltac:(lia)) as (j & Hj & Ho & Hres).
        exists (sizeof (frep fl) + j)%nat. split; [lia|].
        destruct (run l s1) as [r s2]. cbn [fst snd] in *.
        split; [eapply overwrites_trans; eauto; lia|].
        destruct Hres as [[-> ->] | ->]; [left|right]; auto.
      * destruct Hr as [Hshort Hr]. exists (length (file s)). cbn [Return fst snd].
        split; [lia|]. split; [exact Hr|now right].
    + cbn [run exec]. unfold seq, when.
      destruct (id_differs ID id s).
      * exists 0%nat. cbn [Return fst snd]. split; [lia|].
        split; [apply overwrites_refl|now right].
      * now apply IH.
Qed.

Lemma run_stable (g : BeaconFrame -> uint16_t) (l : list instr) :
  Forall (stable g) l -> forall s, g (out (run l s).2) = g (out s).
Proof.
  induction 1 as [|i l Hi Hl IH]; intros s; [reflexivity|].
  destruct i as [fl|ID id]; cbn [run exec stable] in *; unfold seq, ifnot, when.
  - unfold READ_FIELD, fread.
    destruct (Nat.eqb _ _); [rewrite IH|]; cbn [Return out snd]; apply Hi.
  - destruct (id_differs ID id s); [reflexivity|apply IH].
Qed.

Lemma run_ok_checks_hold (l : list instr) :
  checks_stable l ->
  forall s, (run l s).1 = Some READ_OK -> checks_hold l (out (run l s).2).
Proof.
  induction l as [|i l IH]; intros Hst s Hok; [exact I|].
  destruct i as [fl|ID id]; cbn [run exec checks_stable checks_hold] in *;
    unfold seq, ifnot, when, id_differs in *.
  - destruct (READ_FIELD fl s) as [[|] s1]; [now apply IH|discriminate].
  - destruct Hst as [Hg Hst]. cbn [IS_BIG_ENDIAN] in *.
    destruct (Z.eqb_spec ID (byte16_swap (id (out s)))) as [E|E]; cbn [negb] in *;
      [|discriminate].
    split; [|now apply IH]. now rewrite run_stable.
Qed.

Lemma frame_program_checks_stable : checks_stable frame_program.
Proof.
  unfold frame_program, platform_program, memory_program, cdh_program, power_program,
    thermal_program, aocs_program, payload_program.
  cbn [app checks_stable].
  repeat split;
    repeat first [apply Forall_nil_2
                 | apply Forall_cons_2;
                   [first [exact I | intros v o; destruct_frame o; reflexivity]|]].
Qed.

Lemma checks_hold_frame_program (o : BeaconFrame) :
  checks_hold frame_program o -> ids_match o.
Proof. unfold ids_match. cbn. tauto. Qed.

Lemma first_beacon_unique (header : BeaconHeader) (c1 c2 r1 r2 : list byte) :
  c1 ++ r1 = c2 ++ r2 -> first_beacon header c1 -> first_beacon header c2 ->
  c1 = c2 /\ r1 = r2.
Proof.
  intros Heq [He1 Hf1] [He2 Hf2].
  assert (Hc : c1 = c2).
  { destruct (prefix_weak_total c1 c2 (c1 ++ r1)) as [Hp|Hp].
    - now exists r1.
    - rewrite Heq. now exists r2.
    - destruct (decide (c1 = c2)) as [|Hne]; [assumption|]. now destruct (Hf2 c1 Hp Hne).
    - destruct (decide (c2 = c1)) as [|Hne]; [congruence|]. now destruct (Hf1 c2 Hp Hne). }
  subst c2. split; [reflexivity|]. now apply app_inv_head in Heq.
Qed.

Lemma find_beacon_some_iff (header : BeaconHeader) (s rest : list byte) :
  find_beacon header [Byte.x00; Byte.x00; Byte.x00] 0 s = Some rest
  <-> exists consumed, s = consumed ++ rest /\ first_beacon header consumed.
Proof.
  pose proof (find_beacon_first header s) as H.
  destruct (find_beacon header _ 0 s) as [rest'|]; split.
  - intros [= ->]. exact H.
  - intros (c & Hs & Hc). destruct H as (c' & Hs' & Hc').
    rewrite Hs in Hs'. destruct (first_beacon_unique _ _ _ _ _ Hs' Hc Hc'). now subst.
  - discriminate.
  - intros (c & -> & [Hc _]). destruct (H c); [now exists rest|exact Hc].
Qed.

Lemma find_beacon_none_iff (header : BeaconHeader) (s : list byte) :
  find_beacon header [Byte.x00; Byte.x00; Byte.x00] 0 s = None <-> no_beacon header s.
Proof.
  pose proof (find_beacon_first header s) as H.
  destruct (find_beacon header _ 0 s) as [rest|]; split; try easy.
  intros Hno. destruct H as (c & -> & [Hc _]). destruct (Hno c); [now exists rest|exact Hc].
Qed.

(** The decoder after the beacon, summed up. *)
Lemma read_sections_spec (rest : FILE) (o : BeaconFrame) :
  exists (status : ReadFileReturnType) (file' : FILE) (o' : BeaconFrame) (j : nat),
    read_sections rest o = (status, Some file', Some o')
    /\ (j <= 110)%nat /\ (j <= length rest)%nat
    /\ file' = drop j rest
    /\ encode_frame o' = take j rest ++ drop j (encode_frame o)
    /\ (status = READ_OK /\ j = 110%nat /\ ids_match o' \/ status = READ_FAIL).
Proof.
  unfold read_sections. rewrite read_frame_fields_run.
  destruct (run_overwrites frame_program 0 (State rest o) frame_program_laid_out
              ltac:(cbn; lia)) as (j & Hj & (Hl & Hf & He) & Hres).
  pose proof (run_ok_checks_hold frame_program frame_program_checks_stable (State rest o))
    as Hids.
  destruct (run frame_program (State rest o)) as [r [file' o']].
  cbn [fst snd file out] in *.
  assert (Hsz : program_size frame_program = 110%nat) by reflexivity.
  rewrite Hsz in *.
  rewrite take_0 in He. cbn [app Nat.add] in He.
  destruct Hres as [[-> ->] | ->].
  - exists READ_OK, file', o', 110%nat.
    split; [reflexivity|]. split; [lia|]. split; [exact Hl|]. split; [exact Hf|].
    split; [exact He|]. left. split; [reflexivity|]. split; [reflexivity|].
    now apply checks_hold_frame_program, Hids.
  - exists READ_FAIL, file', o', j.
    split; [reflexivity|]. split; [exact Hj|]. split; [exact Hl|]. split; [exact Hf|].
    split; [exact He|]. now right.
Qed.

(** C6. The status is one of the three values. It is [READ_EOF] exactly when
    the call searched a stream without any occurrence of the marker (a call
    with a null argument returns [READ_FAIL] before reading). Once the marker
    was found, a stream that ends before the 110 bytes of the frame gives
    [READ_FAIL]. *)
Theorem read_data_frame_status (file : option FILE) (header : BeaconHeader)
    (out : option BeaconFrame) :
  let status := (read_data_frame file header out).1.1 in
  (status = READ_OK \/ status = READ_EOF \/ status = READ_FAIL)
  /\ (status = READ_EOF
      <-> exists s o, file = Some s /\ out = Some o /\ no_beacon header s)
  /\ (forall consumed rest o,
        file = Some (consumed ++ rest) -> out = Some o ->
        first_beacon header consumed -> (length rest < 110)%nat ->
        status = READ_FAIL).
Proof.
  intros status. split; [destruct status; auto|]. subst status. split.
  - destruct file as [s|], out as [o|]; cbn [read_data_frame fst].
    2-4: split; [discriminate|intros (s' & o' & ? & ? & _); discriminate].
    destruct (find_beacon header _ 0 s) as [rest|] eqn:E.
    + destruct (read_sections_spec rest o) as (st & f' & o' & j & -> & _ & _ & _ & _ & Hst).
      cbn [fst]. split.
      * intros ->. destruct Hst as [[? _]|?]; discriminate.
      * intros (s' & o'' & [= <-] & _ & Hno%find_beacon_none_iff). congruence.
    + cbn [fst]. split; [|reflexivity]. intros _. exists s, o.
      now apply find_beacon_none_iff in E.
  - intros consumed rest o -> -> Hfirst Hlen. cbn [read_data_frame].
    assert (E : find_beacon header [Byte.x00; Byte.x00; Byte.x00] 0 (consumed ++ rest)
                = Some rest) by (apply find_beacon_some_iff; now exists consumed).
    rewrite E.
    destruct (read_sections_spec rest o) as (st & f' & o' & j & -> & _ & Hj & _ & _ & Hst).
    cbn [fst]. destruct Hst as [(_ & -> & _) | ->]; [lia|reflexivity].
Qed.

(** C7, amended. [READ_OK] comes with a fully populated frame: the output is
    the image of the 110 bytes after the first marker and its seven
    identifiers match. [READ_EOF] leaves the output untouched. On [READ_FAIL]
    after the search the output holds the [j] bytes read before the failure
    over its first [j] bytes and is otherwise unchanged; a call with a null
    argument changes nothing. *)
Theorem read_data_frame_output (header : BeaconHeader) (s : FILE) (o : BeaconFrame) :
  (exists (status : ReadFileReturnType) (file' : FILE) (o' : BeaconFrame),
     read_data_frame (Some s) header (Some o) = (status, Some file', Some o')
     /\ match status with
        | READ_OK =>
            exists consumed,
              first_beacon header consumed
              /\ s = consumed ++ encode_frame o' ++ file' /\ ids_match o'
        | READ_EOF => no_beacon header s /\ file' = [] /\ o' = o
        | READ_FAIL =>
            exists consumed rest (j : nat),
              first_beacon header consumed /\ s = consumed ++ rest
              /\ (j <= 110)%nat /\ (j <= length rest)%nat /\ file' = drop j rest
              /\ encode_frame o' = take j rest ++ drop j (encode_frame o)
        end)
  /\ read_data_frame None header (Some o) = (READ_FAIL, None, Some o)
  /\ read_data_frame (Some s) header None = (READ_FAIL, Some s, None).
Proof.
  split; [|split; reflexivity].
  cbn [read_data_frame].
  destruct (find_beacon header _ 0 s) as [rest|] eqn:E.
  - apply find_beacon_some_iff in E as (consumed & -> & Hfirst).
    destruct (read_sections_spec rest o)
      as (st & f' & o' & j & -> & Hj & Hl & Hf & He & Hst).
    exists st, f', o'. split; [reflexivity|].
    destruct Hst as [(-> & -> & Hids) | ->].
    + exists consumed. split; [exact Hfirst|]. split; [|exact Hids].
      rewrite He, Hf, (drop_ge (encode_frame o)) by (rewrite encode_frame_length; lia).
      now rewrite app_nil_r, take_drop.
    + exists consumed, rest, j. auto 10.
  - apply find_beacon_none_iff in E. exists READ_EOF, [], o. auto.
Qed.

(** ** Calibration *)

(** The literal [0.01f] is the binary32 number [10737418 * 2^-30]. *)
Lemma float_0_01_bits : float_0_01 = S754_finite false 10737418 (-30).
Proof. reflexivity. Qed.

(** C3. The thermal record holds the swapped raw temperatures times [0.01f], the
    sun vector record the swapped raw components divided by [16384.0f], both in
    binary32 arithmetic, and both carry the swapped timestamp; wire bytes
    [09 C4] (2500) give 25.0 and wire bytes [40 00] (16384) give 1.0. *)
Theorem calibration_formulas (thermal_raw : ThermalTelemetrySchema)
    (aocs_raw : AOCSTelemetrySchema) (timestamp : uint32_t) :
  let normalized (raw : int16_t) := to_int16 (byte16_swap (to_uint16 raw)) in
  let t := thermal_to_calibrated thermal_raw timestamp in
  let s := sun_sensors_to_calibrated aocs_raw timestamp in
  CPU_C t = float_mul (float_of_int (normalized (Schema.CPU_C thermal_raw))) float_0_01
  /\ mirror_cell_C t
     = float_mul (float_of_int (normalized (Schema.mirror_cell_C thermal_raw))) float_0_01
  /\ thermal_telemetry_timestamp t = byte32_swap timestamp
  /\ sun_vector_x s = float_div (float_of_int (normalized (sunvectorX aocs_raw))) float_16384
  /\ sun_vector_y s = float_div (float_of_int (normalized (sunvectorY aocs_raw))) float_16384
  /\ sun_vector_z s = float_div (float_of_int (normalized (sunvectorZ aocs_raw))) float_16384
  /\ sun_sensors_telemetry_timestamp s = byte32_swap timestamp
  /\ thermal_telemetry_timestamp t = sun_sensors_telemetry_timestamp s
  /\ (Schema.CPU_C thermal_raw = of_bytes int16_t_c [Byte.x09; Byte.xc4] ->
      CPU_C t = float_of_int 25)
  /\ (sunvectorX aocs_raw = of_bytes int16_t_c [Byte.x40; Byte.x00] ->
      sun_vector_x s = float_of_int 1).
Proof.
  intros normalized t s. subst t s normalized.
  unfold thermal_to_calibrated, sun_sensors_to_calibrated.
  cbn [IS_BIG_ENDIAN CPU_C mirror_cell_C thermal_telemetry_timestamp sun_vector_x
       sun_vector_y sun_vector_z sun_sensors_telemetry_timestamp].
  unfold TEMP_C_PHYSICAL_VALUE, SUN_SENSORS_PHYSICAL_VALUE.
  repeat split.
  - intros ->. reflexivity.
  - intros ->. reflexivity.
Qed.

(** ** Deduplication *)

Section dedup_loop.
Context {A : Type}.
Variable comparator : A -> A -> Z.

(** The loop with [kept ++ [previous]] already compacted, [mid] the slots
    between the write and the read index, and [rest] still to visit. *)
Lemma loop_invariant (rest : list A) :
  forall (kept mid beyond : list A) (previous : A) (i keep_index : nat),
  i = S (length kept + length mid) -> keep_index = S (length kept) ->
  array_duplicate_removal_loop comparator (length rest) i keep_index
    (kept ++ previous :: mid ++ rest ++ beyond)
  = Some (S (length kept + length (keep_changes comparator previous rest)),
          kept ++ previous :: keep_changes comparator previous rest
          ++ drop (length (keep_changes comparator previous rest)) (mid ++ rest)
          ++ beyond).
Proof.
  induction rest as [|x rest IH]; intros kept mid beyond previous i keep_index -> ->.
  - cbn [length array_duplicate_removal_loop keep_changes app].
    rewrite Nat.add_0_r, drop_0, app_nil_r. reflexivity.
  - cbn [length array_duplicate_removal_loop keep_changes].
    assert (Hcur : (kept ++ previous :: mid ++ (x :: rest) ++ beyond)
                     !! S (length kept + length mid) = Some x).
    { rewrite lookup_app_r by lia.
      replace (S (length kept + length mid) - length kept)%nat
        with (S (length mid)) by lia.
      cbn [lookup list_lookup]. rewrite <- app_comm_cons.
      now apply list_lookup_middle. }
    assert (Hprev : (kept ++ previous :: mid ++ (x :: rest) ++ beyond)
                      !! (S (length kept) - 1)%nat = Some previous).
    { apply list_lookup_middle. lia. }
    rewrite Hcur, Hprev. clear Hcur Hprev.
    destruct (comparator x previous =? 0) eqn:E; cbn [negb].
    + change ((x :: rest) ++ beyond) with ([x] ++ rest ++ beyond).
      rewrite (app_assoc mid [x]).
      rewrite (IH kept (mid ++ [x]) beyond previous (S (S (length kept + length mid)))
                 (S (length kept)))
        by (rewrite ?length_app; cbn [length]; lia).
      rewrite <- !app_assoc. reflexivity.
    + destruct mid as [|m mid].
      * rewrite Nat.add_0_r, Nat.eqb_refl. cbn [negb app length].
        replace (kept ++ previous :: x :: rest ++ beyond)
          with ((kept ++ [previous]) ++ x :: [] ++ rest ++ beyond)
          by (rewrite <- app_assoc; reflexivity).
        rewrite (IH (kept ++ [previous]) [] beyond x (S (S (length kept)))
                   (S (S (length kept))))
          by (rewrite ?length_app; cbn [length]; lia).
        rewrite length_app, <- !app_assoc. cbn [length app drop].
        do 3 f_equal. lia.
      * replace (Nat.eqb (S (length kept)) (S (length kept + length (m :: mid))))
          with false by (symmetry; apply Nat.eqb_neq; cbn [length]; lia).
        cbn [negb].
        replace (<[S (length kept) := x]>
                   (kept ++ previous :: (m :: mid) ++ (x :: rest) ++ beyond))
          with ((kept ++ [previous]) ++ x :: (mid ++ [x]) ++ rest ++ beyond).
        2:{ rewrite <- !app_assoc. cbn [app].
            rewrite insert_app_r_alt by lia.
            replace (S (length kept) - length kept)%nat with 1%nat by lia.
            reflexivity. }
        rewrite (IH (kept ++ [previous]) (mid ++ [x]) beyond x
                   (S (S (length kept + length (m :: mid))))
                   (S (S (length kept))))
          by (rewrite ?length_app; cbn [length]; lia).
        rewrite length_app, <- !app_assoc. cbn [length app drop].
        do 3 f_equal. lia.
Qed.
End dedup_loop.

Section dedup_result.
Context {A : Type}.
Variable comparator : A -> A -> Z.

Lemma keep_changes_length (l : list A) :
  forall previous, (length (keep_changes comparator previous l) <= length l)%nat.
Proof.
  induction l as [|x l IH]; intros previous; cbn [keep_changes length]; [lia|].
  destruct (comparator x previous =? 0); cbn [length].
  - specialize (IH previous). lia.
  - specialize (IH x). lia.
Qed.

Lemma keep_changes_sublist (l : list A) :
  forall previous, keep_changes comparator previous l `sublist_of` l.
Proof.
  induction l as [|x l IH]; intros previous; cbn [keep_changes]; [constructor|].
  destruct (comparator x previous =? 0); [apply sublist_cons|apply sublist_skip]; apply IH.
Qed.

(** The call on an array whose first [n] elements are [a]. *)
Lemma array_duplicate_removal_run_heads (a beyond : list A) (size : nat) :
  size <> 0%nat -> a <> [] ->
  array_duplicate_removal (Some (a ++ beyond)) (length a) size (Some comparator)
  = Some (length (run_heads comparator a),
          Some (run_heads comparator a
                ++ drop (length (run_heads comparator a)) a ++ beyond)).
Proof.
  intros Hsize Ha. destruct a as [|x a]; [congruence|].
  unfold array_duplicate_removal. cbn [length].
  destruct size as [|size]; [congruence|]. cbn [Nat.eqb orb].
  replace (S (length a) - 1)%nat with (length a) by lia.
  pose proof (loop_invariant comparator a [] [] beyond x 1 1 eq_refl eq_refl) as H.
  cbn [app length Nat.add] in H. cbn [app]. rewrite H.
  reflexivity.
Qed.
End dedup_result.

Section dedup_sorted.
Context {A : Type}.
Variable key : A -> Z.
Variable comparator : A -> A -> Z.
Hypothesis comparator_zero : forall x y, comparator x y = 0 <-> key x = key y.

Lemma keep_changes_sorted (l : list A) :
  forall previous,
  Forall (key_le key previous) l -> StronglySorted (key_le key) l ->
  Forall (key_lt key previous) (keep_changes comparator previous l)
  /\ StronglySorted (key_lt key) (keep_changes comparator previous l).
Proof.
  induction l as [|x l IH]; intros previous Hall Hs; cbn [keep_changes].
  - split; constructor.
  - apply Forall_cons_1 in Hall as [Hx Hall].
    apply StronglySorted_inv in Hs as [Hs Hxl].
    destruct (Z.eqb_spec (comparator x previous) 0) as [E|E].
    + now apply IH.
    + assert (Hlt : key_lt key previous x).
      { unfold key_lt, key_le in *. rewrite comparator_zero in E. lia. }
      destruct (IH x Hxl Hs) as [Hf Hss]. split.
      * apply Forall_cons_2; [exact Hlt|].
        eapply Forall_impl; [exact Hf|]. unfold key_lt in *. intros; lia.
      * now constructor.
Qed.

Lemma keep_changes_covers (l : list A) :
  forall previous y, y ∈ l ->
  exists x, x ∈ previous :: keep_changes comparator previous l /\ key x = key y.
Proof.
  induction l as [|x l IH]; intros previous y Hy; [now apply elem_of_nil in Hy|].
  cbn [keep_changes].
  destruct (Z.eqb_spec (comparator x previous) 0) as [E|E].
  - apply elem_of_cons in Hy as [->|Hy].
    + exists previous. split; [left|]. now apply comparator_zero in E.
    + now apply IH.
  - apply elem_of_cons in Hy as [->|Hy].
    + exists x. split; [right; left|reflexivity].
    + destruct (IH x y Hy) as (z & Hz & Hk). exists z. split; [now right|exact Hk].
Qed.

Lemma keep_changes_first (l : list A) :
  forall previous x,
  Forall (key_le key previous) l -> StronglySorted (key_le key) l ->
  x ∈ keep_changes comparator previous l ->
  exists before after, l = before ++ x :: after /\ Forall (fun y => key_lt key y x) before.
Proof.
  induction l as [|z l IH]; intros previous x Hall Hs Hx; cbn [keep_changes] in Hx;
    [now apply elem_of_nil in Hx|].
  apply Forall_cons_1 in Hall as [Hz Hall].
  apply StronglySorted_inv in Hs as [Hs Hzl].
  destruct (Z.eqb_spec (comparator z previous) 0) as [E|E].
  - destruct (IH previous x Hall Hs Hx) as (before & after & -> & Hb).
    exists (z :: before), after. split; [reflexivity|].
    apply Forall_cons_2; [|exact Hb].
    apply comparator_zero in E.
    destruct (keep_changes_sorted _ previous Hall Hs) as [Hf _].
    rewrite Forall_forall in Hf. specialize (Hf x Hx).
    unfold key_lt in *. lia.
  - apply elem_of_cons in Hx as [->|Hx].
    + exists [], l. split; [reflexivity|constructor].
    + destruct (IH z x Hzl Hs Hx) as (before & after & -> & Hb).
      exists (z :: before), after. split; [reflexivity|].
      apply Forall_cons_2; [|exact Hb].
      destruct (keep_changes_sorted _ z Hzl Hs) as [Hf _].
      rewrite Forall_forall in Hf. now apply Hf.
Qed.

Lemma strictly_sorted_keys_NoDup (l : list A) :
  StronglySorted (key_lt key) l -> NoDup (key <$> l).
Proof.
  induction 1 as [|x l Hs IH Hx]; cbn [fmap list_fmap]; constructor; [|exact IH].
  intros Hin. apply list_elem_of_fmap in Hin as (y & Hk & Hy).
  rewrite Forall_forall in Hx. specialize (Hx y Hy). unfold key_lt in Hx. lia.
Qed.

(** On a sorted array the kept elements are the first of each run: one per
    key, in ascending order, each the earliest element with its key. *)
Lemma run_heads_sorted (l : list A) :
  Sorted (key_le key) l ->
  StronglySorted (key_lt key) (run_heads comparator l)
  /\ run_heads comparator l `sublist_of` l
  /\ length (run_heads comparator l) = length (remove_dups (key <$> l))
  /\ forall x, x ∈ run_heads comparator l ->
       exists before after, l = before ++ x :: after
                            /\ Forall (fun y => key_lt key y x) before.
Proof.
  intros Hs. apply Sorted_StronglySorted in Hs.
  2:{ intros x y z. unfold key_le. lia. }
  destruct l as [|a l]; cbn [run_heads].
  - repeat split; try constructor. intros x Hx. now apply elem_of_nil in Hx.
  - apply StronglySorted_inv in Hs as [Hs Ha].
    destruct (keep_changes_sorted l a Ha Hs) as [Hf Hss].
    assert (Hsorted : StronglySorted (key_lt key) (a :: keep_changes comparator a l))
      by now constructor.
    split; [exact Hsorted|]. split; [apply sublist_skip, keep_changes_sublist|]. split.
    + rewrite <- (length_fmap key (a :: keep_changes comparator a l)).
      apply Permutation_length, NoDup_Permutation.
      * now apply strictly_sorted_keys_NoDup.
      * apply NoDup_remove_dups.
      * intros k. rewrite elem_of_remove_dups. split.
        -- intros (x & -> & Hx)%list_elem_of_fmap. apply list_elem_of_fmap.
           exists x. split; [reflexivity|].
           apply elem_of_cons in Hx as [->|Hx]; [left|right].
           eapply elem_of_sublist; [exact Hx|apply keep_changes_sublist].
        -- intros (y & -> & Hy)%list_elem_of_fmap.
           apply elem_of_cons in Hy as [->|Hy].
           ++ apply list_elem_of_fmap. exists a. split; [reflexivity|left].
           ++ destruct (keep_changes_covers l a y Hy) as (x & Hx & Hk).
              apply list_elem_of_fmap. now exists x.
    + intros x Hx. apply elem_of_cons in Hx as [->|Hx].
      * exists [], l. split; [reflexivity|constructor].
      * destruct (keep_changes_first l a x Ha Hs Hx) as (before & after & -> & Hb).
        exists (a :: before), after. split; [reflexivity|].
        apply Forall_cons_2; [|exact Hb].
        rewrite Forall_forall in Hf. now apply Hf.
Qed.
End dedup_sorted.

Lemma thermal_timestamp_comparator_zero (x y : ThermalTelemetryCalibrated) :
  thermal_timestamp_comparator x y = 0
  <-> thermal_telemetry_timestamp x = thermal_telemetry_timestamp y.
Proof.
  unfold thermal_timestamp_comparator.
  destruct (Z.ltb_spec (thermal_telemetry_timestamp x) (thermal_telemetry_timestamp y));
    [lia|].
  destruct (Z.gtb_spec (thermal_telemetry_timestamp x) (thermal_telemetry_timestamp y)); lia.
Qed.

(** C10. With a null array, a null comparator, element size 0 or count 0 the
    call returns 0 and changes nothing; on [n >= 1] elements of a valid array
    the returned length lies between 1 and [n]. *)
Theorem array_duplicate_removal_length {A : Type} (array : option (list A))
    (n size : nat) (comparator : option (A -> A -> Z)) :
  (array = None \/ comparator = None \/ size = 0%nat \/ n = 0%nat ->
   array_duplicate_removal array n size comparator = Some (0%nat, array))
  /\ (forall p cmp,
        array = Some p -> comparator = Some cmp -> size <> 0%nat -> n <> 0%nat ->
        (n <= length p)%nat ->
        exists k p',
          array_duplicate_removal array n size comparator = Some (k, Some p')
          /\ (1 <= k <= n)%nat /\ length p' = length p).
Proof.
  split.
  - unfold array_duplicate_removal.
    intros H. destruct array as [p|], comparator as [cmp|]; try reflexivity.
    destruct H as [H | [H | [-> | ->]]]; try discriminate; [reflexivity|].
    now rewrite orb_true_r.
  - intros p cmp -> -> Hsize Hn Hlen.
    assert (Ha : take n p <> []).
    { intros E. apply (f_equal length) in E. rewrite length_take_le in E by lia.
      cbn in E. lia. }
    pose proof (array_duplicate_removal_run_heads cmp (take n p) (drop n p) size Hsize Ha)
      as Hrun.
    rewrite take_drop, length_take_le in Hrun by lia.
    eexists _, _. split; [exact Hrun|]. clear Hrun.
    destruct (take n p) as [|x a] eqn:E; [congruence|].
    assert (Hna : S (length a) = n).
    { apply (f_equal length) in E. rewrite length_take_le in E by lia. cbn in E. lia. }
    pose proof (keep_changes_length cmp a x) as Hk.
    cbn [run_heads length]. split; [lia|].
    rewrite length_app. cbn [length drop].
    rewrite length_app, length_drop, length_drop. lia.
Qed.

(** C4. On a series sorted by timestamp the call returns the number of
    distinct timestamps; the front of the array then holds, in strictly
    ascending timestamp order and in their original order, the records that
    are each the first of the series with their timestamp. Any sorted
    arrangement of records with timestamps 5, 3, 3, 1, 5 has timestamps
    1, 3, 3, 5, 5 and is compacted to its records 0, 1 and 3. *)
Theorem dedup_sorted_thermal_series :
  let ts := thermal_telemetry_timestamp in
  (forall series : list ThermalTelemetryCalibrated,
     Sorted (fun x y => ts x <= ts y) series ->
     exists kept stale,
       array_duplicate_removal (Some series) (length series)
         sizeof_ThermalTelemetryCalibrated (Some thermal_timestamp_comparator)
       = Some (length kept, Some (kept ++ stale))
       /\ length kept = length (remove_dups (ts <$> series))
       /\ length (kept ++ stale) = length series
       /\ StronglySorted (fun x y => ts x < ts y) kept
       /\ kept `sublist_of` series
       /\ forall x, x ∈ kept ->
            exists before after,
              series = before ++ x :: after /\ Forall (fun y => ts y < ts x) before)
  /\ (forall input sorted : list ThermalTelemetryCalibrated,
        ts <$> input = [5; 3; 3; 1; 5] ->
        Permutation input sorted ->
        Sorted (fun x y => ts x <= ts y) sorted ->
        ts <$> sorted = [1; 3; 3; 5; 5]
        /\ exists r0 r1 r2 r3 r4,
             sorted = [r0; r1; r2; r3; r4]
             /\ array_duplicate_removal (Some sorted) 5
                  sizeof_ThermalTelemetryCalibrated (Some thermal_timestamp_comparator)
                = Some (3%nat, Some ([r0; r1; r3] ++ [r3; r4]))
             /\ ts <$> [r0; r1; r3] = [1; 3; 5]).
Proof.
  intros ts. split.
  - intros series Hs.
    destruct (run_heads_sorted ts thermal_timestamp_comparator
                thermal_timestamp_comparator_zero series Hs) as (Hss & Hsub & Hlen & Hfirst).
    destruct series as [|x series].
    + exists [], []. repeat split; try constructor; try exact Hfirst.
    + exists (run_heads thermal_timestamp_comparator (x :: series)),
             (drop (length (run_heads thermal_timestamp_comparator (x :: series)))
                   (x :: series)).
      split.
      { rewrite <- (app_nil_r (x :: series)) at 1.
        rewrite array_duplicate_removal_run_heads by (try discriminate; easy).
        now rewrite app_nil_r. }
      split; [exact Hlen|]. split.
      { rewrite length_app, length_drop.
        apply sublist_length in Hsub. lia. }
      split; [exact Hss|]. split; [exact Hsub|exact Hfirst].
  - intros input sorted Hin Hperm Hs.
    assert (Hts : ts <$> sorted = [1; 3; 3; 5; 5]).
    { apply (Sorted_unique Z.le).
      - eapply Sorted_fmap; [|exact Hs]. auto.
      - repeat constructor; lia.
      - rewrite <- Hperm, Hin.
        apply (Permutation_cons_app [1; 3; 3] [5] 5).
        apply (Permutation_cons_app [1] [3; 5] 3).
        apply perm_swap. }
    split; [exact Hts|].
    destruct sorted as [|r0 [|r1 [|r2 [|r3 [|r4 [|]]]]]]; try discriminate.
    injection Hts as H0 H1 H2 H3 H4.
    exists r0, r1, r2, r3, r4. split; [reflexivity|].
    split; [|cbn; now rewrite H0, H1, H3].
    assert (C10 : (thermal_timestamp_comparator r1 r0 =? 0) = false)
      by (unfold thermal_timestamp_comparator; fold ts; now rewrite H0, H1).
    assert (C21 : (thermal_timestamp_comparator r2 r1 =? 0) = true)
      by (unfold thermal_timestamp_comparator; fold ts; now rewrite H1, H2).
    assert (C31 : (thermal_timestamp_comparator r3 r1 =? 0) = false)
      by (unfold thermal_timestamp_comparator; fold ts; now rewrite H1, H3).
    assert (C43 : (thermal_timestamp_comparator r4 r3 =? 0) = true)
      by (unfold thermal_timestamp_comparator; fold ts; now rewrite H3, H4).
    pose proof (array_duplicate_removal_run_heads thermal_timestamp_comparator
                  [r0; r1; r2; r3; r4] [] sizeof_ThermalTelemetryCalibrated
                  ltac:(discriminate) ltac:(discriminate)) as Hrun.
    cbn [run_heads keep_changes] in Hrun. rewrite C10, C21, C31, C43 in Hrun.
    exact Hrun.
Qed.

(** ** Record arrays *)

Section collector_props.
Context {A : Type}.
Variable elem_size : Z.
Variable realloc_succeeds : Z -> bool.
Hypothesis elem_size_range : 2 <= elem_size <= 2 ^ 32.

Abbreviation append := (append (A := A) elem_size realloc_succeeds).
Abbreviation append_all := (append_all (A := A) elem_size realloc_succeeds).
Abbreviation collector_inv := (collector_inv (A := A) elem_size).

Lemma collector_init_inv : collector_inv 0 collector_init.
Proof. unfold collector_inv. cbn. repeat split; lia. Qed.

Lemma append_step (n : nat) (record : A) (c c' : collector) :
  collector_inv n c ->
  append record c = Appended c' ->
  collector_inv (S n) c'
  /\ telemetry_array c' = telemetry_array c ++ [record]
  /\ (if telemetry_length c =? telemetry_capacity c
      then telemetry_capacity c' = telemetry_capacity c + 128
           /\ realloc_calls c' = S (realloc_calls c)
      else telemetry_capacity c' = telemetry_capacity c
           /\ realloc_calls c' = realloc_calls c).
Proof.
  intros (Harr & Hlen & Hcap & Hall & Hlt & Hcalls) Happ.
  unfold append in Happ. unfold to_size_t in *.
  destruct c as [arr len cap bytes calls]. cbn [telemetry_array telemetry_length
    telemetry_capacity allocated_bytes realloc_calls] in *.
  unfold size_t in *. subst len.
  assert (Hc0 : 0 <= cap) by div_lia.
  assert (HP2 : 2 * cap <= cap * elem_size) by nia.
  set (P := cap * elem_size) in *.
  destruct (Z.eqb_spec (Z.of_nat n) cap) as [E|E].
  - destruct (Z.eqb_spec cap 0) as [E0|E0]; cbn [negb] in Happ.
    + destruct (realloc_succeeds _); [|discriminate].
      cbn [telemetry_array telemetry_length telemetry_capacity allocated_bytes
             realloc_calls] in Happ.
      destruct (Z.leb_spec ((Z.of_nat n + 1) * elem_size) ((128 * elem_size) mod 2 ^ 64));
        [|discriminate].
      injection Happ as <-. unfold collector_inv.
      cbn [telemetry_array telemetry_length telemetry_capacity allocated_bytes
             realloc_calls].
      rewrite length_app. cbn [length].
      rewrite (Z.mod_small (128 * elem_size)), (Z.mod_small (Z.of_nat n + 1)) by lia.
      repeat split; div_lia.
    + assert (Hcap' : (cap + 128) mod 2 ^ 64 = cap + 128) by (apply Z.mod_small; lia).
      rewrite Hcap' in Happ.
      destruct (realloc_succeeds _); [|discriminate].
      cbn [telemetry_array telemetry_length telemetry_capacity allocated_bytes
             realloc_calls] in Happ.
      replace ((cap + 128) * elem_size) with (P + 128 * elem_size) in Happ
        by (subst P; ring).
      replace ((Z.of_nat n + 1) * elem_size) with (P + elem_size) in Happ
        by (subst P; rewrite E; ring).
      destruct (Z.leb_spec (P + elem_size) ((P + 128 * elem_size) mod 2 ^ 64))
        as [Hb|]; [|discriminate].
      assert (Hnowrap : P + 128 * elem_size < 2 ^ 64) by (clearbody P; div_lia).
      injection Happ as <-. unfold collector_inv.
      cbn [telemetry_array telemetry_length telemetry_capacity allocated_bytes
             realloc_calls].
      rewrite length_app. cbn [length].
      rewrite (Z.mod_small (P + 128 * elem_size)), (Z.mod_small (Z.of_nat n + 1))
        by lia.
      replace ((cap + 128) * elem_size) with (P + 128 * elem_size) by (subst P; ring).
      clearbody P. repeat split; div_lia.
  - assert (Hroom : Z.of_nat n + 1 <= cap) by div_lia.
    assert (Hfit : (Z.of_nat n + 1) * elem_size <= P) by (subst P; nia).
    cbn [telemetry_array telemetry_length telemetry_capacity allocated_bytes
           realloc_calls] in Happ.
    destruct (Z.leb_spec ((Z.of_nat n + 1) * elem_size) bytes); [|lia].
    injection Happ as <-. unfold collector_inv.
    cbn [telemetry_array telemetry_length telemetry_capacity allocated_bytes
           realloc_calls].
    rewrite length_app. cbn [length].
    rewrite (Z.mod_small (Z.of_nat n + 1)) by lia.
    repeat split; first [exact Hall | clearbody P; div_lia].
Qed.

Lemma append_all_inv (records : list A) :
  forall (n : nat) (c c' : collector),
  collector_inv n c ->
  append_all records c = Appended c' ->
  collector_inv (n + length records) c'
  /\ telemetry_array c' = telemetry_array c ++ records.
Proof.
  induction records as [|record records IH]; intros n c c' Hinv Happ.
  - injection Happ as <-. rewrite Nat.add_0_r, app_nil_r. now split.
  - cbn [append_all] in Happ.
    destruct (append record c) as [c1| |] eqn:E; try discriminate.
    destruct (append_step n record c c1 Hinv E) as (Hinv1 & Harr1 & _).
    destruct (IH (S n) c1 c' Hinv1 Happ) as [Hinv' Harr'].
    cbn [length]. rewrite Nat.add_succ_r. split; [exact Hinv'|].
    now rewrite Harr', Harr1, <- app_assoc.
Qed.

(** With memory to spare every append succeeds. *)
Lemma append_all_succeeds (records : list A) :
  (forall bytes, realloc_succeeds bytes = true) ->
  forall (n : nat) (c : collector),
  collector_inv n c ->
  (Z.of_nat (n + length records) + 128) * elem_size < 2 ^ 64 ->
  exists c', append_all records c = Appended c'.
Proof.
  intros Hre. induction records as [|record records IH]; intros n c Hinv Hfit.
  - now exists c.
  - cbn [append_all length] in *.
    assert (Hstep : exists c1, append record c = Appended c1).
    { destruct Hinv as (Harr & Hlen & Hcap & Hall & Hlt & Hcalls).
      unfold append, to_size_t. rewrite Hre.
      destruct c as [arr len cap bytes calls]. cbn [telemetry_array telemetry_length
        telemetry_capacity allocated_bytes realloc_calls] in *.
      unfold size_t in *. subst len.
      assert (Hc0 : 0 <= cap) by div_lia.
      assert (Hn : (Z.of_nat n + 129) * elem_size < 2 ^ 64) by nia.
      destruct (Z.eqb_spec (Z.of_nat n) cap) as [E|E].
      - cbn [telemetry_array telemetry_length telemetry_capacity allocated_bytes
               realloc_calls].
        assert (Hnew : (if negb (cap =? 0) then (cap + 128) mod 2 ^ 64 else 128)
                       = cap + 128).
        { destruct (Z.eqb_spec cap 0) as [->|]; [reflexivity|]. cbn [negb].
          apply Z.mod_small. nia. }
        rewrite Hnew, (Z.mod_small ((cap + 128) * elem_size)) by nia.
        destruct (Z.leb_spec ((Z.of_nat n + 1) * elem_size) ((cap + 128) * elem_size));
          [eauto|nia].
      - cbn [telemetry_array telemetry_length telemetry_capacity allocated_bytes
               realloc_calls].
        assert (Hroom : Z.of_nat n + 1 <= cap) by div_lia.
        destruct (Z.leb_spec ((Z.of_nat n + 1) * elem_size) bytes); [eauto|nia]. }
    destruct Hstep as [c1 E]. rewrite E.
    destruct (append_step n record c c1 Hinv E) as (Hinv1 & _).
    apply (IH (S n) c1 Hinv1). rewrite Nat.add_succ_l, <- Nat.add_succ_r. exact Hfit.
Qed.
End collector_props.

(** C8. The capacity starts at 0. After any number [n] of successful appends
    the capacity is 128 times the number of growth events, which is [n / 128]
    rounded up, and the length [n] is within it; one more append grows the
    capacity by exactly 128 when the array is full and leaves it alone
    otherwise. 129 appends make two growth events and capacity 256. *)
Theorem collector_growth {A : Type} (elem_size : Z) (realloc_succeeds : Z -> bool)
    (records : list A) (c : collector) :
  2 <= elem_size <= 2 ^ 32 ->
  append_all elem_size realloc_succeeds records collector_init = Appended c ->
  telemetry_capacity (@collector_init A) = 0
  /\ telemetry_array c = records
  /\ telemetry_length c = Z.of_nat (length records)
  /\ telemetry_capacity c = 128 * ((Z.of_nat (length records) + 127) / 128)
  /\ realloc_calls c = Z.to_nat ((Z.of_nat (length records) + 127) / 128)
  /\ telemetry_length c <= telemetry_capacity c
  /\ (forall record c',
        append elem_size realloc_succeeds record c = Appended c' ->
        telemetry_length c' = telemetry_length c + 1
        /\ telemetry_length c' <= telemetry_capacity c'
        /\ if telemetry_length c =? telemetry_capacity c
           then telemetry_capacity c' = telemetry_capacity c + 128
                /\ realloc_calls c' = S (realloc_calls c)
           else telemetry_capacity c' = telemetry_capacity c
                /\ realloc_calls c' = realloc_calls c)
  /\ (length records = 129%nat ->
      realloc_calls c = 2%nat /\ telemetry_capacity c = 256).
Proof.
  intros Hsize Happ.
  destruct (append_all_inv elem_size realloc_succeeds Hsize records 0 _ c
              (collector_init_inv elem_size) Happ) as [Hinv Harr].
  cbn [Nat.add telemetry_array collector_init app] in Hinv, Harr.
  pose proof Hinv as (_ & Hlen & Hcap & _ & _ & Hcalls).
  unfold size_t in *.
  split; [reflexivity|]. split; [exact Harr|]. split; [exact Hlen|].
  split; [exact Hcap|]. split; [exact Hcalls|]. split; [div_lia|]. split.
  - intros record c' Hstep.
    destruct (append_step elem_size realloc_succeeds Hsize _ record c c' Hinv Hstep)
      as ((_ & Hlen' & Hcap' & _) & _ & Hgrow).
    unfold size_t in *.
    split; [lia|]. split; [div_lia|exact Hgrow].
  - intros H129. rewrite Hcalls, Hcap, H129. split; reflexivity.
Qed.

Lemma collector_growth_witness :
  exists c : @collector unit,
    append_all 12 (fun _ => true) (repeat tt 129) collector_init = Appended c
    /\ realloc_calls c = 2%nat /\ telemetry_capacity c = 256
    /\ telemetry_length c <= telemetry_capacity c.
Proof.
  eexists. split; [vm_compute; reflexivity|].
  match goal with
  | |- context [realloc_calls ?c] =>
      destruct (collector_growth 12 (fun _ => true) (repeat tt 129) c
                  ltac:(lia) ltac:(vm_compute; reflexivity))
        as (_ & _ & _ & _ & _ & Hle & _ & H129)
  end.
  destruct (H129 eq_refl) as [Hcalls Hcap]. auto.
Defined.

(** ** Instances on the sample data *)

Lemma read_data_frame_roundtrip_witness :
  read_data_frame (Some (beacon_bytes main_header ++ encode_frame sample_frame ++ []))
                  main_header (Some zero_frame)
  = (READ_OK, Some [], Some sample_frame)
  /\ Forall (fun sec => section_id sec sample_frame = byte16_swap (expected_id sec))
            [Platform; Memory; CDH; Power; Thermal; AOCS; Payload].
Proof.
  apply read_data_frame_roundtrip.
  - unfold wf_frame, wf_platform, wf_memory, wf_cdh, wf_power, wf_thermal, wf_aocs,
      wf_payload.
    cbn. repeat split; lia.
  - repeat split.
Defined.

Lemma calibration_formulas_witness :
  CPU_C (thermal_to_calibrated (thermal sample_frame) (rtc_s (platform sample_frame)))
  = float_of_int 25
  /\ sun_vector_x (sun_sensors_to_calibrated (aocs sample_frame)
                     (rtc_s (platform sample_frame)))
     = float_of_int 1
  /\ thermal_telemetry_timestamp
       (thermal_to_calibrated (thermal sample_frame) (rtc_s (platform sample_frame)))
     = 0x12345678.
Proof.
  destruct (calibration_formulas (thermal sample_frame) (aocs sample_frame)
              (rtc_s (platform sample_frame)))
    as (_ & _ & Hts & _ & _ & _ & _ & _ & Hcpu & Hsun).
  split; [apply Hcpu; reflexivity|]. split; [apply Hsun; reflexivity|].
  rewrite Hts. reflexivity.
Defined.

Lemma wrong_identifier_fails_witness :
  exists out' : BeaconFrame,
    read_data_frame
      (Some (beacon_bytes main_header ++ encode_before Thermal sample_frame
             ++ to_bytes uint16_t_c 0x0204
             ++ section_members Thermal sample_frame
             ++ encode_section AOCS sample_frame ++ encode_section Payload sample_frame))
      main_header (Some zero_frame)
    = (READ_FAIL,
       Some (section_members Thermal sample_frame
             ++ encode_section AOCS sample_frame ++ encode_section Payload sample_frame),
       Some out')
    /\ section_id Thermal out' = 0x0204
    /\ section_members Thermal out' = section_members Thermal zero_frame
    /\ Forall (fun s => encode_section s out' = encode_section s zero_frame)
              (sections_after Thermal)
    /\ Forall (fun s => encode_section s out' = encode_section s sample_frame)
              (sections_before Thermal).
Proof.
  apply (wrong_identifier_fails main_header Thermal sample_frame zero_frame 0x0204).
  - unfold wf_frame, wf_platform, wf_memory, wf_cdh, wf_power, wf_thermal, wf_aocs,
      wf_payload.
    cbn. repeat split; lia.
  - repeat (apply Forall_cons_2; [reflexivity|]). apply Forall_nil_2.
  - lia.
  - vm_compute. discriminate.
Defined.

Lemma read_data_frame_status_witness :
  (read_data_frame (Some (beacon_bytes main_header ++ take 50 (encode_frame sample_frame)))
                   main_header (Some zero_frame)).1.1
  = READ_FAIL.
Proof.
  destruct (read_data_frame_status
              (Some (beacon_bytes main_header ++ take 50 (encode_frame sample_frame)))
              main_header (Some zero_frame)) as (_ & _ & Htrunc).
  apply (Htrunc (beacon_bytes main_header) (take 50 (encode_frame sample_frame))
           zero_frame eq_refl eq_refl).
  - split; [now exists []|].
    intros p [k Hk] Hne [pre Hpre]. apply Hne.
    assert (Hlen : length p = 3%nat).
    { apply (f_equal length) in Hk, Hpre. rewrite length_app in Hk, Hpre.
      cbn in Hk, Hpre. lia. }
    destruct k as [|x k]; [now rewrite app_nil_r in Hk|].
    apply (f_equal length) in Hk. rewrite length_app in Hk. cbn in Hk. lia.
  - vm_compute. lia.
Defined.

Lemma array_duplicate_removal_length_witness :
  exists k p',
    array_duplicate_removal (Some sample_series) 5 sizeof_ThermalTelemetryCalibrated
                            (Some thermal_timestamp_comparator)
    = Some (k, Some p')
    /\ (1 <= k <= 5)%nat /\ length p' = length sample_series.
Proof.
  apply (proj2 (array_duplicate_removal_length (Some sample_series) 5
                  sizeof_ThermalTelemetryCalibrated (Some thermal_timestamp_comparator))
           sample_series thermal_timestamp_comparator eq_refl eq_refl).
  - discriminate.
  - discriminate.
  - vm_compute. lia.
Defined.

Lemma dedup_sorted_thermal_series_witness :
  exists r0 r1 r2 r3 r4,
    sample_series = [r0; r1; r2; r3; r4]
    /\ array_duplicate_removal (Some sample_series) 5 sizeof_ThermalTelemetryCalibrated
                               (Some thermal_timestamp_comparator)
       = Some (3%nat, Some ([r0; r1; r3] ++ [r3; r4]))
    /\ thermal_telemetry_timestamp <$> [r0; r1; r3] = [1; 3; 5].
Proof.
  apply (proj2 dedup_sorted_thermal_series
           [sample_record 5 3; sample_record 3 1; sample_record 3 2; sample_record 1 0;
            sample_record 5 4]
           sample_series).
  - reflexivity.
  - apply (Permutation_cons_app [sample_record 1 0; sample_record 3 1; sample_record 3 2]
             [sample_record 5 4]).
    apply (Permutation_cons_app [sample_record 1 0] [sample_record 3 2; sample_record 5 4]).
    apply perm_swap.
  - repeat constructor; cbn; lia.
Defined.

(** A failed call that leaves decoded data in the output: the Platform section
    is well-formed, the stream ends inside the Memory identifier; the call
    returns [READ_FAIL] and the output, all zeros before, now holds the
    Platform section of the stream. *)
Lemma read_fail_leaves_partial_frame :
  exists out' : BeaconFrame,
    read_data_frame
      (Some (beacon_bytes main_header ++ encode_platform (platform sample_frame)
             ++ [Byte.xff]))
      main_header (Some zero_frame)
    = (READ_FAIL, Some [], Some out')
    /\ platform out' = platform sample_frame
    /\ rtc_s (platform out') = 0x78563412
    /\ memory_telemetry_id (memory out') = 0x00FF
    /\ out' <> zero_frame.
Proof.
  eexists. split; [vm_compute; reflexivity|].
  split; [reflexivity|]. split; [reflexivity|]. split; [reflexivity|].
  discriminate.
Qed.

(** * Further properties of the program *)

(** ** Byte order of the swapped values *)

Lemma byte_unsigned_land (b : byte) : byte.unsigned b = Z.land (byte.unsigned b) 255.
Proof.
  pose proof (byte.unsigned_range b) as H.
  change 255 with (Z.ones 8). rewrite Z.land_ones by lia.
  symmetry. apply Z.mod_small. exact H.
Qed.

Lemma le_combine_cons_add (b : byte) (bs : list byte) :
  le_combine (b :: bs) = byte.unsigned b + 2 ^ 8 * le_combine bs.
Proof.
  change (le_combine (b :: bs))
    with (Z.lor (byte.unsigned b) (Z.shiftl (le_combine bs) 8)).
  rewrite Z.or_to_plus.
  - rewrite Z.shiftl_mul_pow2 by lia. lia.
  - rewrite (byte_unsigned_land b). change 255 with (Z.ones 8).
    generalize (byte.unsigned b), (le_combine bs). intros x y.
    prove_Zeq_bitwise.
Qed.

Lemma byte16_swap_le_combine (a b : byte) :
  byte16_swap (le_combine [a; b]) = le_combine [b; a].
Proof.
  unfold byte16_swap, to_uint16.
  change (le_combine [a; b])
    with (Z.lor (byte.unsigned a) (Z.shiftl (Z.lor (byte.unsigned b) (Z.shiftl 0 8)) 8)).
  change (le_combine [b; a])
    with (Z.lor (byte.unsigned b) (Z.shiftl (Z.lor (byte.unsigned a) (Z.shiftl 0 8)) 8)).
  rewrite Z.shiftl_0_l, !Z.lor_0_r.
  rewrite (byte_unsigned_land a), (byte_unsigned_land b).
  generalize (byte.unsigned a), (byte.unsigned b). intros x y.
  rewrite <- !Z.land_ones by lia.
  change 255 with (Z.ones 8).
  prove_Zeq_bitwise.
Qed.

Lemma byte32_swap_le_combine (a b c d : byte) :
  byte32_swap (le_combine [a; b; c; d]) = le_combine [d; c; b; a].
Proof.
  unfold byte32_swap, to_uint32.
  change (le_combine [a; b; c; d])
    with (Z.lor (byte.unsigned a) (Z.shiftl (Z.lor (byte.unsigned b) (Z.shiftl
            (Z.lor (byte.unsigned c) (Z.shiftl (Z.lor (byte.unsigned d) (Z.shiftl 0 8)) 8))
            8)) 8)).
  change (le_combine [d; c; b; a])
    with (Z.lor (byte.unsigned d) (Z.shiftl (Z.lor (byte.unsigned c) (Z.shiftl
            (Z.lor (byte.unsigned b) (Z.shiftl (Z.lor (byte.unsigned a) (Z.shiftl 0 8)) 8))
            8)) 8)).
  rewrite Z.shiftl_0_l, !Z.lor_0_r.
  rewrite (byte_unsigned_land a), (byte_unsigned_land b), (byte_unsigned_land c),
    (byte_unsigned_land d).
  generalize (byte.unsigned a), (byte.unsigned b), (byte.unsigned c), (byte.unsigned d).
  intros x y z w.
  rewrite <- !Z.land_ones by lia.
  change 0x000000FF with (Z.ones 8).
  change 0x0000FF00 with (Z.shiftl (Z.ones 8) 8).
  change 0x00FF0000 with (Z.shiftl (Z.ones 8) 16).
  change 0xFF000000 with (Z.shiftl (Z.ones 8) 24).
  prove_Zeq_bitwise.
Qed.

Lemma big_endian_2 (a b : byte) :
  le_combine [b; a] = byte.unsigned a * 2 ^ 8 + byte.unsigned b.
Proof. rewrite !le_combine_cons_add, le_combine_nil. lia. Qed.

Lemma big_endian_4 (a b c d : byte) :
  le_combine [d; c; b; a]
  = byte.unsigned a * 2 ^ 24 + byte.unsigned b * 2 ^ 16 + byte.unsigned c * 2 ^ 8
    + byte.unsigned d.
Proof. rewrite !le_combine_cons_add, le_combine_nil. lia. Qed.

(** The locals of the calibration functions after the swap. *)
Lemma normalized_big_endian (hi lo : byte) :
  to_int16 (byte16_swap (to_uint16 (of_bytes int16_t_c [hi; lo])))
  = to_int16 (byte.unsigned hi * 2 ^ 8 + byte.unsigned lo).
Proof.
  cbn [of_bytes int16_t_c]. unfold to_uint16. rewrite to_int16_mod.
  pose proof (le_combine_bound [hi; lo]) as Hb. cbn [length] in Hb.
  rewrite Z.mod_small by (cbn in Hb; lia).
  now rewrite byte16_swap_le_combine, big_endian_2.
Qed.

(** X1. On the value this little-endian host reads from two or four
    consecutive bytes, the swaps return the big-endian value of those bytes:
    the first byte becomes the most significant. *)
Theorem byte_swap_big_endian (a b c d : byte) :
  byte16_swap (of_bytes uint16_t_c [a; b]) = byte.unsigned a * 2 ^ 8 + byte.unsigned b
  /\ byte32_swap (of_bytes uint32_t_c [a; b; c; d])
     = byte.unsigned a * 2 ^ 24 + byte.unsigned b * 2 ^ 16 + byte.unsigned c * 2 ^ 8
       + byte.unsigned d.
Proof.
  cbn [of_bytes uint16_t_c uint32_t_c]. split.
  - now rewrite byte16_swap_le_combine, big_endian_2.
  - now rewrite byte32_swap_le_combine, big_endian_4.
Qed.

(** X2. The calibration functions read the members of a decoded frame as
    big-endian numbers: the timestamp of both records is the unsigned
    big-endian value of the four stream bytes of [rtc_s], and every
    temperature and sun vector component is calibrated from the two's
    complement big-endian value of its two stream bytes. *)
Theorem calibration_reads_big_endian (thermal_raw : ThermalTelemetrySchema)
    (aocs_raw : AOCSTelemetrySchema) (t0 t1 t2 t3 : byte) :
  let timestamp := of_bytes uint32_t_c [t0; t1; t2; t3] in
  let t := thermal_to_calibrated thermal_raw timestamp in
  let s := sun_sensors_to_calibrated aocs_raw timestamp in
  let big_endian (hi lo : byte) := to_int16 (byte.unsigned hi * 2 ^ 8 + byte.unsigned lo) in
  thermal_telemetry_timestamp t
  = byte.unsigned t0 * 2 ^ 24 + byte.unsigned t1 * 2 ^ 16 + byte.unsigned t2 * 2 ^ 8
    + byte.unsigned t3
  /\ sun_sensors_telemetry_timestamp s = thermal_telemetry_timestamp t
  /\ (forall hi lo, Schema.CPU_C thermal_raw = of_bytes int16_t_c [hi; lo] ->
                    CPU_C t = TEMP_C_PHYSICAL_VALUE (big_endian hi lo))
  /\ (forall hi lo, Schema.mirror_cell_C thermal_raw = of_bytes int16_t_c [hi; lo] ->
                    mirror_cell_C t = TEMP_C_PHYSICAL_VALUE (big_endian hi lo))
  /\ (forall hi lo, sunvectorX aocs_raw = of_bytes int16_t_c [hi; lo] ->
                    sun_vector_x s = SUN_SENSORS_PHYSICAL_VALUE (big_endian hi lo))
  /\ (forall hi lo, sunvectorY aocs_raw = of_bytes int16_t_c [hi; lo] ->
                    sun_vector_y s = SUN_SENSORS_PHYSICAL_VALUE (big_endian hi lo))
  /\ (forall hi lo, sunvectorZ aocs_raw = of_bytes int16_t_c [hi; lo] ->
                    sun_vector_z s = SUN_SENSORS_PHYSICAL_VALUE (big_endian hi lo)).
Proof.
  intros timestamp t s big_endian. subst timestamp t s big_endian.
  unfold thermal_to_calibrated, sun_sensors_to_calibrated.
  cbn [IS_BIG_ENDIAN thermal_telemetry_timestamp sun_sensors_telemetry_timestamp CPU_C
         mirror_cell_C sun_vector_x sun_vector_y sun_vector_z].
  split; [cbn [of_bytes uint32_t_c]; now rewrite byte32_swap_le_combine, big_endian_4|].
  split; [reflexivity|].
  repeat split; intros hi lo ->; now rewrite normalized_big_endian.
Qed.

(** ** Accuracy of the calibration *)

Lemma holds_from_spec (test : Z -> bool) (n : nat) :
  forall lo, holds_from test lo n = true ->
  forall v, lo <= v < lo + Z.of_nat n -> test v = true.
Proof.
  induction n as [|n IH]; intros lo H v Hv; [lia|].
  cbn [holds_from] in H. apply andb_true_iff in H as [H0 H].
  destruct (Z.eq_dec v lo) as [->|Hne]; [exact H0|].
  apply (IH (lo + 1) H). lia.
Qed.

(** Both checks, run on every 16-bit value. *)
Lemma temp_close_int16 : holds_from temp_close (- 2 ^ 15) (Z.to_nat (2 ^ 16)) = true.
Proof. vm_cast_no_check (eq_refl true). Qed.

Lemma sun_exact_int16 : holds_from sun_exact (- 2 ^ 15) (Z.to_nat (2 ^ 16)) = true.
Proof. vm_cast_no_check (eq_refl true). Qed.

(** X3. Every 16-bit raw temperature is calibrated to a finite number that
    differs from [value / 100] by at most 1/256 of a hundredth of a degree;
    rounding the calibrated number to hundredths gives back the raw value. *)
Theorem thermal_calibration_accuracy (value : int16_t) :
  - 2 ^ 15 <= value < 2 ^ 15 ->
  exists num den : Z,
    float_fraction (TEMP_C_PHYSICAL_VALUE value) = Some (num, den)
    /\ 0 < den
    /\ Z.abs (100 * num - value * den) * 256 <= den
    /\ (200 * num + den) / (2 * den) = value.
Proof.
  intros Hv.
  pose proof (holds_from_spec _ _ _ temp_close_int16 value ltac:(lia)) as H.
  unfold temp_close in H.
  destruct (float_fraction (TEMP_C_PHYSICAL_VALUE value)) as [[num den]|]; [|discriminate].
  apply andb_true_iff in H as [H1 H2].
  exists num, den. split; [reflexivity|].
  assert (Hden : 0 < den) by lia.
  assert (Hclose : Z.abs (100 * num - value * den) * 256 <= den) by lia.
  split; [exact Hden|]. split; [exact Hclose|].
  symmetry. apply (Z.div_unique _ _ _ (200 * num + den - 2 * den * value)); nia.
Qed.

(** X4. Every 16-bit raw sun vector component is calibrated without rounding:
    the result is finite and denotes exactly [value / 16384]. *)
Theorem sun_sensors_calibration_exact (value : int16_t) :
  - 2 ^ 15 <= value < 2 ^ 15 ->
  exists num den : Z,
    float_fraction (SUN_SENSORS_PHYSICAL_VALUE value) = Some (num, den)
    /\ 0 < den
    /\ num * 16384 = value * den.
Proof.
  intros Hv.
  pose proof (holds_from_spec _ _ _ sun_exact_int16 value ltac:(lia)) as H.
  unfold sun_exact in H.
  destruct (float_fraction (SUN_SENSORS_PHYSICAL_VALUE value)) as [[num den]|];
    [|discriminate].
  apply andb_true_iff in H as [H1 H2].
  exists num, den. split; [reflexivity|]. lia.
Qed.

(** ** Comparators *)

Lemma thermal_orders : orders_by thermal_telemetry_timestamp thermal_timestamp_comparator.
Proof. unfold orders_by, thermal_timestamp_comparator. compare_timestamps. Qed.

Lemma sun_sensors_orders :
  orders_by sun_sensors_telemetry_timestamp sun_sensors_timestamp_comparator.
Proof. unfold orders_by, sun_sensors_timestamp_comparator. compare_timestamps. Qed.

(** X5. Both comparators are comparison functions as [qsort] needs them: the
    result is -1, 0 or 1, it is negative exactly when the first timestamp is
    the smaller one and 0 exactly when the timestamps are equal, exchanging
    the arguments negates it, and "not greater" is transitive. *)
Theorem timestamp_comparators_order :
  orders_by thermal_telemetry_timestamp thermal_timestamp_comparator
  /\ orders_by sun_sensors_telemetry_timestamp sun_sensors_timestamp_comparator.
Proof. split; [exact thermal_orders | exact sun_sensors_orders]. Qed.

(** ** Deduplication with any comparator *)

Section dedup_general.
Context {A : Type}.
Variable comparator : A -> A -> Z.

Lemma keep_changes_changing (l : list A) :
  forall previous, changing comparator (previous :: keep_changes comparator previous l).
Proof.
  induction l as [|x l IH]; intros previous; cbn [keep_changes]; [constructor|].
  destruct (comparator x previous =? 0) eqn:E; [apply IH|].
  constructor; [now apply Z.eqb_neq|apply IH].
Qed.

Lemma run_heads_changing (l : list A) : changing comparator (run_heads comparator l).
Proof. destruct l as [|x l]; [constructor|apply keep_changes_changing]. Qed.

Lemma keep_changes_fixed (l : list A) :
  forall previous,
  changing comparator (previous :: l) -> keep_changes comparator previous l = l.
Proof.
  induction l as [|x l IH]; intros previous H; [reflexivity|].
  inversion H as [| |? ? ? Hne Hl]; subst. cbn [keep_changes].
  apply Z.eqb_neq in Hne. rewrite Hne. f_equal. now apply IH.
Qed.

Lemma run_heads_fixed (l : list A) :
  changing comparator l -> run_heads comparator l = l.
Proof.
  destruct l as [|x l]; [reflexivity|]. intros H. cbn [run_heads].
  f_equal. now apply keep_changes_fixed.
Qed.

Lemma changing_lookup (l : list A) :
  changing comparator l ->
  forall i x y, l !! i = Some x -> l !! S i = Some y -> comparator y x <> 0.
Proof.
  induction 1 as [|x|x y l Hne Hl IH]; intros i a b Ha Hb.
  - discriminate.
  - destruct i; discriminate.
  - destruct i as [|i]; cbn in Ha, Hb.
    + now injection Ha as <-; injection Hb as <-.
    + now apply (IH i).
Qed.

(** The call on the first [n] elements of [p]. *)
Lemma array_duplicate_removal_take (p : list A) (n size : nat) :
  size <> 0%nat -> n <> 0%nat -> (n <= length p)%nat ->
  array_duplicate_removal (Some p) n size (Some comparator)
  = Some (length (run_heads comparator (take n p)),
          Some (run_heads comparator (take n p)
                ++ drop (length (run_heads comparator (take n p))) p)).
Proof.
  intros Hsize Hn Hlen.
  assert (Ha : take n p <> []).
  { intros E. apply (f_equal length) in E. rewrite length_take_le in E by lia.
    cbn in E. lia. }
  pose proof (array_duplicate_removal_run_heads comparator (take n p) (drop n p) size
                Hsize Ha) as Hrun.
  rewrite take_drop, length_take_le in Hrun by lia.
  rewrite Hrun. do 3 f_equal.
  set (k := length (run_heads comparator (take n p))).
  assert (Hk : (k <= n)%nat).
  { subst k. destruct (take n p) as [|x a] eqn:E; [congruence|].
    apply (f_equal length) in E. rewrite length_take_le in E by lia.
    pose proof (keep_changes_length comparator a x). cbn [run_heads length] in *. lia. }
  rewrite <- drop_app_le by (rewrite length_take_le; lia).
  now rewrite take_drop.
Qed.
End dedup_general.

(** X6. For any comparator, the call on the first [n >= 1] elements leaves at
    the front the first element of every run of elements that compare equal
    to the element kept before them, and returns their number; slot 0 and the
    slots from the returned length on are as before the call; no kept element
    compares equal to the kept element before it. *)
Theorem array_duplicate_removal_keeps_run_heads {A : Type} (comparator : A -> A -> Z)
    (p : list A) (n size : nat) :
  size <> 0%nat -> n <> 0%nat -> (n <= length p)%nat ->
  exists (k : nat) (p' : list A),
    array_duplicate_removal (Some p) n size (Some comparator) = Some (k, Some p')
    /\ take k p' = run_heads comparator (take n p)
    /\ drop k p' = drop k p
    /\ p' !! 0%nat = p !! 0%nat
    /\ forall i x y, (S i < k)%nat -> p' !! i = Some x -> p' !! S i = Some y ->
                     comparator y x <> 0.
Proof.
  intros Hsize Hn Hlen.
  rewrite (array_duplicate_removal_take comparator p n size Hsize Hn Hlen).
  set (kept := run_heads comparator (take n p)).
  exists (length kept), (kept ++ drop (length kept) p).
  split; [reflexivity|].
  split; [now rewrite take_app_length|].
  split; [now rewrite drop_app_length|].
  split.
  - subst kept. destruct p as [|x p]; [cbn in Hlen; lia|].
    destruct n as [|n]; [congruence|]. reflexivity.
  - intros i x y Hi Hx Hy.
    rewrite lookup_app_l in Hx, Hy by lia.
    exact (changing_lookup comparator kept (run_heads_changing comparator _) i x y Hx Hy).
Qed.

(** X7. A second call on the elements a first call kept removes nothing and
    leaves the array as it is. *)
Theorem array_duplicate_removal_idempotent {A : Type} (comparator : A -> A -> Z)
    (p p' : list A) (n k size : nat) :
  size <> 0%nat -> n <> 0%nat -> (n <= length p)%nat ->
  array_duplicate_removal (Some p) n size (Some comparator) = Some (k, Some p') ->
  array_duplicate_removal (Some p') k size (Some comparator) = Some (k, Some p').
Proof.
  intros Hsize Hn Hlen.
  rewrite (array_duplicate_removal_take comparator p n size Hsize Hn Hlen).
  set (kept := run_heads comparator (take n p)).
  intros [= <- <-].
  assert (Hkept : kept <> []).
  { subst kept. destruct p as [|x p]; [cbn in Hlen; lia|].
    destruct n as [|n]; [congruence|]. discriminate. }
  rewrite (array_duplicate_removal_run_heads comparator kept _ size Hsize Hkept).
  rewrite (run_heads_fixed comparator kept) by apply run_heads_changing.
  rewrite drop_all. reflexivity.
Qed.

(** ** The decoder: what [READ_OK] means *)

Lemma frame_program_reads_kept : reads_kept frame_program.
Proof.
  unfold frame_program, platform_program, memory_program, cdh_program, power_program,
    thermal_program, aocs_program, payload_program.
  cbn [app reads_kept].
  repeat match goal with
         | |- _ /\ _ => split
         | |- True => exact I
         | |- Forall _ [] => apply Forall_nil_2
         | |- Forall _ (_ :: _) => apply Forall_cons_2
         | |- keeps _ _ =>
             cbn [keeps]; try exact I; intros v o Hr; destruct_frame o; exact Hr
         | |- forall v o, _ = _ => intros v o; destruct_frame o; reflexivity
         end.
Qed.

Lemma run_keeps (P : BeaconFrame -> Prop) (l : list instr) :
  Forall (keeps P) l -> forall s, P (out s) -> P (out (run l s).2).
Proof.
  induction 1 as [|i l Hi Hl IH]; intros s Hs; [exact Hs|].
  destruct i as [fl|ID id]; cbn [run exec keeps] in *; unfold seq, ifnot, when.
  - unfold READ_FIELD, fread.
    destruct (Nat.eqb _ _); [apply IH|]; cbn [Return out snd]; now apply Hi.
  - destruct (id_differs ID id s); [exact Hs|now apply IH].
Qed.

Lemma run_ok_members_in_range (l : list instr) :
  Forall instr_ok l -> reads_kept l ->
  forall s, (run l s).1 = Some READ_OK -> members_in_range l (out (run l s).2).
Proof.
  induction 1 as [|i l Hi Hl IH]; intros Hk s Hok; [exact I|].
  destruct i as [fl|ID id]; cbn [run exec reads_kept members_in_range instr_ok] in *;
    unfold seq, ifnot, when in *.
  - destruct Hk as (Hget & Hkeep & Hk).
    unfold READ_FIELD, fread in *.
    destruct (Nat.eqb_spec (length (take (sizeof (frep fl)) (file s))) (sizeof (frep fl)))
      as [E|E]; [|discriminate].
    split; [|now apply IH].
    apply (run_keeps _ l Hkeep). cbn [out]. rewrite Hget.
    apply (of_bytes_in_range _ Hi).
    rewrite length_app, length_drop, (to_bytes_length _ Hi), E. lia.
  - destruct (id_differs ID id s); [discriminate|now apply IH].
Qed.

Lemma members_in_range_frame_program (o : BeaconFrame) :
  members_in_range frame_program o -> wf_frame o.
Proof.
  unfold wf_frame, wf_platform, wf_memory, wf_cdh, wf_power, wf_thermal, wf_aocs,
    wf_payload.
  cbn. tauto.
Qed.

(** Once the marker was found a frame is read with [READ_OK] exactly from its
    wire image. *)
Lemma read_sections_ok_iff (rest file' : FILE) (o o' : BeaconFrame) :
  read_sections rest o = (READ_OK, Some file', Some o')
  <-> rest = encode_frame o' ++ file' /\ wf_frame o' /\ ids_match o'.
Proof.
  split.
  - intros H.
    assert (Hwf : wf_frame o').
    { unfold read_sections in H. rewrite read_frame_fields_run in H.
      pose proof (run_ok_members_in_range frame_program frame_program_ok
                    frame_program_reads_kept (State rest o)) as Hr.
      destruct (run_overwrites frame_program 0 (State rest o) frame_program_laid_out
                  ltac:(cbn; lia)) as (j & _ & _ & Hres).
      destruct (run frame_program (State rest o)) as [r [f1 o1]].
      cbn [fst snd out] in *.
      destruct Hres as [[-> _] | ->]; [|discriminate].
      injection H as _ ->. now apply members_in_range_frame_program, Hr. }
    destruct (read_sections_spec rest o)
      as (st & f1 & o1 & j & E & Hj & Hl & Hf & He & Hst).
    rewrite E in H. injection H as Hs -> ->.
    destruct Hst as [(_ & -> & Hids) | ->]; [|discriminate].
    split; [|now split].
    rewrite He, Hf, (drop_ge (encode_frame o)), app_nil_r
      by (rewrite encode_frame_length; lia).
    now rewrite take_drop.
  - intros (-> & Hwf & Hids).
    unfold read_sections. rewrite read_frame_fields_run.
    rewrite <- encode_with_frame_program, <- (app_nil_r frame_program).
    rewrite run_app_encoded by auto using frame_program_ok, passes_frame_program.
    now rewrite copy_frame_program.
Qed.

Lemma read_sections_status (rest : FILE) (o : BeaconFrame) :
  exists (status : ReadFileReturnType) (file' : FILE) (o' : BeaconFrame),
    read_sections rest o = (status, Some file', Some o')
    /\ (status = READ_OK \/ status = READ_FAIL).
Proof.
  destruct (read_sections_spec rest o) as (st & f1 & o1 & j & E & _ & _ & _ & _ & Hst).
  exists st, f1, o1. split; [exact E|]. destruct Hst as [[-> _] | ->]; auto.
Qed.

(** The call on a stream that starts with a frame. *)
Lemma read_data_frame_chunk (header : BeaconHeader) (consumed : list byte)
    (f o : BeaconFrame) (rest : list byte) :
  first_beacon header consumed -> wf_frame f -> ids_match f ->
  read_data_frame (Some (consumed ++ encode_frame f ++ rest)) header (Some o)
  = (READ_OK, Some rest, Some f).
Proof.
  intros Hfirst Hwf Hids. cbn [read_data_frame].
  assert (E : find_beacon header [Byte.x00; Byte.x00; Byte.x00] 0
                (consumed ++ encode_frame f ++ rest) = Some (encode_frame f ++ rest))
    by (apply find_beacon_some_iff; now exists consumed).
  rewrite E. now apply read_sections_ok_iff.
Qed.

(** X8. [read_data_frame] returns [READ_OK] with a frame exactly when the
    stream holds, right after the first marker, the 110-byte wire image of
    that frame, every member of the frame is a value of its type and the seven
    identifiers are the expected ones; the stream is then left right after
    the image. *)
Theorem read_data_frame_ok_iff (header : BeaconHeader) (s file' : FILE)
    (o o' : BeaconFrame) :
  read_data_frame (Some s) header (Some o) = (READ_OK, Some file', Some o')
  <-> exists consumed,
        first_beacon header consumed /\ s = consumed ++ encode_frame o' ++ file'
        /\ wf_frame o' /\ ids_match o'.
Proof.
  split.
  - cbn [read_data_frame].
    destruct (find_beacon header _ 0 s) as [rest|] eqn:E; [|discriminate].
    apply find_beacon_some_iff in E as (consumed & -> & Hfirst).
    intros (-> & Hwf & Hids)%read_sections_ok_iff.
    now exists consumed.
  - intros (consumed & Hfirst & -> & Hwf & Hids). now apply read_data_frame_chunk.
Qed.

(** ** The decoder: the frames it accepts, byte by byte *)

Lemma laid_out_reads_only (l : list instr) :
  forall k, laid_out k l -> laid_out k (reads_only l).
Proof.
  induction l as [|[fl|ID id] l IH]; intros k H; cbn [reads_only List.filter is_read] in *.
  - exact I.
  - destruct H as (H1 & H2 & H3). cbn [laid_out]. auto.
  - now apply IH.
Qed.

Lemma Forall_reads_only (P : instr -> Prop) (l : list instr) :
  Forall P l -> Forall P (reads_only l).
Proof.
  induction 1 as [|i l Hi Hl IH]; [constructor|].
  cbn [reads_only List.filter]. destruct (is_read i); [now constructor|exact IH].
Qed.

Lemma reads_kept_reads_only (l : list instr) : reads_kept l -> reads_kept (reads_only l).
Proof.
  induction l as [|[fl|ID id] l IH]; intros H; cbn [reads_only List.filter is_read] in *.
  - exact I.
  - destruct H as (H1 & H2 & H3). cbn [reads_kept].
    split; [exact H1|]. split; [now apply Forall_reads_only|now apply IH].
  - now apply IH.
Qed.

Lemma run_reads_ok (l : list instr) :
  Forall (fun i => is_read i = true) l ->
  forall s, (program_size l <= length (file s))%nat -> (run l s).1 = Some READ_OK.
Proof.
  induction 1 as [|[fl|ID id] l Hi Hl IH]; intros s Hs; [reflexivity| |discriminate Hi].
  cbn [run exec program_size instr_size] in *. unfold seq, ifnot, READ_FIELD, fread.
  rewrite length_take_le by lia. rewrite Nat.eqb_refl.
  apply IH. cbn [file]. rewrite length_drop. lia.
Qed.

Lemma reads_only_reads (l : list instr) : Forall (fun i => is_read i = true) (reads_only l).
Proof.
  induction l as [|i l IH]; [constructor|].
  cbn [reads_only List.filter]. destruct (is_read i) eqn:E; [now constructor|exact IH].
Qed.

Lemma members_in_range_reads_only (l : list instr) (o : BeaconFrame) :
  members_in_range (reads_only l) o -> members_in_range l o.
Proof.
  induction l as [|[fl|ID id] l IH]; cbn [reads_only List.filter is_read members_in_range];
    [auto| |auto].
  intros [H1 H2]. auto.
Qed.

Lemma program_size_reads_only (l : list instr) :
  program_size (reads_only l) = program_size l.
Proof.
  induction l as [|[fl|ID id] l IH];
    cbn [reads_only List.filter is_read program_size instr_size]; [reflexivity| |exact IH].
  now rewrite <- IH.
Qed.

(** Every sequence of 110 bytes is the wire image of a frame. *)
Lemma frame_of_image_spec (bs : list byte) :
  length bs = 110%nat ->
  wf_frame (frame_of_image bs) /\ encode_frame (frame_of_image bs) = bs.
Proof.
  intros Hlen. unfold frame_of_image.
  assert (Hsize : program_size (reads_only frame_program) = 110%nat)
    by (rewrite program_size_reads_only; reflexivity).
  pose proof (run_reads_ok (reads_only frame_program) (reads_only_reads _)
                (State bs zero_frame) ltac:(cbn [file]; lia)) as Hok.
  destruct (run_overwrites (reads_only frame_program) 0 (State bs zero_frame)
              (laid_out_reads_only _ _ frame_program_laid_out) ltac:(lia))
    as (j & Hj & (Hl & Hf & He) & Hres).
  pose proof (run_ok_members_in_range (reads_only frame_program)
                (Forall_reads_only _ _ frame_program_ok)
                (reads_kept_reads_only _ frame_program_reads_kept)
                (State bs zero_frame) Hok) as Hr.
  destruct Hres as [[_ ->] | Hfail]; [|congruence].
  split.
  - now apply members_in_range_frame_program, members_in_range_reads_only.
  - cbn [file out] in He. rewrite He, Hsize, take_0, take_ge, drop_ge by
      (rewrite ?encode_frame_length; lia).
    now rewrite app_nil_r.
Qed.

Lemma section_id_at (sec : FrameSection) (o : BeaconFrame) :
  take 2 (drop (id_offset sec) (encode_frame o)) = to_bytes uint16_t_c (section_id sec o).
Proof. destruct sec; destruct_frame o; reflexivity. Qed.

Lemma id_bytes_swapped (sec : FrameSection) :
  id_bytes sec = to_bytes uint16_t_c (byte16_swap (expected_id sec)).
Proof. destruct sec; reflexivity. Qed.

Lemma ids_match_of_wire (f : BeaconFrame) :
  wf_frame f ->
  (forall sec, take 2 (drop (id_offset sec) (encode_frame f)) = id_bytes sec) ->
  ids_match f.
Proof.
  intros (Hp & Hm & Hc & Hw & Ht & Ha & Hy) Hwire.
  assert (Hid : forall sec, in_range uint16_t_c (section_id sec f) ->
                            byte16_swap (section_id sec f) = expected_id sec).
  { intros sec Hr. specialize (Hwire sec).
    rewrite section_id_at, id_bytes_swapped in Hwire.
    apply (f_equal (of_bytes uint16_t_c)) in Hwire.
    rewrite !(of_to_bytes _ uint16_t_c_ok) in Hwire
      by (try exact Hr; apply byte16_swap_range).
    rewrite Hwire. apply byte16_swap_involutive.
    destruct sec;
      cbv [expected_id PLATFORM_ID MEMORY_ID CDH_ID POWER_ID THERMAL_ID AOCS_ID PAYLOAD_ID];
      lia. }
  unfold ids_match.
  repeat split.
  - apply (Hid Platform), Hp.
  - apply (Hid Memory), Hm.
  - apply (Hid CDH), Hc.
  - apply (Hid Power), Hw.
  - apply (Hid Thermal), Ht.
  - apply (Hid AOCS), Ha.
  - apply (Hid Payload), Hy.
Qed.

Lemma wire_of_ids_match (f : BeaconFrame) :
  wf_frame f -> ids_match f ->
  forall sec, take 2 (drop (id_offset sec) (encode_frame f)) = id_bytes sec.
Proof.
  intros Hwf Hids sec. rewrite section_id_at, id_bytes_swapped. f_equal.
  pose proof (ids_match_wire f Hwf Hids) as H. rewrite Forall_forall in H.
  apply H. destruct sec; rewrite !elem_of_cons; auto 10.
Qed.

(** X9. [read_data_frame] returns [READ_OK] exactly on the streams that hold,
    after the first marker, at least 110 bytes of which the two at the
    offsets 0, 18, 24, 31, 49, 55 and 101 are the section identifiers in
    big-endian order (00 01, 01 01, ..., 06 01); no other byte of the frame
    matters. *)
Theorem read_data_frame_accepts (header : BeaconHeader) (s : FILE) (o : BeaconFrame) :
  (exists file' o', read_data_frame (Some s) header (Some o)
                    = (READ_OK, Some file', Some o'))
  <-> exists consumed bs rest,
        s = consumed ++ bs ++ rest /\ first_beacon header consumed
        /\ length bs = 110%nat
        /\ forall sec, take 2 (drop (id_offset sec) bs) = id_bytes sec.
Proof.
  split.
  - intros (file' & o' & H). cbn [read_data_frame] in H.
    destruct (find_beacon header _ 0 s) as [rest|] eqn:E; [|discriminate].
    apply find_beacon_some_iff in E as (consumed & -> & Hfirst).
    apply read_sections_ok_iff in H as (-> & Hwf & Hids).
    exists consumed, (encode_frame o'), file'.
    split; [reflexivity|]. split; [exact Hfirst|]. split; [apply encode_frame_length|].
    now apply wire_of_ids_match.
  - intros (consumed & bs & rest & -> & Hfirst & Hlen & Hwire).
    destruct (frame_of_image_spec bs Hlen) as [Hwf Henc].
    exists rest, (frame_of_image bs). rewrite <- Henc at 1.
    apply read_data_frame_chunk; [exact Hfirst|exact Hwf|].
    apply ids_match_of_wire; [exact Hwf|]. now rewrite Henc.
Qed.

Lemma big_endian_bytes_2 (a b : byte) : big_endian [a; b] = le_combine [b; a].
Proof. reflexivity. Qed.
Lemma big_endian_bytes_4 (a b c d : byte) : big_endian [a; b; c; d] = le_combine [d; c; b; a].
Proof. reflexivity. Qed.

Lemma swapped_uint32 (v : uint32_t) :
  in_range uint32_t_c v -> byte32_swap v = big_endian (to_bytes uint32_t_c v).
Proof.
  intros Hr. rewrite <- (of_to_bytes _ uint32_t_c_ok v Hr) at 1.
  change (to_bytes uint32_t_c v)
    with [byte.of_Z v; byte.of_Z (Z.shiftr v 8); byte.of_Z (Z.shiftr (Z.shiftr v 8) 8);
          byte.of_Z (Z.shiftr (Z.shiftr (Z.shiftr v 8) 8) 8)].
  apply byte32_swap_le_combine.
Qed.

Lemma swapped_int16 (v : int16_t) :
  in_range int16_t_c v ->
  to_int16 (byte16_swap (to_uint16 v)) = to_int16 (big_endian (to_bytes int16_t_c v)).
Proof.
  intros Hr. rewrite <- (of_to_bytes _ int16_t_c_ok v Hr) at 1.
  change (to_bytes int16_t_c v) with [byte.of_Z v; byte.of_Z (Z.shiftr v 8)].
  rewrite normalized_big_endian, big_endian_bytes_2, big_endian_2. reflexivity.
Qed.

(** X10. The values of the CSV files come from fixed places of the frame: after
    a [READ_OK], the timestamp of both records is the unsigned big-endian
    value of the bytes 6..9 of the 110 bytes after the marker; the
    temperatures are calibrated from the signed big-endian values of the
    bytes 51..52 and 53..54, the sun vector components from those of the
    bytes 61..62, 63..64 and 65..66. *)
Theorem calibrated_values_of_wire_bytes (header : BeaconHeader)
    (consumed bs rest : list byte) (file' : FILE) (o o' : BeaconFrame) :
  first_beacon header consumed -> length bs = 110%nat ->
  read_data_frame (Some (consumed ++ bs ++ rest)) header (Some o)
  = (READ_OK, Some file', Some o') ->
  let unsigned_at (k n : nat) := big_endian (take n (drop k bs)) in
  let signed_at (k : nat) := to_int16 (big_endian (take 2 (drop k bs))) in
  file' = rest
  /\ thermal_telemetry_timestamp (thermal_of_frame o') = unsigned_at 6%nat 4%nat
  /\ sun_sensors_telemetry_timestamp (sun_sensors_of_frame o') = unsigned_at 6%nat 4%nat
  /\ CPU_C (thermal_of_frame o') = TEMP_C_PHYSICAL_VALUE (signed_at 51%nat)
  /\ mirror_cell_C (thermal_of_frame o') = TEMP_C_PHYSICAL_VALUE (signed_at 53%nat)
  /\ sun_vector_x (sun_sensors_of_frame o') = SUN_SENSORS_PHYSICAL_VALUE (signed_at 61%nat)
  /\ sun_vector_y (sun_sensors_of_frame o') = SUN_SENSORS_PHYSICAL_VALUE (signed_at 63%nat)
  /\ sun_vector_z (sun_sensors_of_frame o') = SUN_SENSORS_PHYSICAL_VALUE (signed_at 65%nat).
Proof.
  intros Hfirst Hlen H unsigned_at signed_at. subst unsigned_at signed_at.
  cbn [read_data_frame] in H.
  assert (E : find_beacon header [Byte.x00; Byte.x00; Byte.x00] 0 (consumed ++ bs ++ rest)
              = Some (bs ++ rest)) by (apply find_beacon_some_iff; now exists consumed).
  rewrite E in H. clear E.
  apply read_sections_ok_iff in H as (Heq & Hwf & Hids).
  apply app_inj_1 in Heq as [-> ->]; [|now rewrite encode_frame_length].
  split; [reflexivity|].
  destruct Hwf as (Hp & _ & _ & _ & Ht & Ha & _).
  destruct Hp as (_ & _ & Hrtc & _). destruct Ht as (_ & Hcpu & Hmirror).
  destruct Ha as (_ & _ & Hx & Hy & Hz & _).
  unfold thermal_of_frame, sun_sensors_of_frame, thermal_to_calibrated,
    sun_sensors_to_calibrated.
  cbn [IS_BIG_ENDIAN thermal_telemetry_timestamp sun_sensors_telemetry_timestamp CPU_C
         mirror_cell_C sun_vector_x sun_vector_y sun_vector_z].
  rewrite (swapped_uint32 _ Hrtc), (swapped_int16 _ Hcpu), (swapped_int16 _ Hmirror),
    (swapped_int16 _ Hx), (swapped_int16 _ Hy), (swapped_int16 _ Hz).
  destruct_frame o'. repeat split.
Qed.

(** ** The read loop of [main] *)

Section append_props.
Context {A : Type}.
Variable elem_size : Z.
Variable realloc_succeeds : Z -> bool.
Hypothesis elem_size_range : 2 <= elem_size <= 2 ^ 32.

(** With room in the address space an append stores the record or reports
    the failure of [realloc]. *)
Lemma append_cases (n : nat) (record : A) (c : collector) :
  collector_inv elem_size n c ->
  (Z.of_nat n + 129) * elem_size < 2 ^ 64 ->
  (exists c', append elem_size realloc_succeeds record c = Appended c')
  \/ (append elem_size realloc_succeeds record c = ReallocFailed
      /\ exists bytes, realloc_succeeds bytes = false).
Proof.
  intros (Harr & Hlen & Hcap & Hall & Hlt & Hcalls) Hn.
  unfold append, to_size_t.
  destruct c as [arr len cap bytes calls]. cbn [telemetry_array telemetry_length
    telemetry_capacity allocated_bytes realloc_calls] in *.
  unfold size_t in *. subst len.
  assert (Hc0 : 0 <= cap) by div_lia.
  destruct (Z.eqb_spec (Z.of_nat n) cap) as [E|E].
  - assert (Hnew : (if negb (cap =? 0) then (cap + 128) mod 2 ^ 64 else 128)
                   = cap + 128).
    { destruct (Z.eqb_spec cap 0) as [->|]; [reflexivity|]. cbn [negb].
      apply Z.mod_small. nia. }
    rewrite Hnew, (Z.mod_small ((cap + 128) * elem_size)) by nia.
    destruct (realloc_succeeds ((cap + 128) * elem_size)) eqn:R.
    + cbn [telemetry_array telemetry_length telemetry_capacity allocated_bytes
             realloc_calls].
      destruct (Z.leb_spec ((Z.of_nat n + 1) * elem_size) ((cap + 128) * elem_size));
        [eauto|nia].
    + right. eauto.
  - cbn [telemetry_array telemetry_length telemetry_capacity allocated_bytes
           realloc_calls].
    assert (Hroom : Z.of_nat n + 1 <= cap) by div_lia.
    destruct (Z.leb_spec ((Z.of_nat n + 1) * elem_size) bytes); [eauto|nia].
Qed.
End append_props.

Lemma first_beacon_length (header : BeaconHeader) (consumed : list byte) :
  first_beacon header consumed -> (3 <= length consumed)%nat.
Proof. intros [H _]. now apply ends_with_beacon_length in H. Qed.

Lemma frames_stream_length (header : BeaconHeader) (chunks : list (list byte * BeaconFrame)) :
  Forall (frame_chunk header) chunks ->
  (113 * length chunks <= length (frames_stream chunks))%nat.
Proof.
  induction 1 as [|[consumed f] chunks (Hfirst & _) _ IH]; [cbn; lia|].
  apply first_beacon_length in Hfirst. cbn [fst snd] in Hfirst.
  cbn [frames_stream flat_map length fst snd]. fold (frames_stream chunks).
  rewrite !length_app, encode_frame_length. lia.
Qed.

Section read_loop.
Variable realloc_succeeds : Z -> bool.

Abbreviation thermal_inv := (collector_inv (A := ThermalTelemetryCalibrated)
                               (Z.of_nat sizeof_ThermalTelemetryCalibrated)).
Abbreviation sun_sensor_inv := (collector_inv (A := SunSensorsTelemetryCalibrated)
                                  (Z.of_nat sizeof_SunSensorsTelemetryCalibrated)).

(** How the loop ends, from any iteration on; [bound] is there for the
    induction. *)
Lemma read_frames_spec (bound : nat) :
  forall (file : FILE) (fuel : nat) (frame : BeaconFrame)
         (thermal : collector) (sun_sensor : collector) (n : nat),
  (length file < bound)%nat ->
  (length file < 113 * fuel)%nat ->
  thermal_inv n thermal -> sun_sensor_inv n sun_sensor ->
  (Z.of_nat (n + length file) + 129) * 16 < 2 ^ 64 ->
  exists exit,
    read_frames realloc_succeeds fuel
      (read_data_frame (Some file) main_header (Some frame)) thermal sun_sensor
    = Some exit
    /\ match exit with
       | LoopEnd read_state thermal' sun_sensor' =>
           exists chunks rest,
             file = frames_stream chunks ++ rest
             /\ Forall (frame_chunk main_header) chunks
             /\ thermal_inv (n + length chunks) thermal'
             /\ sun_sensor_inv (n + length chunks) sun_sensor'
             /\ telemetry_array thermal'
                = telemetry_array thermal
                  ++ ((fun chunk => thermal_of_frame chunk.2) <$> chunks)
             /\ telemetry_array sun_sensor'
                = telemetry_array sun_sensor
                  ++ ((fun chunk => sun_sensors_of_frame chunk.2) <$> chunks)
             /\ (read_state = READ_EOF /\ no_beacon main_header rest
                 \/ read_state = READ_FAIL /\ broken_frame main_header rest)
       | LoopNoMemory => exists bytes, realloc_succeeds bytes = false
       | LoopUndefined => False
       end.
Proof.
  induction bound as [|bound IH]; intros file fuel frame thermal sun_sensor n Hb Hfuel
    Hth Hsun Hfit; [lia|].
  cbn [read_data_frame].
  destruct (find_beacon main_header _ 0 file) as [rest|] eqn:E.
  - apply find_beacon_some_iff in E as (consumed & -> & Hfirst).
    destruct (read_sections_status rest frame) as (st & file' & o' & Hread & Hst).
    rewrite Hread.
    destruct Hst as [-> | ->].
    + apply read_sections_ok_iff in Hread as (-> & Hwf & Hids).
      pose proof (first_beacon_length _ _ Hfirst) as Hc.
      rewrite !length_app, encode_frame_length in *.
      destruct fuel as [|fuel]; [lia|]. cbn [read_frames].
      fold (thermal_of_frame o'). fold (sun_sensors_of_frame o').
      destruct (append_cases (Z.of_nat sizeof_ThermalTelemetryCalibrated) realloc_succeeds
                  ltac:(sizes) n (thermal_of_frame o') thermal Hth ltac:(sizes))
        as [[thermal1 Ht] | [Ht Hno]]; rewrite Ht; [|now exists LoopNoMemory].
      destruct (append_cases (Z.of_nat sizeof_SunSensorsTelemetryCalibrated)
                  realloc_succeeds ltac:(sizes) n (sun_sensors_of_frame o') sun_sensor
                  Hsun ltac:(sizes))
        as [[sun_sensor1 Hs] | [Hs Hno]]; rewrite Hs; [|now exists LoopNoMemory].
      destruct (append_step (Z.of_nat sizeof_ThermalTelemetryCalibrated) realloc_succeeds
                  ltac:(sizes) n _ _ _ Hth Ht) as (Hth1 & Harr1 & _).
      destruct (append_step (Z.of_nat sizeof_SunSensorsTelemetryCalibrated)
                  realloc_succeeds ltac:(sizes) n _ _ _ Hsun Hs) as (Hsun1 & Hsarr1 & _).
      assert (H1 : (length file' < bound)%nat) by lia.
      assert (H2 : (length file' < 113 * fuel)%nat) by lia.
      assert (H3 : (Z.of_nat (S n + length file') + 129) * 16 < 2 ^ 64) by lia.
      destruct (IH file' fuel o' thermal1 sun_sensor1 (S n) H1 H2 Hth1 Hsun1 H3)
        as (exit & -> & Hexit).
      exists exit. split; [reflexivity|].
      destruct exit as [st thermal' sun_sensor'| |]; [|exact Hexit..].
      destruct Hexit as (chunks & rest & -> & Hchunks & Hth' & Hsun' & Ha & Hsa & Hend).
      exists ((consumed, o') :: chunks), rest.
      split; [cbn; now rewrite <- !app_assoc|].
      split; [apply Forall_cons_2; [unfold frame_chunk; auto|exact Hchunks]|].
      cbn [length]. rewrite Nat.add_succ_r.
      split; [exact Hth'|]. split; [exact Hsun'|].
      rewrite Ha, Hsa, Harr1, Hsarr1, <- !app_assoc. cbn [fmap list_fmap app fst snd].
      auto.
    + exists (LoopEnd READ_FAIL thermal sun_sensor).
      split; [destruct fuel; reflexivity|].
      exists [], (consumed ++ rest). rewrite !Nat.add_0_r, !app_nil_r.
      split; [reflexivity|]. split; [apply Forall_nil_2|].
      split; [exact Hth|]. split; [exact Hsun|]. split; [reflexivity|].
      split; [reflexivity|].
      right. split; [reflexivity|].
      exists consumed, rest. split; [reflexivity|]. split; [exact Hfirst|].
      intros f file'' -> [Hwf Hids].
      assert (Hok : read_sections (encode_frame f ++ file'') frame
                    = (READ_OK, Some file'', Some f)) by now apply read_sections_ok_iff.
      congruence.
  - apply find_beacon_none_iff in E.
    exists (LoopEnd READ_EOF thermal sun_sensor).
    split; [destruct fuel; reflexivity|].
    exists [], file. rewrite !Nat.add_0_r, !app_nil_r.
    split; [reflexivity|]. split; [apply Forall_nil_2|].
    split; [exact Hth|]. split; [exact Hsun|]. split; [reflexivity|].
    split; [reflexivity|]. now left.
Qed.

(** The loop on a stream of frames. *)
Lemma read_frames_collects (chunks : list (list byte * BeaconFrame)) :
  forall (rest : list byte) (fuel : nat) (frame : BeaconFrame)
         (thermal : collector) (sun_sensor : collector) (n : nat),
  (forall bytes, realloc_succeeds bytes = true) ->
  Forall (frame_chunk main_header) chunks -> no_beacon main_header rest ->
  (length chunks <= fuel)%nat ->
  thermal_inv n thermal -> sun_sensor_inv n sun_sensor ->
  (Z.of_nat (n + length chunks) + 129) * 16 < 2 ^ 64 ->
  exists thermal' sun_sensor',
    read_frames realloc_succeeds fuel
      (read_data_frame (Some (frames_stream chunks ++ rest)) main_header (Some frame))
      thermal sun_sensor
    = Some (LoopEnd READ_EOF thermal' sun_sensor')
    /\ thermal_inv (n + length chunks) thermal'
    /\ sun_sensor_inv (n + length chunks) sun_sensor'
    /\ telemetry_array thermal'
       = telemetry_array thermal ++ ((fun chunk => thermal_of_frame chunk.2) <$> chunks)
    /\ telemetry_array sun_sensor'
       = telemetry_array sun_sensor
         ++ ((fun chunk => sun_sensors_of_frame chunk.2) <$> chunks).
Proof.
  induction chunks as [|[consumed f] chunks IH];
    intros rest fuel frame thermal sun_sensor n Hre Hchunks Hrest Hfuel Hth Hsun Hfit.
  - cbn [frames_stream flat_map app read_data_frame].
    apply find_beacon_none_iff in Hrest. rewrite Hrest.
    exists thermal, sun_sensor. rewrite Nat.add_0_r, !app_nil_r.
    split; [destruct fuel; reflexivity|auto].
  - apply Forall_cons in Hchunks as [(Hfirst & Hwf & Hids) Hchunks].
    cbn [fst snd length] in *.
    assert (Hread : read_data_frame
                      (Some (frames_stream ((consumed, f) :: chunks) ++ rest))
                      main_header (Some frame)
                    = (READ_OK, Some (frames_stream chunks ++ rest), Some f)).
    { cbn [frames_stream flat_map fst snd]. rewrite <- !app_assoc.
      now apply read_data_frame_chunk. }
    rewrite Hread. destruct fuel as [|fuel]; [lia|]. cbn [read_frames].
    fold (thermal_of_frame f). fold (sun_sensors_of_frame f).
    destruct (append_cases (Z.of_nat sizeof_ThermalTelemetryCalibrated) realloc_succeeds
                ltac:(sizes) n (thermal_of_frame f) thermal Hth ltac:(sizes))
      as [[thermal1 Ht] | [_ [bytes Hno]]]; [|rewrite Hre in Hno; discriminate].
    destruct (append_cases (Z.of_nat sizeof_SunSensorsTelemetryCalibrated)
                realloc_succeeds ltac:(sizes) n (sun_sensors_of_frame f) sun_sensor
                Hsun ltac:(sizes))
      as [[sun_sensor1 Hs] | [_ [bytes Hno]]]; [|rewrite Hre in Hno; discriminate].
    rewrite Ht, Hs.
    destruct (append_step (Z.of_nat sizeof_ThermalTelemetryCalibrated) realloc_succeeds
                ltac:(sizes) n _ _ _ Hth Ht) as (Hth1 & Harr1 & _).
    destruct (append_step (Z.of_nat sizeof_SunSensorsTelemetryCalibrated) realloc_succeeds
                ltac:(sizes) n _ _ _ Hsun Hs) as (Hsun1 & Hsarr1 & _).
    destruct (IH rest fuel f thermal1 sun_sensor1 (S n) Hre Hchunks Hrest ltac:(lia)
                Hth1 Hsun1 ltac:(lia))
      as (thermal' & sun_sensor' & E & Hth' & Hsun' & Ha & Hsa).
    exists thermal', sun_sensor'. split; [exact E|].
    rewrite Nat.add_succ_r. split; [exact Hth'|]. split; [exact Hsun'|].
    rewrite Ha, Hsa, Harr1, Hsarr1, <- !app_assoc. cbn [fmap list_fmap app fst snd].
    auto.
Qed.
End read_loop.

(** X11. The loop of [main] ends on every file, within one iteration per 113
    bytes, and never stores outside a block. Unless [realloc] fails it has
    decoded the frames at the start of the file, one after the other, and
    stopped at the first place that holds no marker ([READ_EOF]) or no valid
    frame after the marker ([READ_FAIL]); both arrays then hold one record per
    decoded frame, in stream order, and the two counters agree. *)
Theorem read_loop_ends (realloc_succeeds : Z -> bool) (file : FILE) (fuel : nat)
    (frame : BeaconFrame) :
  (length file < 113 * fuel)%nat ->
  (Z.of_nat (length file) + 129) * 16 < 2 ^ 64 ->
  exists exit,
    read_frames realloc_succeeds fuel
      (read_data_frame (Some file) main_header (Some frame)) collector_init collector_init
    = Some exit
    /\ match exit with
       | LoopEnd read_state thermal sun_sensor =>
           exists chunks rest,
             file = frames_stream chunks ++ rest
             /\ Forall (frame_chunk main_header) chunks
             /\ telemetry_array thermal = (fun chunk => thermal_of_frame chunk.2) <$> chunks
             /\ telemetry_array sun_sensor
                = (fun chunk => sun_sensors_of_frame chunk.2) <$> chunks
             /\ telemetry_length thermal = Z.of_nat (length chunks)
             /\ telemetry_length sun_sensor = Z.of_nat (length chunks)
             /\ (read_state = READ_EOF /\ no_beacon main_header rest
                 \/ read_state = READ_FAIL /\ broken_frame main_header rest)
       | LoopNoMemory => exists bytes, realloc_succeeds bytes = false
       | LoopUndefined => False
       end.
Proof.
  intros Hfuel Hfit.
  destruct (read_frames_spec realloc_succeeds (S (length file)) file fuel frame
              collector_init collector_init 0 ltac:(lia) Hfuel
              (collector_init_inv _) (collector_init_inv _) ltac:(cbn [Nat.add]; lia))
    as (exit & Hloop & Hexit).
  exists exit. split; [exact Hloop|].
  destruct exit as [read_state thermal sun_sensor| |]; [|exact Hexit..].
  destruct Hexit as (chunks & rest & Hfile & Hchunks & Hth & Hsun & Ha & Hsa & Hend).
  exists chunks, rest. cbn [Nat.add telemetry_array collector_init app] in *.
  destruct Hth as (_ & Htl & _). destruct Hsun as (_ & Hsl & _). auto 10.
Qed.

(** X12. On a stream made of valid frames, each after a first marker, and
    ending without a marker, the loop (with memory to spare) decodes every
    frame and ends with [READ_EOF]: both arrays hold the records of all
    frames in stream order. *)
Theorem read_loop_collects (realloc_succeeds : Z -> bool)
    (chunks : list (list byte * BeaconFrame)) (rest : list byte) (fuel : nat)
    (frame : BeaconFrame) :
  (forall bytes, realloc_succeeds bytes = true) ->
  Forall (frame_chunk main_header) chunks -> no_beacon main_header rest ->
  (length chunks <= fuel)%nat ->
  (Z.of_nat (length chunks) + 129) * 16 < 2 ^ 64 ->
  exists thermal sun_sensor,
    read_frames realloc_succeeds fuel
      (read_data_frame (Some (frames_stream chunks ++ rest)) main_header (Some frame))
      collector_init collector_init
    = Some (LoopEnd READ_EOF thermal sun_sensor)
    /\ telemetry_array thermal = (fun chunk => thermal_of_frame chunk.2) <$> chunks
    /\ telemetry_array sun_sensor = (fun chunk => sun_sensors_of_frame chunk.2) <$> chunks
    /\ telemetry_length thermal = Z.of_nat (length chunks)
    /\ telemetry_length sun_sensor = Z.of_nat (length chunks).
Proof.
  intros Hre Hchunks Hrest Hfuel Hfit.
  destruct (read_frames_collects realloc_succeeds chunks rest fuel frame collector_init
              collector_init 0 Hre Hchunks Hrest Hfuel
              (collector_init_inv _) (collector_init_inv _) ltac:(cbn [Nat.add]; lia))
    as (thermal & sun_sensor & Hloop & Hth & Hsun & Ha & Hsa).
  exists thermal, sun_sensor. cbn [Nat.add telemetry_array collector_init app] in *.
  destruct Hth as (_ & Htl & _). destruct Hsun as (_ & Hsl & _). auto 10.
Qed.

(** ** The CSV writer *)

Section csv_tool_props.
Variable fprintf : OFILE -> c_string -> Z * OFILE.
Variable fopen : c_string -> bool.

Lemma int_add_small (a b : Z) :
  - 2 ^ 31 <= a + b < 2 ^ 31 -> int_add a b = Some (a + b).
Proof.
  intros H. unfold int_add.
  destruct (Z.leb_spec (- 2 ^ 31) (a + b)); [|lia].
  destruct (Z.ltb_spec (a + b) (2 ^ 31)); [reflexivity|lia].
Qed.

(** The loop returns 1 or -1. *)
Lemma write_array_lines_result {A : Type} (array_ptr : list A)
    (formatter : CsvLineFormatter A) (precision : Z) (iterations : nat) :
  forall (i : nat) (csv_file : OFILE) (csv_line_buffer : char_buffer) result csv_file',
  write_array_lines fprintf array_ptr formatter precision iterations i csv_file
    csv_line_buffer = Some (result, csv_file') ->
  result = 1 \/ result = -1.
Proof.
  induction iterations as [|iterations IH]; intros i csv_file buffer result csv_file' H;
    cbn [write_array_lines] in H.
  - injection H as <- _. now left.
  - destruct (array_ptr !! i) as [element|]; [|discriminate].
    destruct (formatter (Some element) (Some buffer) MAX_LINE_BUFFER precision)
      as [len buffer'].
    destruct (len <? 0); [now apply IH in H|].
    destruct buffer' as [line|]; [|discriminate].
    destruct (fprintf csv_file (line ++ [Byte.x0a])) as [write_result csv_file1].
    destruct (write_result <? len); [injection H as <- _; now right|now apply IH in H].
Qed.

Hypothesis fprintf_writes : writes_all fprintf.

Lemma write_header_columns_spec (columns : list c_string) :
  forall (file : OFILE) (total_chars : Z) (after : list (option c_string)),
  0 <= total_chars ->
  total_chars + Z.of_nat (length (flat_map (fun column => SEPARATOR ++ column) columns))
    < 2 ^ 31 ->
  write_header_columns fprintf file total_chars ((Some <$> columns) ++ None :: after)
  = Some (total_chars
          + Z.of_nat (length (flat_map (fun column => SEPARATOR ++ column) columns)),
          file ++ flat_map (fun column => SEPARATOR ++ column) columns).
Proof.
  induction columns as [|column columns IH]; intros file total_chars after H0 Hlen.
  - cbn. now rewrite Z.add_0_r, app_nil_r.
  - cbn [fmap list_fmap app write_header_columns flat_map] in *.
    rewrite fprintf_writes.
    rewrite length_app in Hlen.
    rewrite int_add_small by lia.
    rewrite IH by lia.
    rewrite (length_app (SEPARATOR ++ column)), <- app_assoc. do 2 f_equal. lia.
Qed.

Lemma write_header_spec (file : OFILE) (first_column_name : c_string)
    (columns : list c_string) (after : list (option c_string)) :
  Z.of_nat (length (header_line first_column_name columns)) < 2 ^ 31 ->
  write_header fprintf file (Some first_column_name) ((Some <$> columns) ++ None :: after)
  = Some (Z.of_nat (length (header_line first_column_name columns)),
          file ++ header_line first_column_name columns).
Proof.
  unfold header_line, write_header. intros Hlen.
  rewrite !length_app in Hlen. cbn [length] in Hlen.
  rewrite fprintf_writes, int_add_small by lia.
  rewrite write_header_columns_spec by lia.
  rewrite fprintf_writes, int_add_small by (cbn [length]; lia).
  rewrite !length_app, <- !app_assoc. cbn [length]. do 2 f_equal. lia.
Qed.

Lemma write_array_lines_spec {A : Type} (format : CsvLineFormatter A) (precision : Z)
    (line : A -> option c_string) (rest : list A) :
  forall (before : list A) (csv_file : OFILE) (csv_line_buffer : char_buffer)
         (beyond : list A),
  Forall (formats format precision line) rest ->
  write_array_lines fprintf (before ++ rest ++ beyond) format precision (length rest)
    (length before) csv_file csv_line_buffer
  = Some (1, csv_file ++ csv_rows line rest).
Proof.
  induction rest as [|element rest IH]; intros before csv_file buffer beyond Hf.
  - cbn. now rewrite app_nil_r.
  - apply Forall_cons in Hf as [He Hf].
    cbn [length write_array_lines].
    rewrite lookup_app_r, Nat.sub_diag by lia. cbn [app lookup list_lookup].
    specialize (He buffer). unfold csv_rows. cbn [flat_map]. fold (csv_rows line rest).
    replace (before ++ element :: rest ++ beyond)
      with ((before ++ [element]) ++ rest ++ beyond) by now rewrite <- app_assoc.
    replace (S (length before)) with (length (before ++ [element]))
      by (rewrite length_app; cbn; lia).
    destruct (line element) as [s|].
    + destruct He as (len & -> & Hlen).
      destruct (Z.ltb_spec len 0); [lia|].
      rewrite fprintf_writes, length_app. cbn [length].
      destruct (Z.ltb_spec (Z.of_nat (length s + 1)) len); [lia|].
      rewrite (IH (before ++ [element]) (csv_file ++ s ++ [Byte.x0a]) (Some s) beyond Hf).
      now rewrite <- !app_assoc.
    + destruct He as (len & buffer' & -> & Hlen).
      destruct (Z.ltb_spec len 0); [|lia].
      now rewrite (IH (before ++ [element]) csv_file buffer' beyond Hf).
Qed.

Lemma write_array_to_csv_spec {A : Type} (filename : c_string) (array : list A)
    (array_length element_size : size_t) (format : CsvLineFormatter A) (precision : Z)
    (first_column_name : c_string) (columns : list c_string)
    (after : list (option c_string)) (line : A -> option c_string) :
  0 < array_length <= Z.of_nat (length array) -> 0 < element_size ->
  Z.of_nat (length (header_line first_column_name columns)) < 2 ^ 31 ->
  Forall (formats format precision line) (take (Z.to_nat array_length) array) ->
  write_array_to_csv fprintf fopen (Some filename) (Some array) array_length element_size
    (Some format) precision (Some first_column_name) ((Some <$> columns) ++ None :: after)
  = Some (if fopen filename
          then (1, Some (header_line first_column_name columns
                         ++ csv_rows line (take (Z.to_nat array_length) array)))
          else (-1, None)).
Proof.
  intros Hn Hsize Hhead Hf. unfold write_array_to_csv.
  destruct (Z.eqb_spec array_length 0); [lia|].
  destruct (Z.eqb_spec element_size 0); [lia|].
  cbn [orb]. destruct (fopen filename); [|reflexivity]. cbn [negb].
  rewrite write_header_spec by exact Hhead.
  destruct (Z.ltb_spec (Z.of_nat (length (header_line first_column_name columns))) 0);
    [lia|].
  pose proof (write_array_lines_spec format precision line
                (take (Z.to_nat array_length) array) []
                (header_line first_column_name columns) None
                (drop (Z.to_nat array_length) array) Hf) as Hlines.
  cbn [app length] in Hlines. rewrite take_drop, length_take_le in Hlines by lia.
  cbn [app]. now rewrite Hlines.
Qed.
End csv_tool_props.

(** X13. With writes that succeed, [write_header] appends the header row to
    the stream, the first column name and then every further name up to the
    terminating [NULL], each after a separator, and a newline, and returns
    the number of characters of the row; without a first column name it
    returns -1 and writes nothing. *)
Theorem write_header_row (fprintf : OFILE -> c_string -> Z * OFILE) (file : OFILE)
    (first_column_name : c_string) (columns : list c_string)
    (after : list (option c_string)) :
  writes_all fprintf ->
  Z.of_nat (length (header_line first_column_name columns)) < 2 ^ 31 ->
  write_header fprintf file (Some first_column_name) ((Some <$> columns) ++ None :: after)
  = Some (Z.of_nat (length (header_line first_column_name columns)),
          file ++ header_line first_column_name columns)
  /\ forall args, write_header fprintf file None args = Some (-1, file).
Proof.
  intros Hw Hlen. split; [now apply write_header_spec|reflexivity].
Qed.

(** X14. With valid arguments and writes that succeed, [write_array_to_csv]
    creates the file with the header row followed, in array order, by the
    line of every one of the first [array_length] elements that the formatter
    accepts, and returns 1; elements whose formatting fails are left out
    without any effect on the result. If the file cannot be created the call
    returns -1. *)
Theorem write_array_to_csv_rows {A : Type} (fprintf : OFILE -> c_string -> Z * OFILE)
    (fopen : c_string -> bool) (filename : c_string) (array : list A)
    (array_length element_size : size_t) (format : CsvLineFormatter A) (precision : Z)
    (first_column_name : c_string) (columns : list c_string)
    (after : list (option c_string)) (line : A -> option c_string) :
  writes_all fprintf ->
  0 < array_length <= Z.of_nat (length array) -> 0 < element_size ->
  Z.of_nat (length (header_line first_column_name columns)) < 2 ^ 31 ->
  Forall (formats format precision line) (take (Z.to_nat array_length) array) ->
  write_array_to_csv fprintf fopen (Some filename) (Some array) array_length element_size
    (Some format) precision (Some first_column_name) ((Some <$> columns) ++ None :: after)
  = Some (if fopen filename
          then (1, Some (header_line first_column_name columns
                         ++ csv_rows line (take (Z.to_nat array_length) array)))
          else (-1, None)).
Proof. intros Hw. now apply write_array_to_csv_spec. Qed.

(** X15. Whatever the C library does, [write_array_to_csv] returns 1 or -1.
    It returns -1 without creating the file when an argument is null, the
    element count or the element size is 0, or the file cannot be opened; it
    returns 1 only after it created the file. *)
Theorem write_array_to_csv_status {A : Type} (fprintf : OFILE -> c_string -> Z * OFILE)
    (fopen : c_string -> bool) (filename : option c_string) (array_ptr : option (list A))
    (array_length element_size : size_t) (formatter : option (CsvLineFormatter A))
    (precision : Z) (first_column_name : option c_string)
    (args : list (option c_string)) (result : Z) (csv_file : option OFILE) :
  write_array_to_csv fprintf fopen filename array_ptr array_length element_size formatter
    precision first_column_name args = Some (result, csv_file) ->
  (result = 1 \/ result = -1)
  /\ (array_ptr = None \/ filename = None \/ formatter = None \/ array_length = 0
      \/ element_size = 0 \/ first_column_name = None ->
      result = -1 /\ csv_file = None)
  /\ (forall name, filename = Some name -> fopen name = false ->
                   result = -1 /\ csv_file = None)
  /\ (result = 1 -> exists contents, csv_file = Some contents).
Proof.
  unfold write_array_to_csv. intros H.
  destruct array_ptr as [array|], filename as [name|], formatter as [format|],
    first_column_name as [first|];
    try (injection H as <- <-; repeat split; auto; intros; discriminate).
  destruct (Z.eqb_spec array_length 0) as [E1|E1]; cbn [orb] in H;
    [injection H as <- <-; repeat split; auto; intros; discriminate|].
  destruct (Z.eqb_spec element_size 0) as [E2|E2];
    [injection H as <- <-; repeat split; auto; intros; discriminate|].
  destruct (fopen name) eqn:Hopen; cbn [negb] in H;
    [|injection H as <- <-; repeat split; auto; intros; discriminate].
  destruct (write_header fprintf [] (Some first) args) as [[header_result file1]|];
    [|discriminate].
  assert (Hvalid : Some array = None \/ Some name = None \/ Some format = None
                   \/ array_length = 0 \/ element_size = 0
                   \/ Some first = @None c_string -> False)
    by (intros [?|[?|[?|[?|[?|?]]]]]; congruence).
  destruct (header_result <? 0).
  - injection H as <- <-. split; [now right|]. split; [intros ?%Hvalid; contradiction|].
    split; [intros ? [= <-]; congruence|discriminate].
  - destruct (write_array_lines fprintf array format precision (Z.to_nat array_length) 0
                file1 None) as [[r file2]|] eqn:Hlines; [|discriminate].
    injection H as <- <-.
    split; [exact (write_array_lines_result fprintf _ _ _ _ _ _ _ _ _ Hlines)|].
    split; [intros ?%Hvalid; contradiction|].
    split; [intros ? [= <-]; congruence|eauto].
Qed.

(** ** The line formatters *)

Section csv_line_props.
Variable print_u : uint32_t -> c_string.
Variable print_f : Z -> float -> c_string.

Lemma clamp_precision_eq (precision : Z) :
  (let precision := if precision <? 0 then 0 else precision in
   if precision >? 9 then 9 else precision) = clamp_precision precision.
Proof.
  unfold clamp_precision. cbn zeta.
  destruct (Z.ltb_spec precision 0).
  - destruct (Z.gtb_spec 0 9); lia.
  - destruct (Z.gtb_spec precision 9); lia.
Qed.

Lemma snprintf_line (buffer_size : size_t) (s : c_string) :
  0 < buffer_size ->
  (let '(written, contents) := snprintf buffer_size s in
   if (written <? 0) || (written >=? buffer_size) then (-1, contents)
   else (written, contents))
  = if Z.of_nat (length s) <? buffer_size then (Z.of_nat (length s), Some s)
    else (-1, Some (take (Z.to_nat (buffer_size - 1)) s)).
Proof.
  intros Hsize. unfold snprintf.
  destruct (Z.ltb_spec (Z.of_nat (length s)) 0); [lia|]. cbn [orb].
  destruct (Z.geb_spec (Z.of_nat (length s)) buffer_size);
    destruct (Z.ltb_spec (Z.of_nat (length s)) buffer_size); try lia; [reflexivity|].
  now rewrite take_ge by lia.
Qed.

Lemma thermal_calibrated_to_csv_line_spec (record : ThermalTelemetryCalibrated)
    (contents : char_buffer) (buffer_size : size_t) (precision : Z) :
  0 < buffer_size ->
  thermal_calibrated_to_csv_line print_u print_f (Some record) (Some contents)
    buffer_size precision
  = let s := thermal_line print_u print_f (clamp_precision precision) record in
    if Z.of_nat (length s) <? buffer_size then (Z.of_nat (length s), Some s)
    else (-1, Some (take (Z.to_nat (buffer_size - 1)) s)).
Proof.
  intros Hsize. unfold thermal_calibrated_to_csv_line.
  destruct (Z.eqb_spec buffer_size 0); [lia|].
  rewrite clamp_precision_eq. now apply snprintf_line.
Qed.

Lemma sun_sensors_calibrated_to_csv_line_spec (record : SunSensorsTelemetryCalibrated)
    (contents : char_buffer) (buffer_size : size_t) (precision : Z) :
  0 < buffer_size ->
  sun_sensors_calibrated_to_csv_line print_u print_f (Some record) (Some contents)
    buffer_size precision
  = let s := sun_sensors_line print_u print_f (clamp_precision precision) record in
    if Z.of_nat (length s) <? buffer_size then (Z.of_nat (length s), Some s)
    else (-1, Some (take (Z.to_nat (buffer_size - 1)) s)).
Proof.
  intros Hsize. unfold sun_sensors_calibrated_to_csv_line.
  destruct (Z.eqb_spec buffer_size 0); [lia|].
  rewrite clamp_precision_eq. now apply snprintf_line.
Qed.

Lemma thermal_formats (precision : Z) (record : ThermalTelemetryCalibrated) :
  formats (thermal_calibrated_to_csv_line print_u print_f) precision
    (fitting (thermal_line print_u print_f (clamp_precision precision))) record.
Proof.
  intros buffer. unfold fitting.
  rewrite thermal_calibrated_to_csv_line_spec by (unfold MAX_LINE_BUFFER; lia).
  cbn zeta.
  destruct (Z.ltb_spec (Z.of_nat (length (thermal_line print_u print_f
                                            (clamp_precision precision) record)))
              MAX_LINE_BUFFER).
  - eexists. split; [reflexivity|]. lia.
  - eexists _, _. split; [reflexivity|]. lia.
Qed.

Lemma sun_sensors_formats (precision : Z) (record : SunSensorsTelemetryCalibrated) :
  formats (sun_sensors_calibrated_to_csv_line print_u print_f) precision
    (fitting (sun_sensors_line print_u print_f (clamp_precision precision))) record.
Proof.
  intros buffer. unfold fitting.
  rewrite sun_sensors_calibrated_to_csv_line_spec by (unfold MAX_LINE_BUFFER; lia).
  cbn zeta.
  destruct (Z.ltb_spec (Z.of_nat (length (sun_sensors_line print_u print_f
                                            (clamp_precision precision) record)))
              MAX_LINE_BUFFER).
  - eexists. split; [reflexivity|]. lia.
  - eexists _, _. split; [reflexivity|]. lia.
Qed.
End csv_line_props.

(** X16. Both line formatters clamp the precision to 0..9. With an element
    and a buffer of positive size they return the length of the line and
    leave the whole line in the buffer when it is shorter than the buffer;
    otherwise they return -1 and leave the line cut to the buffer. Without an
    element, without a buffer or with size 0 they return 0 and write
    nothing. *)
Theorem csv_line_formatters (print_u : uint32_t -> c_string)
    (print_f : Z -> float -> c_string) :
  let result (buffer_size : size_t) (s : c_string) :=
    if Z.of_nat (length s) <? buffer_size then (Z.of_nat (length s), Some s)
    else (-1, Some (take (Z.to_nat (buffer_size - 1)) s)) in
  let untouched (buffer : option char_buffer) :=
    (0, match buffer with Some contents => contents | None => None end) in
  (forall record contents buffer_size precision,
     0 < buffer_size ->
     thermal_calibrated_to_csv_line print_u print_f (Some record) (Some contents)
       buffer_size precision
     = result buffer_size
         (thermal_line print_u print_f (clamp_precision precision) record))
  /\ (forall record buffer buffer_size precision,
        record = None \/ buffer = None \/ buffer_size = 0 ->
        thermal_calibrated_to_csv_line print_u print_f record buffer buffer_size precision
        = untouched buffer)
  /\ (forall record contents buffer_size precision,
        0 < buffer_size ->
        sun_sensors_calibrated_to_csv_line print_u print_f (Some record) (Some contents)
          buffer_size precision
        = result buffer_size
            (sun_sensors_line print_u print_f (clamp_precision precision) record))
  /\ (forall record buffer buffer_size precision,
        record = None \/ buffer = None \/ buffer_size = 0 ->
        sun_sensors_calibrated_to_csv_line print_u print_f record buffer buffer_size
          precision
        = untouched buffer).
Proof.
  intros result untouched. subst result untouched. cbn beta.
  split; [intros; now apply thermal_calibrated_to_csv_line_spec|].
  split.
  { intros [record|] [contents|] buffer_size precision H; try reflexivity.
    destruct H as [H | [H | ->]]; try discriminate. reflexivity. }
  split; [intros; now apply sun_sensors_calibrated_to_csv_line_spec|].
  intros [record|] [contents|] buffer_size precision H; try reflexivity.
  destruct H as [H | [H | ->]]; try discriminate. reflexivity.
Qed.

(** X17. The line buffer is large enough: if [%u] prints at most 10
    characters and [%.*f] with a precision of 0..9 at most 60, as they do for
    32-bit integers and for [float] values, both formatters succeed on every
    record with the 256-byte buffer of [write_array_to_csv], so that no row
    is left out of a CSV file. *)
Theorem csv_lines_fit (print_u : uint32_t -> c_string) (print_f : Z -> float -> c_string) :
  (forall value, (length (print_u value) <= 10)%nat) ->
  (forall precision value, 0 <= precision <= 9 ->
                           (length (print_f precision value) <= 60)%nat) ->
  (forall record contents precision,
     thermal_calibrated_to_csv_line print_u print_f (Some record) (Some contents)
       MAX_LINE_BUFFER precision
     = (Z.of_nat (length (thermal_line print_u print_f (clamp_precision precision) record)),
        Some (thermal_line print_u print_f (clamp_precision precision) record)))
  /\ (forall record contents precision,
        sun_sensors_calibrated_to_csv_line print_u print_f (Some record) (Some contents)
          MAX_LINE_BUFFER precision
        = (Z.of_nat (length (sun_sensors_line print_u print_f (clamp_precision precision)
                               record)),
           Some (sun_sensors_line print_u print_f (clamp_precision precision) record))).
Proof.
  intros Hu Hf.
  assert (Hclamp : forall precision, 0 <= clamp_precision precision <= 9)
    by (intros precision; unfold clamp_precision; lia).
  split; intros record contents precision.
  - rewrite thermal_calibrated_to_csv_line_spec by (unfold MAX_LINE_BUFFER; lia).
    cbn zeta.
    set (line := thermal_line print_u print_f (clamp_precision precision) record).
    assert (Hfit : Z.of_nat (length line) < MAX_LINE_BUFFER).
    { subst line. unfold thermal_line, MAX_LINE_BUFFER. rewrite !length_app. cbn [length].
      pose proof (Hu (thermal_telemetry_timestamp record)).
      pose proof (Hf _ (CPU_C record) (Hclamp precision)).
      pose proof (Hf _ (mirror_cell_C record) (Hclamp precision)). lia. }
    destruct (Z.ltb_spec (Z.of_nat (length line)) MAX_LINE_BUFFER); [reflexivity|lia].
  - rewrite sun_sensors_calibrated_to_csv_line_spec by (unfold MAX_LINE_BUFFER; lia).
    cbn zeta.
    set (line := sun_sensors_line print_u print_f (clamp_precision precision) record).
    assert (Hfit : Z.of_nat (length line) < MAX_LINE_BUFFER).
    { subst line. unfold sun_sensors_line, MAX_LINE_BUFFER. rewrite !length_app.
      cbn [length].
      pose proof (Hu (sun_sensors_telemetry_timestamp record)).
      pose proof (Hf _ (sun_vector_x record) (Hclamp precision)).
      pose proof (Hf _ (sun_vector_y record) (Hclamp precision)).
      pose proof (Hf _ (sun_vector_z record) (Hclamp precision)). lia. }
    destruct (Z.ltb_spec (Z.of_nat (length line)) MAX_LINE_BUFFER); [reflexivity|lia].
Qed.

(** ** Sorting, deduplication and export *)

Section pipeline.
Context {A : Type}.
Variable key : A -> Z.
Variable compar : A -> A -> Z.
Hypothesis compar_orders : orders_by key compar.
Variable qsort : forall A : Type, list A -> nat -> nat -> (A -> A -> Z) -> list A.
Hypothesis qsort_sorts : sorts qsort.

Lemma run_heads_covers (l : list A) (y : A) :
  y ∈ l -> exists x, x ∈ run_heads compar l /\ key x = key y.
Proof.
  destruct compar_orders as (_ & _ & Hzero & _).
  destruct l as [|a l]; [now intros ?%elem_of_nil|].
  intros [->|Hy]%elem_of_cons; cbn [run_heads].
  - exists a. split; [left|reflexivity].
  - now apply (keep_changes_covers key compar Hzero).
Qed.

(** [qsort] and [array_duplicate_removal] on a whole array. *)
Lemma sort_dedup (records : list A) (size : nat) :
  records <> [] -> size <> 0%nat ->
  exists kept stale,
    array_duplicate_removal
      (Some (qsort A records (length records) size compar)) (length records) size
      (Some compar)
    = Some (length kept, Some (kept ++ stale))
    /\ kept <> []
    /\ length (kept ++ stale) = length records
    /\ StronglySorted (key_lt key) kept
    /\ (forall x, x ∈ kept -> x ∈ records)
    /\ (forall y, y ∈ records -> exists x, x ∈ kept /\ key x = key y).
Proof.
  intros Hne Hsize.
  destruct (qsort_sorts A key compar records (length records) size compar_orders
              (Nat.le_refl _)) as (sorted & -> & Hperm & Hsorted).
  rewrite drop_all, app_nil_r. rewrite firstn_all in Hperm.
  assert (Hs : sorted <> []).
  { intros ->. apply Permutation_nil_r in Hperm. contradiction. }
  destruct compar_orders as (_ & _ & Hzero & _).
  destruct (run_heads_sorted key compar Hzero sorted Hsorted) as (Hss & Hsub & _ & _).
  exists (run_heads compar sorted), (drop (length (run_heads compar sorted)) sorted).
  split.
  { rewrite (Permutation_length Hperm).
    rewrite <- (app_nil_r sorted) at 1.
    rewrite array_duplicate_removal_run_heads by assumption.
    now rewrite app_nil_r. }
  split; [destruct sorted; [congruence|discriminate]|].
  split.
  { rewrite length_app, length_drop, (Permutation_length Hperm).
    apply sublist_length in Hsub. lia. }
  split; [exact Hss|]. split.
  - intros x Hx. rewrite Hperm. eapply elem_of_sublist; eassumption.
  - intros y Hy. apply run_heads_covers. now rewrite <- Hperm.
Qed.
End pipeline.

Section process_props.
Variable qsort : forall A : Type, list A -> nat -> nat -> (A -> A -> Z) -> list A.
Variable fprintf : OFILE -> c_string -> Z * OFILE.
Variable fopen : c_string -> bool.
Variable print_u : uint32_t -> c_string.
Variable print_f : Z -> float -> c_string.
Hypothesis qsort_sorts : sorts qsort.
Hypothesis fprintf_writes : writes_all fprintf.

(** The CSV file of a series: the header row and the line of every record
    that fits the line buffer. *)
Lemma write_series {A : Type} (filename : c_string) (kept stale : list A)
    (element_size : nat) (format : CsvLineFormatter A) (line : A -> c_string)
    (first_column_name : c_string) (columns : list c_string) :
  kept <> [] -> element_size <> 0%nat ->
  Z.of_nat (length (header_line first_column_name columns)) < 2 ^ 31 ->
  (forall record, formats format CSV_DECIMAL_PRECISION (fitting line) record) ->
  write_array_to_csv fprintf fopen (Some filename) (Some (kept ++ stale))
    (Z.of_nat (length kept)) (Z.of_nat element_size) (Some format) CSV_DECIMAL_PRECISION
    (Some first_column_name) ((Some <$> columns) ++ [None])
  = Some (if fopen filename
          then (1, Some (header_line first_column_name columns
                         ++ csv_rows (fitting line) kept))
          else (-1, None)).
Proof.
  intros Hkept Hsize Hhead Hformat.
  assert (Hlen : length kept <> 0%nat) by (destruct kept; [congruence|discriminate]).
  rewrite (write_array_to_csv_spec fprintf fopen fprintf_writes filename (kept ++ stale)
             (Z.of_nat (length kept)) (Z.of_nat element_size) format
             CSV_DECIMAL_PRECISION first_column_name columns [] (fitting line));
    try assumption; try lia.
  - now rewrite Nat2Z.id, take_app_length.
  - rewrite length_app. lia.
  - apply Forall_forall. intros record _. apply Hformat.
Qed.

Lemma process_thermal_data_spec (records : list ThermalTelemetryCalibrated) :
  records <> [] ->
  exists kept stale,
    process_thermal_data qsort fprintf fopen print_u print_f records
      (Z.of_nat (length records))
    = Some (1, kept ++ stale, Z.of_nat (length kept),
            if fopen THERMAL_DATA_CSV_FILENAME
            then Some (header_line rtc_s_column [CPU_C_column; mirror_cell_C_column]
                       ++ csv_rows (fitting (thermal_line print_u print_f
                                               CSV_DECIMAL_PRECISION)) kept)
            else None)
    /\ kept <> []
    /\ length (kept ++ stale) = length records
    /\ StronglySorted (key_lt thermal_telemetry_timestamp) kept
    /\ (forall x, x ∈ kept -> x ∈ records)
    /\ (forall y, y ∈ records ->
         exists x, x ∈ kept /\ thermal_telemetry_timestamp x = thermal_telemetry_timestamp y).
Proof.
  intros Hne.
  destruct (sort_dedup thermal_telemetry_timestamp thermal_timestamp_comparator
              thermal_orders qsort qsort_sorts records sizeof_ThermalTelemetryCalibrated Hne
              ltac:(discriminate))
    as (kept & stale & Hrun & Hkept & Hlen & Hss & Hin & Hcov).
  exists kept, stale. split; [|auto].
  unfold process_thermal_data. rewrite Nat2Z.id, Hrun.
  pose proof (write_series THERMAL_DATA_CSV_FILENAME kept stale
                sizeof_ThermalTelemetryCalibrated
                (thermal_calibrated_to_csv_line print_u print_f)
                (thermal_line print_u print_f CSV_DECIMAL_PRECISION)
                rtc_s_column [CPU_C_column; mirror_cell_C_column] Hkept
                ltac:(discriminate) ltac:(vm_compute; reflexivity)
                (thermal_formats print_u print_f CSV_DECIMAL_PRECISION)) as Hcsv.
  cbn [fmap list_fmap app] in Hcsv. cbv beta iota zeta.
  rewrite_call Hcsv.
  now destruct (fopen THERMAL_DATA_CSV_FILENAME).
Qed.

Lemma process_sun_sensors_data_spec (records : list SunSensorsTelemetryCalibrated) :
  records <> [] ->
  exists kept stale,
    process_sun_sensors_data qsort fprintf fopen print_u print_f records
      (Z.of_nat (length records))
    = Some (1, kept ++ stale, Z.of_nat (length kept),
            if fopen SUN_SENSOR_DATA_CSV_FILENAME
            then Some (header_line rtc_s_column
                         [sun_vector_x_column; sun_vector_y_column; sun_vector_z_column]
                       ++ csv_rows (fitting (sun_sensors_line print_u print_f
                                               CSV_DECIMAL_PRECISION)) kept)
            else None)
    /\ kept <> []
    /\ length (kept ++ stale) = length records
    /\ StronglySorted (key_lt sun_sensors_telemetry_timestamp) kept
    /\ (forall x, x ∈ kept -> x ∈ records)
    /\ (forall y, y ∈ records ->
         exists x, x ∈ kept
                   /\ sun_sensors_telemetry_timestamp x = sun_sensors_telemetry_timestamp y).
Proof.
  intros Hne.
  destruct (sort_dedup sun_sensors_telemetry_timestamp sun_sensors_timestamp_comparator
              sun_sensors_orders qsort qsort_sorts records
              sizeof_SunSensorsTelemetryCalibrated Hne ltac:(discriminate))
    as (kept & stale & Hrun & Hkept & Hlen & Hss & Hin & Hcov).
  exists kept, stale. split; [|auto].
  unfold process_sun_sensors_data. rewrite Nat2Z.id, Hrun.
  pose proof (write_series SUN_SENSOR_DATA_CSV_FILENAME kept stale
                sizeof_SunSensorsTelemetryCalibrated
                (sun_sensors_calibrated_to_csv_line print_u print_f)
                (sun_sensors_line print_u print_f CSV_DECIMAL_PRECISION)
                rtc_s_column
                [sun_vector_x_column; sun_vector_y_column; sun_vector_z_column] Hkept
                ltac:(discriminate) ltac:(vm_compute; reflexivity)
                (sun_sensors_formats print_u print_f CSV_DECIMAL_PRECISION)) as Hcsv.
  cbn [fmap list_fmap app] in Hcsv. cbv beta iota zeta.
  rewrite_call Hcsv.
  now destruct (fopen SUN_SENSOR_DATA_CSV_FILENAME).
Qed.
End process_props.

(** X18. [process_thermal_data] and [process_sun_sensors_data], called on a
    whole non-empty array with a [qsort] that sorts and writes that succeed,
    return 1 whether or not the CSV file could be created. They leave at the
    front of the array a series with strictly ascending timestamps that
    consists of records of the array and has a record for every timestamp of
    the array, set the length to the length of that series, and write the
    file, if it can be created, with the header row and the line of every
    record of the series that fits the line buffer. *)
Theorem process_data_series
    (qsort : forall A : Type, list A -> nat -> nat -> (A -> A -> Z) -> list A)
    (fprintf : OFILE -> c_string -> Z * OFILE) (fopen : c_string -> bool)
    (print_u : uint32_t -> c_string) (print_f : Z -> float -> c_string) :
  sorts qsort -> writes_all fprintf ->
  (forall records : list ThermalTelemetryCalibrated,
     records <> [] ->
     exists kept stale,
       process_thermal_data qsort fprintf fopen print_u print_f records
         (Z.of_nat (length records))
       = Some (1, kept ++ stale, Z.of_nat (length kept),
               if fopen THERMAL_DATA_CSV_FILENAME
               then Some (header_line rtc_s_column [CPU_C_column; mirror_cell_C_column]
                          ++ csv_rows (fitting (thermal_line print_u print_f
                                                  CSV_DECIMAL_PRECISION)) kept)
               else None)
       /\ kept <> []
       /\ length (kept ++ stale) = length records
       /\ StronglySorted (key_lt thermal_telemetry_timestamp) kept
       /\ (forall x, x ∈ kept -> x ∈ records)
       /\ (forall y, y ∈ records ->
            exists x, x ∈ kept
                      /\ thermal_telemetry_timestamp x = thermal_telemetry_timestamp y))
  /\ (forall records : list SunSensorsTelemetryCalibrated,
        records <> [] ->
        exists kept stale,
          process_sun_sensors_data qsort fprintf fopen print_u print_f records
            (Z.of_nat (length records))
          = Some (1, kept ++ stale, Z.of_nat (length kept),
                  if fopen SUN_SENSOR_DATA_CSV_FILENAME
                  then Some (header_line rtc_s_column
                               [sun_vector_x_column; sun_vector_y_column;
                                sun_vector_z_column]
                             ++ csv_rows (fitting (sun_sensors_line print_u print_f
                                                     CSV_DECIMAL_PRECISION)) kept)
                  else None)
          /\ kept <> []
          /\ length (kept ++ stale) = length records
          /\ StronglySorted (key_lt sun_sensors_telemetry_timestamp) kept
          /\ (forall x, x ∈ kept -> x ∈ records)
          /\ (forall y, y ∈ records ->
               exists x, x ∈ kept
                         /\ sun_sensors_telemetry_timestamp x
                            = sun_sensors_telemetry_timestamp y)).
Proof.
  intros Hsorts Hwrites. split; intros records Hne.
  - now apply process_thermal_data_spec.
  - now apply process_sun_sensors_data_spec.
Qed.

(** ** The program *)

Section main_props.
Variable realloc_succeeds : Z -> bool.
Variable qsort : forall A : Type, list A -> nat -> nat -> (A -> A -> Z) -> list A.
Variable fprintf : OFILE -> c_string -> Z * OFILE.
Variable fopen : c_string -> bool.
Variable print_u : uint32_t -> c_string.
Variable print_f : Z -> float -> c_string.


(** X20. On a telemetry file made of at least one valid frame, each after a
    first marker, and ending without a marker, with memory to spare, a
    [qsort] that sorts and writes that succeed, the program exits with status
    0, also when a CSV file cannot be created. Each CSV file that can be
    created holds the header row and the lines, as far as they fit the line
    buffer, of a series with strictly ascending timestamps that consists of
    records of frames of the file and has a record for the timestamp (the
    big-endian [rtc_s]) of every frame. *)
Theorem main_end_to_end (chunks : list (list byte * BeaconFrame)) (rest : list byte)
    (frame : BeaconFrame) :
  sorts qsort -> writes_all fprintf -> (forall bytes, realloc_succeeds bytes = true) ->
  chunks <> [] -> Forall (frame_chunk main_header) chunks -> no_beacon main_header rest ->
  (Z.of_nat (length chunks) + 129) * 16 < 2 ^ 64 ->
  exists thermal_series sun_sensor_series,
    main realloc_succeeds qsort fprintf fopen print_u print_f
      (Some (frames_stream chunks ++ rest)) frame
    = Some (Build_main_result 0
              (if fopen THERMAL_DATA_CSV_FILENAME
               then Some (header_line rtc_s_column [CPU_C_column; mirror_cell_C_column]
                          ++ csv_rows (fitting (thermal_line print_u print_f
                                                  CSV_DECIMAL_PRECISION)) thermal_series)
               else None)
              (if fopen SUN_SENSOR_DATA_CSV_FILENAME
               then Some (header_line rtc_s_column
                            [sun_vector_x_column; sun_vector_y_column; sun_vector_z_column]
                          ++ csv_rows (fitting (sun_sensors_line print_u print_f
                                                  CSV_DECIMAL_PRECISION))
                               sun_sensor_series)
               else None))
    /\ series_of thermal_telemetry_timestamp thermal_of_frame chunks thermal_series
    /\ series_of sun_sensors_telemetry_timestamp sun_sensors_of_frame chunks
         sun_sensor_series.
Proof.
  intros Hsorts Hwrites Hre Hne Hchunks Hrest Hfit.
  pose proof (frames_stream_length _ _ Hchunks) as Hlen.
  destruct (read_frames_collects realloc_succeeds chunks rest
              (S (length (frames_stream chunks ++ rest))) frame collector_init
              collector_init 0 Hre Hchunks Hrest
              ltac:(rewrite length_app; lia)
              (collector_init_inv _) (collector_init_inv _)
              ltac:(cbn [Nat.add]; lia))
    as (thermal & sun_sensor & Hloop & Hth & Hsun & Ha & Hsa).
  cbn [Nat.add telemetry_array collector_init app] in *.
  destruct Hth as (Harr & Htl & _). destruct Hsun as (Hsarr & Hsl & _).
  assert (Hn : length chunks <> 0%nat) by (destruct chunks; [congruence|discriminate]).
  assert (Hrecords : telemetry_array thermal <> []).
  { intros E. rewrite E in Harr. cbn in Harr. lia. }
  assert (Hsrecords : telemetry_array sun_sensor <> []).
  { intros E. rewrite E in Hsarr. cbn in Hsarr. lia. }
  destruct (process_thermal_data_spec qsort fprintf fopen print_u print_f Hsorts Hwrites
              (telemetry_array thermal) Hrecords)
    as (kept & stale & Hp & _ & _ & Hss & Hin & Hcov).
  destruct (process_sun_sensors_data_spec qsort fprintf fopen print_u print_f Hsorts
              Hwrites (telemetry_array sun_sensor) Hsrecords)
    as (skept & sstale & Hsp & _ & _ & Hsss & Hsin & Hscov).
  exists kept, skept. split.
  - unfold main. rewrite_call Hloop. cbv beta iota.
    unfold size_t in *. rewrite Htl, Hsl.
    destruct (Z.eqb_spec (Z.of_nat (length chunks)) 0); [lia|]. cbn [orb].
    rewrite Harr in Hp. rewrite Hsarr in Hsp.
    rewrite_call Hp. rewrite_call Hsp. reflexivity.
  - split; (split; [assumption|split]).
    + intros x Hx. apply Hin in Hx. rewrite Ha in Hx.
      apply list_elem_of_fmap in Hx as (chunk & -> & Hc). now exists chunk.
    + intros chunk Hc.
      destruct (Hcov (thermal_of_frame chunk.2)) as (x & Hx & Hk).
      { rewrite Ha. apply list_elem_of_fmap. now exists chunk. }
      exists x. split; [exact Hx|]. now rewrite Hk.
    + intros x Hx. apply Hsin in Hx. rewrite Hsa in Hx.
      apply list_elem_of_fmap in Hx as (chunk & -> & Hc). now exists chunk.
    + intros chunk Hc.
      destruct (Hscov (sun_sensors_of_frame chunk.2)) as (x & Hx & Hk).
      { rewrite Hsa. apply list_elem_of_fmap. now exists chunk. }
      exists x. split; [exact Hx|]. now rewrite Hk.
Qed.
End main_props.

(** ** Instances of the further properties *)

Lemma sample_frame_wf : wf_frame sample_frame.
Proof.
  unfold wf_frame, wf_platform, wf_memory, wf_cdh, wf_power, wf_thermal, wf_aocs,
    wf_payload.
  cbn. repeat split; lia.
Qed.

Lemma sample_frame_ids : ids_match sample_frame.
Proof. repeat split. Qed.

Lemma first_beacon_from_search (header : BeaconHeader) (consumed : list byte) :
  find_beacon header [Byte.x00; Byte.x00; Byte.x00] 0 consumed = Some [] ->
  first_beacon header consumed.
Proof.
  intros (c & E & Hc)%find_beacon_some_iff. rewrite app_nil_r in E. now subst.
Qed.

Lemma no_beacon_nil (header : BeaconHeader) : no_beacon header [].
Proof. now apply find_beacon_none_iff. Qed.

Lemma sample_chunks_valid : Forall (frame_chunk main_header) sample_chunks.
Proof.
  repeat apply Forall_cons_2; [..|apply Forall_nil_2];
    (split; [now apply first_beacon_from_search
            |split; [exact sample_frame_wf|exact sample_frame_ids]]).
Qed.

Lemma sample_fprintf_writes : writes_all sample_fprintf.
Proof. intros file s. reflexivity. Qed.

Lemma sample_qsort_sorts : sorts sample_qsort.
Proof.
  intros A key compar base nmemb size (_ & Hlt & Hzero & Hanti & _) Hn.
  unfold sample_qsort.
  assert (Hle : forall x y, compar x y <= 0 <-> key_le key x y).
  { intros x y. unfold key_le. specialize (Hlt x y). specialize (Hzero x y). lia. }
  assert (Htotal : Total (fun x y => compar x y <= 0)).
  { intros x y. specialize (Hanti x y). lia. }
  eexists. split; [reflexivity|]. split; [symmetry; apply merge_sort_Permutation|].
  pose proof (Sorted_merge_sort (fun x y => compar x y <= 0)
                (H := fun x y => decide (compar x y <= 0)) (take nmemb base)) as Hs.
  induction Hs as [|x l Hs IH Hhd]; constructor; [exact IH|].
  destruct Hhd; constructor. now apply Hle.
Qed.

Lemma thermal_calibration_accuracy_witness :
  exists num den : Z,
    float_fraction (TEMP_C_PHYSICAL_VALUE 2500) = Some (num, den)
    /\ 0 < den
    /\ Z.abs (100 * num - 2500 * den) * 256 <= den
    /\ (200 * num + den) / (2 * den) = 2500.
Proof. apply (thermal_calibration_accuracy 2500). lia. Defined.

Lemma sun_sensors_calibration_exact_witness :
  exists num den : Z,
    float_fraction (SUN_SENSORS_PHYSICAL_VALUE (-8192)) = Some (num, den)
    /\ 0 < den
    /\ num * 16384 = -8192 * den.
Proof. apply (sun_sensors_calibration_exact (-8192)). lia. Defined.

Lemma array_duplicate_removal_keeps_run_heads_witness :
  exists (k : nat) (p' : list ThermalTelemetryCalibrated),
    array_duplicate_removal (Some sample_series) 4 sizeof_ThermalTelemetryCalibrated
      (Some thermal_timestamp_comparator) = Some (k, Some p')
    /\ take k p' = run_heads thermal_timestamp_comparator (take 4 sample_series)
    /\ drop k p' = drop k sample_series
    /\ p' !! 0%nat = sample_series !! 0%nat
    /\ forall i x y, (S i < k)%nat -> p' !! i = Some x -> p' !! S i = Some y ->
                     thermal_timestamp_comparator y x <> 0.
Proof.
  apply (array_duplicate_removal_keeps_run_heads thermal_timestamp_comparator
           sample_series 4 sizeof_ThermalTelemetryCalibrated).
  - discriminate.
  - discriminate.
  - vm_compute. lia.
Defined.

Lemma array_duplicate_removal_idempotent_witness :
  array_duplicate_removal
    (Some [sample_record 1 0; sample_record 3 1; sample_record 5 3; sample_record 5 3;
           sample_record 5 4])
    3 sizeof_ThermalTelemetryCalibrated (Some thermal_timestamp_comparator)
  = Some (3%nat,
          Some [sample_record 1 0; sample_record 3 1; sample_record 5 3;
                sample_record 5 3; sample_record 5 4]).
Proof.
  apply (array_duplicate_removal_idempotent thermal_timestamp_comparator sample_series
           _ 5 3 sizeof_ThermalTelemetryCalibrated).
  - discriminate.
  - discriminate.
  - vm_compute. lia.
  - vm_compute. reflexivity.
Defined.

Lemma read_loop_ends_witness :
  exists exit,
    read_frames (fun _ => true) 1
      (read_data_frame (Some (beacon_bytes main_header ++ take 50 (encode_frame sample_frame)))
         main_header (Some zero_frame))
      collector_init collector_init
    = Some exit
    /\ match exit with
       | LoopEnd read_state thermal sun_sensor =>
           exists chunks rest,
             beacon_bytes main_header ++ take 50 (encode_frame sample_frame)
             = frames_stream chunks ++ rest
             /\ Forall (frame_chunk main_header) chunks
             /\ telemetry_array thermal = (fun chunk => thermal_of_frame chunk.2) <$> chunks
             /\ telemetry_array sun_sensor
                = (fun chunk => sun_sensors_of_frame chunk.2) <$> chunks
             /\ telemetry_length thermal = Z.of_nat (length chunks)
             /\ telemetry_length sun_sensor = Z.of_nat (length chunks)
             /\ (read_state = READ_EOF /\ no_beacon main_header rest
                 \/ read_state = READ_FAIL /\ broken_frame main_header rest)
       | LoopNoMemory => exists bytes, (fun _ : Z => true) bytes = false
       | LoopUndefined => False
       end.
Proof.
  apply (read_loop_ends (fun _ => true)
           (beacon_bytes main_header ++ take 50 (encode_frame sample_frame)) 1 zero_frame).
  - vm_compute. lia.
  - vm_compute. reflexivity.
Defined.

Lemma read_loop_collects_witness :
  exists thermal sun_sensor,
    read_frames (fun _ => true) 2
      (read_data_frame (Some (frames_stream sample_chunks ++ [])) main_header
         (Some zero_frame))
      collector_init collector_init
    = Some (LoopEnd READ_EOF thermal sun_sensor)
    /\ telemetry_array thermal = (fun chunk => thermal_of_frame chunk.2) <$> sample_chunks
    /\ telemetry_array sun_sensor
       = (fun chunk => sun_sensors_of_frame chunk.2) <$> sample_chunks
    /\ telemetry_length thermal = Z.of_nat (length sample_chunks)
    /\ telemetry_length sun_sensor = Z.of_nat (length sample_chunks).
Proof.
  apply (read_loop_collects (fun _ => true) sample_chunks [] 2 zero_frame).
  - reflexivity.
  - exact sample_chunks_valid.
  - apply no_beacon_nil.
  - vm_compute. lia.
  - vm_compute. reflexivity.
Defined.

Lemma write_header_row_witness :
  write_header sample_fprintf [] (Some rtc_s_column)
    ((Some <$> [CPU_C_column; mirror_cell_C_column]) ++ [None])
  = Some (Z.of_nat (length (header_line rtc_s_column [CPU_C_column; mirror_cell_C_column])),
          [] ++ header_line rtc_s_column [CPU_C_column; mirror_cell_C_column])
  /\ forall args, write_header sample_fprintf [] None args = Some (-1, []).
Proof.
  apply (write_header_row sample_fprintf [] rtc_s_column
           [CPU_C_column; mirror_cell_C_column] []).
  - exact sample_fprintf_writes.
  - vm_compute. reflexivity.
Defined.

Lemma write_array_to_csv_rows_witness :
  write_array_to_csv sample_fprintf (fun _ => true) (Some THERMAL_DATA_CSV_FILENAME)
    (Some sample_series) 2 12
    (Some (thermal_calibrated_to_csv_line sample_print_u sample_print_f)) 2
    (Some rtc_s_column) ((Some <$> [CPU_C_column; mirror_cell_C_column]) ++ [None])
  = Some (1, Some (header_line rtc_s_column [CPU_C_column; mirror_cell_C_column]
                   ++ csv_rows (fitting (thermal_line sample_print_u sample_print_f
                                           (clamp_precision 2)))
                        (take (Z.to_nat 2) sample_series))).
Proof.
  apply (write_array_to_csv_rows sample_fprintf (fun _ => true) THERMAL_DATA_CSV_FILENAME
           sample_series 2 12
           (thermal_calibrated_to_csv_line sample_print_u sample_print_f) 2
           rtc_s_column [CPU_C_column; mirror_cell_C_column] []
           (fitting (thermal_line sample_print_u sample_print_f (clamp_precision 2)))).
  - exact sample_fprintf_writes.
  - unfold sample_series. cbn [length]. lia.
  - lia.
  - vm_compute. reflexivity.
  - apply Forall_forall. intros record _. apply thermal_formats.
Defined.

Lemma write_array_to_csv_status_witness :
  write_array_to_csv sample_fprintf (fun _ => true) None (Some sample_series) 5 12
    (Some (thermal_calibrated_to_csv_line sample_print_u sample_print_f)) 2
    (Some rtc_s_column) [None]
  = Some (-1, None)
  /\ (-1 = 1 -> exists contents, @None OFILE = Some contents).
Proof.
  split; [reflexivity|].
  apply (write_array_to_csv_status sample_fprintf (fun _ => true) None (Some sample_series)
           5 12 (Some (thermal_calibrated_to_csv_line sample_print_u sample_print_f)) 2
           (Some rtc_s_column) [None] (-1) None).
  reflexivity.
Defined.

Lemma process_data_series_witness :
  exists kept stale,
    process_thermal_data sample_qsort sample_fprintf (fun _ => false) sample_print_u
      sample_print_f sample_series (Z.of_nat (length sample_series))
    = Some (1, kept ++ stale, Z.of_nat (length kept), None)
    /\ kept <> []
    /\ length (kept ++ stale) = length sample_series
    /\ StronglySorted (key_lt thermal_telemetry_timestamp) kept
    /\ (forall x, x ∈ kept -> x ∈ sample_series)
    /\ (forall y, y ∈ sample_series ->
         exists x, x ∈ kept
                   /\ thermal_telemetry_timestamp x = thermal_telemetry_timestamp y).
Proof.
  apply (proj1 (process_data_series sample_qsort sample_fprintf (fun _ => false)
                  sample_print_u sample_print_f sample_qsort_sorts sample_fprintf_writes)
           sample_series).
  discriminate.
Defined.


Lemma main_end_to_end_witness :
  exists thermal_series sun_sensor_series,
    main (fun _ => true) sample_qsort sample_fprintf (fun _ => true) sample_print_u
      sample_print_f (Some (frames_stream sample_chunks ++ [])) zero_frame
    = Some (Build_main_result 0
              (Some (header_line rtc_s_column [CPU_C_column; mirror_cell_C_column]
                     ++ csv_rows (fitting (thermal_line sample_print_u sample_print_f
                                             CSV_DECIMAL_PRECISION)) thermal_series))
              (Some (header_line rtc_s_column
                       [sun_vector_x_column; sun_vector_y_column; sun_vector_z_column]
                     ++ csv_rows (fitting (sun_sensors_line sample_print_u sample_print_f
                                             CSV_DECIMAL_PRECISION)) sun_sensor_series)))
    /\ series_of thermal_telemetry_timestamp thermal_of_frame sample_chunks thermal_series
    /\ series_of sun_sensors_telemetry_timestamp sun_sensors_of_frame sample_chunks
         sun_sensor_series.
Proof.
  apply (main_end_to_end (fun _ => true) sample_qsort sample_fprintf (fun _ => true)
           sample_print_u sample_print_f sample_chunks [] zero_frame).
  - exact sample_qsort_sorts.
  - exact sample_fprintf_writes.
  - reflexivity.
  - discriminate.
  - exact sample_chunks_valid.
  - apply no_beacon_nil.
  - vm_compute. reflexivity.
Defined.

Lemma calibrated_values_of_wire_bytes_witness :
  let bs := encode_frame sample_frame in
  @nil byte = []
  /\ thermal_telemetry_timestamp (thermal_of_frame sample_frame)
     = big_endian (take 4 (drop 6 bs))
  /\ sun_sensors_telemetry_timestamp (sun_sensors_of_frame sample_frame)
     = big_endian (take 4 (drop 6 bs))
  /\ CPU_C (thermal_of_frame sample_frame)
     = TEMP_C_PHYSICAL_VALUE (to_int16 (big_endian (take 2 (drop 51 bs))))
  /\ mirror_cell_C (thermal_of_frame sample_frame)
     = TEMP_C_PHYSICAL_VALUE (to_int16 (big_endian (take 2 (drop 53 bs))))
  /\ sun_vector_x (sun_sensors_of_frame sample_frame)
     = SUN_SENSORS_PHYSICAL_VALUE (to_int16 (big_endian (take 2 (drop 61 bs))))
  /\ sun_vector_y (sun_sensors_of_frame sample_frame)
     = SUN_SENSORS_PHYSICAL_VALUE (to_int16 (big_endian (take 2 (drop 63 bs))))
  /\ sun_vector_z (sun_sensors_of_frame sample_frame)
     = SUN_SENSORS_PHYSICAL_VALUE (to_int16 (big_endian (take 2 (drop 65 bs)))).
Proof.
  apply (calibrated_values_of_wire_bytes main_header (beacon_bytes main_header)
           (encode_frame sample_frame) [] [] zero_frame sample_frame).
  - now apply first_beacon_from_search.
  - apply encode_frame_length.
  - apply read_data_frame_chunk;
      [now apply first_beacon_from_search|exact sample_frame_wf|exact sample_frame_ids].
Defined.

Lemma csv_lines_fit_witness :
  thermal_calibrated_to_csv_line sample_print_u sample_print_f
    (Some (sample_record 3 1)) (Some None) MAX_LINE_BUFFER 2
  = (Z.of_nat (length (thermal_line sample_print_u sample_print_f (clamp_precision 2)
                         (sample_record 3 1))),
     Some (thermal_line sample_print_u sample_print_f (clamp_precision 2)
             (sample_record 3 1))).
Proof.
  apply (proj1 (csv_lines_fit sample_print_u sample_print_f
                  ltac:(intros; cbn; lia) ltac:(intros; cbn; lia))).
Defined.
